(** * mongoose-zod-schema-builder: the schema compilers, the error
      normalizer and the compilation cache

    A shallow embedding of [createMongooseSchema], [createZodSchema],
    [normalizeZodErrors] and [createSchemas] (index.js), with the properties
    of the specification stated over it.

    Conventions.
    - A JavaScript value is a [value]; an object is the list of its
      properties in enumeration order (the order [Object.entries] yields).
    - Numbers are restricted to integers ([Z]); a string is a sequence of
      code units below 256.
    - A computation that can throw returns an [outcome].
    - Zod and Mongoose are libraries the repository imports.  Rules built
      through the [z] builders are [zschema] trees, and [accepts] gives the
      success of [parse] on them; a schema built by [new mongoose.Schema] is
      the record of what the constructor and the registration calls received.
    - The module state of index.js (the cache and the pairs it has handed
      out) is a [store] passed through [createSchemas]; for the effects of
      [createZodSchema] on its arguments the definition lives in a [heap]
      of objects and the compiler runs on references into it.
    - Line numbers are those of the source file that holds the two
      compilers: mongooseSchema.js (lines 1-267) followed by zodSchema.js. *)

From Stdlib Require Import ZArith Ascii String List Bool Lia.
From stdpp Require Import base option list gmap strings pretty.

#[local] Set Warnings "-register-all".
Local Open Scope string_scope.
Local Open Scope list_scope.

(** ** Strings *)

(** [c.toLowerCase()] on one code unit: A-Z, and the Latin-1 capitals
    (0xC0-0xDE without the multiplication sign 0xD7), move up by 32. *)
Definition lower_ascii (c : ascii) : ascii :=
  let n := nat_of_ascii c in
  if ((65 <=? n) && (n <=? 90))%nat then ascii_of_nat (n + 32)
  else if ((192 <=? n) && (n <=? 222) && negb (n =? 215))%nat
       then ascii_of_nat (n + 32)
  else c.

Fixpoint toLowerCase (s : string) : string :=
  match s with
  | EmptyString => EmptyString
  | String c t => String (lower_ascii c) (toLowerCase t)
  end.

(** [hay.includes(needle)] *)
Fixpoint includes (needle hay : string) : bool :=
  if String.prefix needle hay then true
  else match hay with
       | EmptyString => false
       | String _ t => includes needle t
       end.

Fixpoint string_forallb (p : ascii -> bool) (s : string) : bool :=
  match s with
  | EmptyString => true
  | String c t => p c && string_forallb p t
  end.

Fixpoint string_existsb (p : ascii -> bool) (s : string) : bool :=
  match s with
  | EmptyString => false
  | String c t => p c || string_existsb p t
  end.

Definition in_range (lo hi : nat) (c : ascii) : bool :=
  ((lo <=? nat_of_ascii c) && (nat_of_ascii c <=? hi))%nat.

Definition is_lower (c : ascii) : bool := in_range 97 122 c.
Definition is_upper (c : ascii) : bool := in_range 65 90 c.
Definition is_digit (c : ascii) : bool := in_range 48 57 c.
Definition is_hex (c : ascii) : bool :=
  is_digit c || in_range 97 102 c || in_range 65 70 c.

(** The symbol class of the default password pattern: [[@$!%*?&#]]. *)
Definition is_symbol (c : ascii) : bool :=
  existsb (Ascii.eqb c) ["@"; "$"; "!"; "%"; "*"; "?"; "&"; "#"]%char.

(** ** Values *)

(** The constructors a [type] token can be: the JavaScript globals, and
    [mongoose.Schema.Types.ObjectId] and [mongoose.Schema.Types.Mixed]. *)
Inductive builtin : Type :=
| BString | BNumber | BBoolean | BDate | BArray | BObject | BMap
| BObjectId | BMixed.

(** The validator closures [createMongooseSchema] creates (lines 161-189). *)
Inductive validator : Type :=
| EmailValidator
| RegExpValidator (src flags : string)   (* v => propValue.test(v) *)
| PatternValidator (src : string).       (* v => new RegExp(propValue).test(v) *)

Inductive value : Type :=
| VUndefined
| VNull
| VBool (b : bool)
| VNum (n : Z)
| VStr (s : string)
| VBuiltin (b : builtin)
| VRegExp (src flags : string)
| VFun (id : nat)             (* a function other than the constructors *)
| VValidator (v : validator)
| VArr (l : list value)
| VObj (props : list (string * value)).

Definition obj (A : Type) : Type := list (string * A).

Definition builtin_eqb (a b : builtin) : bool :=
  match a, b with
  | BString, BString | BNumber, BNumber | BBoolean, BBoolean
  | BDate, BDate | BArray, BArray | BObject, BObject | BMap, BMap
  | BObjectId, BObjectId | BMixed, BMixed => true
  | _, _ => false
  end.

(** [Boolean(v)] *)
Definition truthy (v : value) : bool :=
  match v with
  | VUndefined | VNull => false
  | VBool b => b
  | VNum n => negb (n =? 0)%Z
  | VStr s => negb (String.eqb s "")
  | _ => true
  end.

(** [a || b] *)
Definition js_or (a b : value) : value := if truthy a then a else b.

Definition is_undefined (v : value) : bool :=
  match v with VUndefined => true | _ => false end.

Definition is_true (v : value) : bool :=
  match v with VBool true => true | _ => false end.

Definition is_false (v : value) : bool :=
  match v with VBool false => true | _ => false end.

(** [v === s] for a string literal [s] *)
Definition is_str (s : string) (v : value) : bool :=
  match v with VStr t => String.eqb t s | _ => false end.

(** [v === C] for a constructor [C] *)
Definition is_builtin (c : builtin) (v : value) : bool :=
  match v with VBuiltin b => builtin_eqb b c | _ => false end.

(** ** Objects as ordered property lists *)

Fixpoint lookup_key {A} (k : string) (o : obj A) : option A :=
  match o with
  | [] => None
  | (k', v) :: rest => if String.eqb k' k then Some v else lookup_key k rest
  end.

(** [o[k] = v]: overwrite in place, or append a new property. *)
Fixpoint set_key {A} (k : string) (v : A) (o : obj A) : obj A :=
  match o with
  | [] => [(k, v)]
  | (k', v') :: rest =>
      if String.eqb k' k then (k', v) :: rest else (k', v') :: set_key k v rest
  end.

(** [o[k] = v] for a key [k] computed at run time (lines 222 and 627).  The
    key [__proto__] is the accessor every plain object inherits: assigning
    to it sets the prototype of [o] and adds no property.  The prototype of
    an object is not part of the model. *)
Definition assign_key {A} (k : string) (v : A) (o : obj A) : obj A :=
  if String.eqb k "__proto__" then o else set_key k v o.

Definition remove_key {A} (k : string) (o : obj A) : obj A :=
  filter (fun p => negb (String.eqb (fst p) k)) o.

(** [v.k] on a value that is neither null nor undefined.  The names the
    sources read ([type], [items], [schema], [regex], [default], [path], ...)
    are own properties of plain objects only. *)
Definition get_prop (v : value) (k : string) : value :=
  match v with
  | VObj props => default VUndefined (lookup_key k props)
  | _ => VUndefined
  end.

(** ** Outcomes *)

Inductive exn : Type :=
| TypeError
| SyntaxError
| Error (msg : string).

(** [Foreign] is the call of a function the caller supplied: what happens
    next is not the repository's code. *)
Inductive outcome (A : Type) : Type :=
| Ret (a : A)
| Throw (e : exn)
| Foreign.
Arguments Ret {A} a.
Arguments Throw {A} e.
Arguments Foreign {A}.

Definition bind {A B} (m : outcome A) (k : A -> outcome B) : outcome B :=
  match m with
  | Ret a => k a
  | Throw e => Throw e
  | Foreign => Foreign
  end.

Notation "'let*' x ':=' m 'in' k" := (bind m (fun x => k))
  (at level 10, x pattern, m at level 100, k at level 200).

Fixpoint mapM {A B} (f : A -> outcome B) (l : list A) : outcome (list B) :=
  match l with
  | [] => Ret []
  | x :: t => let* y := f x in let* ys := mapM f t in Ret (y :: ys)
  end.

Fixpoint foldM {A B} (f : B -> A -> outcome B) (l : list A) (b : B) : outcome B :=
  match l with
  | [] => Ret b
  | x :: t => let* b' := f b x in foldM f t b'
  end.

(** [v.k] for any [v]: reading a property of null or undefined throws. *)
Definition get_member (v : value) (k : string) : outcome value :=
  match v with
  | VUndefined | VNull => Throw TypeError
  | _ => Ret (get_prop v k)
  end.

(** Index keys ["0"], ["1"], ... of an array or a string. *)
Fixpoint indexed {A} (i : nat) (l : list A) : obj A :=
  match l with
  | [] => []
  | x :: t => (pretty i, x) :: indexed (S i) t
  end.

Fixpoint chars (s : string) : list value :=
  match s with
  | EmptyString => []
  | String c t => VStr (String c EmptyString) :: chars t
  end.

(** The own enumerable properties of [v], as the spread [{...v}] copies
    them. *)
Definition own_props (v : value) : obj value :=
  match v with
  | VObj props => props
  | VArr l => indexed 0 l
  | VStr s => indexed 0 (chars s)
  | _ => []
  end.

(** [Object.entries(v)] *)
Definition Object_entries (v : value) : outcome (obj value) :=
  match v with
  | VUndefined | VNull => Throw TypeError
  | _ => Ret (own_props v)
  end.

(** ** The runtime and the libraries' parameters *)

(** What the JavaScript engine and the regular-expression engine compute and
    the repository only calls. *)
Class Runtime : Type := {
  (** [String(v)] for a value other than a string, undefined, null or a
      boolean *)
  ToString_other : value -> string;
  (** [Number(v)] for a value other than a number; [None] is NaN *)
  ToNumber_other : value -> option Z;
  (** does [new RegExp(src)] succeed *)
  regexp_valid : string -> bool;
  (** [new RegExp(src, flags).test(s)] *)
  regexp_test : string -> string -> string -> bool;
  (** Zod's e-mail format *)
  email_test : string -> bool;
  (** does an object rule of Zod accept an input that lacks a key whose rule
      is [z.any()]: the releases of Zod 4 differ *)
  any_key_optional : bool;
  (** [JSON.stringify] of an object *)
  JSON_stringify : value -> string
}.

Section Compilers.
Context {R : Runtime}.

(** [String(v)], as a template literal coerces. *)
Definition ToString (v : value) : string :=
  match v with
  | VStr s => s
  | VUndefined => "undefined"
  | VNull => "null"
  | VBool true => "true"
  | VBool false => "false"
  | _ => ToString_other v
  end.

(** [Number(v)] *)
Definition ToNumber (v : value) : option Z :=
  match v with
  | VNum n => Some n
  | _ => ToNumber_other v
  end.

(** [l.join(sep)]: null and undefined elements print as the empty string. *)
Definition join_elem (v : value) : string :=
  match v with
  | VUndefined | VNull => ""
  | _ => ToString v
  end.

Definition join (sep : string) (l : list value) : string :=
  String.concat sep (map join_elem l).

(** Functions: calling one leaves the repository's code. *)
Definition callable (v : value) : bool :=
  match v with
  | VFun _ | VBuiltin _ | VValidator _ => true
  | _ => false
  end.

(** [recv.name(...)] where [recv] is not of the class that has the method:
    a TypeError, unless [recv] carries a function under that name. *)
Definition call_missing {A} (recv : value) (name : string) : outcome A :=
  match recv with
  | VObj props =>
      match lookup_key name props with
      | Some f => if callable f then Foreign else Throw TypeError
      | None => Throw TypeError
      end
  | _ => Throw TypeError
  end.

(** [val.toLowerCase()] *)
Definition call_toLowerCase (val : value) : outcome string :=
  match val with
  | VStr s => Ret (toLowerCase s)
  | _ => call_missing val "toLowerCase"
  end.

(** [recv.map(f)] *)
Definition call_map {A} (recv : value) (f : value -> outcome A) : outcome (list A) :=
  match recv with
  | VArr l => mapM f l
  | _ => call_missing recv "map"
  end.

(** [recv.join(sep)] *)
Definition call_join (recv : value) (sep : string) : outcome string :=
  match recv with
  | VArr l => Ret (join sep l)
  | _ => call_missing recv "join"
  end.

(** ** Zod rules *)

(** The pattern of a [.regex] check: the two literals of the source, or a
    pattern of the caller. *)
Inductive regex : Type :=
| RxObjectId                    (* /^[0-9a-fA-F]{24}$/ *)
| RxPassword                    (* defaultPasswordRegex, line 617 *)
| RxUser (src flags : string).

Inductive str_check : Type :=
| SMin (bound msg : value)                       (* .min(n, { message }) *)
| SMax (bound msg : value)                       (* .max(n, { message }) *)
| SLength (n : Z) (msg : string)                 (* .length(n, msg) *)
| SEmail (msg : string)                          (* .email({ message }) *)
| SRegex (r : regex) (msg : value)               (* .regex(r, { message }) *)
| SToLowerCase                                   (* .toLowerCase() *)
| SIncludes (allowed : list string) (msg : string).
    (* .refine(val => lowerCaseEnum.includes(val), { message }) *)

Inductive bound_check : Type :=
| BMin (bound : value) (msg : string)
| BMax (bound : value) (msg : string).

(** What an object rule does with keys outside its shape. *)
Inductive objmode : Type :=
| Strip                         (* z.object(shape) *)
| Passthrough                   (* .passthrough() *)
| CatchallString.               (* .catchall(z.string()) *)

Inductive zschema : Type :=
| ZString (checks : list str_check)
| ZNumber (checks : list bound_check)
| ZBoolean
| ZDate
| ZAny
| ZArray (item : zschema) (checks : list bound_check)
| ZObject (shape : obj zschema) (mode : objmode)
| ZOptional (inner : zschema)
| ZDefault (inner : zschema) (dflt : value).

(** The major version of Zod the package resolves to.  Zod 4 keeps the kind
    of a rule in [_def.type] and has no [_def.typeName]; Zod 3 keeps the
    class name in [_def.typeName], and its [_def.type] is never a string (it
    is absent, or the item rule of an array). *)
Inductive zod_version : Type := Zod3 | Zod4.

Definition kind (z : zschema) : string :=
  match z with
  | ZString _ => "string"
  | ZNumber _ => "number"
  | ZBoolean => "boolean"
  | ZDate => "date"
  | ZAny => "any"
  | ZArray _ _ => "array"
  | ZObject _ _ => "object"
  | ZOptional _ => "optional"
  | ZDefault _ _ => "default"
  end.

Definition is_refine (c : str_check) : bool :=
  match c with SIncludes _ _ => true | _ => false end.

(** In Zod 3 [.refine] wraps the rule in a ZodEffects. *)
Definition typeName3 (z : zschema) : string :=
  match z with
  | ZString cs => if existsb is_refine cs then "ZodEffects" else "ZodString"
  | ZNumber _ => "ZodNumber"
  | ZBoolean => "ZodBoolean"
  | ZDate => "ZodDate"
  | ZAny => "ZodAny"
  | ZArray _ _ => "ZodArray"
  | ZObject _ _ => "ZodObject"
  | ZOptional _ => "ZodOptional"
  | ZDefault _ _ => "ZodDefault"
  end.

(** [zodValidator._def.type] *)
Definition def_type (ver : zod_version) (z : zschema) : value :=
  match ver with
  | Zod4 => VStr (kind z)
  | Zod3 => VUndefined
  end.

(** [zodValidator._def.typeName] *)
Definition def_typeName (ver : zod_version) (z : zschema) : value :=
  match ver with
  | Zod4 => VUndefined
  | Zod3 => VStr (typeName3 z)
  end.

(** [z.string().length(24, 'Invalid ObjectId').regex(/^[0-9a-fA-F]{24}$/,
    'Invalid ObjectId format')] *)
Definition objectIdRule : zschema :=
  ZString [SLength 24 "Invalid ObjectId";
           SRegex RxObjectId (VStr "Invalid ObjectId format")].

(** [z.string().toLowerCase().refine(val => lowerCaseEnum.includes(val),
    { message })] *)
Definition enumRule (lowerCaseEnum : list string) (msg : string) : zschema :=
  ZString [SToLowerCase; SIncludes lowerCaseEnum msg].

(** Is the rule the result of [.optional()]: is that its outermost wrapper.
    Whether the rule accepts a missing value is [isOptional], below. *)
Definition is_optional (z : zschema) : bool :=
  match z with ZOptional _ => true | _ => false end.

(** Does a string rule carry the default password pattern. *)
Definition has_password_pattern (z : zschema) : bool :=
  match z with
  | ZString cs =>
      existsb (fun c => match c with SRegex RxPassword _ => true | _ => false end) cs
  | _ => false
  end.

(** ** Parsing with a rule *)

Definition ge_bound (x : Z) (bound : value) : bool :=
  match ToNumber bound with
  | Some n => (n <=? x)%Z
  | None => false
  end.

Definition le_bound (x : Z) (bound : value) : bool :=
  match ToNumber bound with
  | Some n => (x <=? n)%Z
  | None => false
  end.

Definition str_length (s : string) : Z := Z.of_nat (String.length s).

(** /^[0-9a-fA-F]{24}$/ *)
Definition objectid_test (s : string) : bool :=
  (str_length s =? 24)%Z && string_forallb is_hex s.

(** /^(?=.*[a-z])(?=.*[A-Z])(?=.*\d)(?=.*[@$!%*?&#])[A-Za-z\d@$!%*?&#]{8,}$/:
    the body admits no line terminator, so each lookahead asks for one
    character of its class anywhere in the string. *)
Definition password_test (s : string) : bool :=
  string_existsb is_lower s && string_existsb is_upper s
  && string_existsb is_digit s && string_existsb is_symbol s
  && string_forallb
       (fun c => is_lower c || is_upper c || is_digit c || is_symbol c) s
  && (8 <=? str_length s)%Z.

Definition regex_test (r : regex) (s : string) : bool :=
  match r with
  | RxObjectId => objectid_test s
  | RxPassword => password_test s
  | RxUser src flags => regexp_test src flags s
  end.

(** The checks of a string rule run in the order they were added;
    [.toLowerCase()] rewrites the value the later checks see. *)
Fixpoint str_checks (cs : list str_check) (s : string) : bool :=
  match cs with
  | [] => true
  | c :: rest =>
      match c with
      | SMin b _ => ge_bound (str_length s) b && str_checks rest s
      | SMax b _ => le_bound (str_length s) b && str_checks rest s
      | SLength n _ => (str_length s =? n)%Z && str_checks rest s
      | SEmail _ => email_test s && str_checks rest s
      | SRegex r _ => regex_test r s && str_checks rest s
      | SToLowerCase => str_checks rest (toLowerCase s)
      | SIncludes allowed _ =>
          existsb (String.eqb s) allowed && str_checks rest s
      end
  end.

Definition bound_checks (cs : list bound_check) (x : Z) : bool :=
  forallb (fun c => match c with
                    | BMin b _ => ge_bound x b
                    | BMax b _ => le_bound x b
                    end) cs.

(** Does [rule.safeParse(input)] succeed (Zod 4).  Inputs are data:
    undefined, null, booleans, numbers, strings, arrays and plain objects.
    An object rule runs the rule of each key of its shape on the value the
    input holds under the key; where the input lacks the key the rule sees
    undefined, except that a [z.any()] rule answers [any_key_optional]. *)
Fixpoint accepts (rule : zschema) (input : value) : bool :=
  match rule with
  | ZString cs =>
      match input with VStr s => str_checks cs s | _ => false end
  | ZNumber cs =>
      match input with VNum n => bound_checks cs n | _ => false end
  | ZBoolean =>
      match input with VBool _ => true | _ => false end
  | ZDate => false
  | ZAny => true
  | ZArray item cs =>
      match input with
      | VArr l => forallb (accepts item) l
                  && bound_checks cs (Z.of_nat (length l))
      | _ => false
      end
  | ZObject shape mode =>
      match input with
      | VObj props =>
          forallb (fun kr =>
                     match lookup_key (fst kr) props with
                     | Some v => accepts (snd kr) v
                     | None => match snd kr with
                               | ZAny => any_key_optional
                               | _ => accepts (snd kr) VUndefined
                               end
                     end) shape
          && match mode with
             | CatchallString =>
                 forallb (fun kv =>
                            match lookup_key (fst kv) shape with
                            | Some _ => true
                            | None => match snd kv with
                                      | VStr _ => true
                                      | _ => false
                                      end
                            end) props
             | _ => true
             end
      | _ => false
      end
  | ZOptional inner =>
      match input with VUndefined => true | _ => accepts inner input end
  | ZDefault inner _ =>
      match input with VUndefined => true | _ => accepts inner input end
  end.

(** [rule.isOptional()]: does the rule accept a missing value. *)
Definition isOptional (rule : zschema) : bool := accepts rule VUndefined.

(** ** The validation compiler (createZodSchema) *)

(** [getCustomMessage(fieldName, rule, value, customMessages)],
    lines 295-313 *)
Definition defaultMessages (fieldName : string) (v : value) : obj value :=
  [("required", VStr (fieldName +:+ " is required"));
   ("min", VStr (fieldName +:+ " must be at least " +:+ ToString v));
   ("max", VStr (fieldName +:+ " must be at most " +:+ ToString v));
   ("minlength",
    VStr (fieldName +:+ " must be at least " +:+ ToString v +:+ " characters"));
   ("maxlength",
    VStr (fieldName +:+ " must be at most " +:+ ToString v +:+ " characters"));
   ("email", VStr (fieldName +:+ " must be a valid email address"));
   ("regex", VStr (fieldName +:+ " format is invalid"));
   ("enum", VStr (fieldName +:+ " must be one of the allowed values"))].

(** The members every plain object inherits from [Object.prototype]:
    [constructor] is [Object], [__proto__] reads as the prototype itself, an
    object without enumerable properties, and the others are functions of
    the engine. *)
Definition Object_prototype : obj value :=
  [("constructor", VBuiltin BObject);
   ("__defineGetter__", VFun 0); ("__defineSetter__", VFun 1);
   ("hasOwnProperty", VFun 2); ("__lookupGetter__", VFun 3);
   ("__lookupSetter__", VFun 4); ("isPrototypeOf", VFun 5);
   ("propertyIsEnumerable", VFun 6); ("toString", VFun 7);
   ("valueOf", VFun 8); ("__proto__", VObj []); ("toLocaleString", VFun 9)].

(** [o[k]] on an object literal [o] for a key computed at run time: an own
    property, or else what [o] inherits. *)
Definition get_computed (o : obj value) (k : string) : value :=
  match lookup_key k o with
  | Some v => v
  | None => default VUndefined (lookup_key k Object_prototype)
  end.

(** The key read from [customMessages] holds a dot, so it names no inherited
    member and no index: [get_member] reads it. *)
Definition getCustomMessage (fieldName rule : string) (v customMessages : value)
  : outcome value :=
  let customMessages := match customMessages with
                        | VUndefined => VObj []       (* customMessages = {} *)
                        | _ => customMessages
                        end in
  let key := fieldName +:+ "." +:+ rule in
  let* custom := get_member customMessages key in
  if truthy custom then Ret custom
  else Ret (js_or (get_computed (defaultMessages fieldName v) rule)
                  (VStr (fieldName +:+ " validation failed"))).

(** The string switch on a lower-cased type name of an item (lines 394-413
    and 458-477). *)
Definition itemValidator (items : value) : zschema :=
  let t := get_prop items "type" in
  let itemTypeStr := match t with VStr s => toLowerCase s | _ => "" end in
  if is_builtin BString t then ZString []
  else if is_builtin BNumber t then ZNumber []
  else if is_builtin BBoolean t then ZBoolean
  else if is_builtin BDate t then ZDate
  else if String.eqb itemTypeStr "string" then ZString []
  else if String.eqb itemTypeStr "number" then ZNumber []
  else if String.eqb itemTypeStr "boolean" then ZBoolean
  else if String.eqb itemTypeStr "date" then ZDate
  else if String.eqb itemTypeStr "objectid" || String.eqb itemTypeStr "object_id"
       then objectIdRule
  else ZAny.

(** [case Array:] and [case 'array':] (lines 378-419 and 442-483) *)
Definition arrayRule (fieldProps : value) : zschema :=
  let items := get_prop fieldProps "items" in
  if truthy items then ZArray (itemValidator items) []
  else ZArray ZAny [].

(** Step 1 (lines 362-507).  [nested] is the result of the recursive call
    [createZodSchema(fieldProps.schema, options)]. *)
Definition baseRule (nested : outcome zschema) (fieldProps : value)
  : outcome zschema :=
  let t := get_prop fieldProps "type" in
  let typeStr := match t with VStr s => toLowerCase s | _ => "" end in
  if is_builtin BString t then Ret (ZString [])
  else if is_builtin BNumber t then Ret (ZNumber [])
  else if is_builtin BBoolean t then Ret ZBoolean
  else if is_builtin BDate t then Ret ZDate
  else if is_builtin BArray t then Ret (arrayRule fieldProps)
  else if is_builtin BObject t then Ret (ZObject [] Passthrough)
  else if is_builtin BMap t then Ret (ZObject [] CatchallString)
  else if String.eqb typeStr "string" then Ret (ZString [])
  else if String.eqb typeStr "number" then Ret (ZNumber [])
  else if String.eqb typeStr "boolean" then Ret ZBoolean
  else if String.eqb typeStr "date" then Ret ZDate
  else if String.eqb typeStr "array" then Ret (arrayRule fieldProps)
  else if String.eqb typeStr "objectid" || String.eqb typeStr "object_id"
       then Ret objectIdRule
  else if String.eqb typeStr "object" then
         if truthy (get_prop fieldProps "schema") then nested
         else Ret (ZObject [] Passthrough)
  else if String.eqb typeStr "mixed" then Ret ZAny
  else if String.eqb typeStr "map" then Ret (ZObject [] CatchallString)
  else Throw (Error ("Invalid type: " +:+ ToString t)).

(** The canonical type the switch of step 1 settles on for a [type] token:
    the case label taken; [None] is the [throw] of line 505. *)
Definition zodType (t : value) : option builtin :=
  let typeStr := match t with VStr s => toLowerCase s | _ => "" end in
  if is_builtin BString t then Some BString
  else if is_builtin BNumber t then Some BNumber
  else if is_builtin BBoolean t then Some BBoolean
  else if is_builtin BDate t then Some BDate
  else if is_builtin BArray t then Some BArray
  else if is_builtin BObject t then Some BObject
  else if is_builtin BMap t then Some BMap
  else if String.eqb typeStr "string" then Some BString
  else if String.eqb typeStr "number" then Some BNumber
  else if String.eqb typeStr "boolean" then Some BBoolean
  else if String.eqb typeStr "date" then Some BDate
  else if String.eqb typeStr "array" then Some BArray
  else if String.eqb typeStr "objectid" || String.eqb typeStr "object_id"
       then Some BObjectId
  else if String.eqb typeStr "object" then Some BObject
  else if String.eqb typeStr "mixed" then Some BMixed
  else if String.eqb typeStr "map" then Some BMap
  else None.

(** The rule step 1 builds for a canonical type. *)
Definition ruleOfType (nested : outcome zschema) (fieldProps : value) (b : builtin)
  : outcome zschema :=
  match b with
  | BString => Ret (ZString [])
  | BNumber => Ret (ZNumber [])
  | BBoolean => Ret ZBoolean
  | BDate => Ret ZDate
  | BArray => Ret (arrayRule fieldProps)
  | BObject =>
      if negb (is_builtin BObject (get_prop fieldProps "type"))
         && truthy (get_prop fieldProps "schema")
      then nested
      else Ret (ZObject [] Passthrough)
  | BMap => Ret (ZObject [] CatchallString)
  | BObjectId => Ret objectIdRule
  | BMixed => Ret ZAny
  end.

(** [zodValidator.min(n, ...)] and [.max] on a string rule, and on a number
    or array rule, append a check. *)
Definition add_str_check (z : zschema) (c : str_check) : zschema :=
  match z with
  | ZString cs => ZString (cs ++ [c])
  | _ => z
  end.

Definition add_bound_check (z : zschema) (c : bound_check) : zschema :=
  match z with
  | ZNumber cs => ZNumber (cs ++ [c])
  | ZArray item cs => ZArray item (cs ++ [c])
  | _ => z
  end.

(** [propValue instanceof RegExp ? propValue : new RegExp(propValue)] *)
Definition to_regex (propValue : value) : outcome regex :=
  match propValue with
  | VRegExp src flags => Ret (RxUser src flags)
  | _ =>
      let src := match propValue with
                 | VUndefined => ""
                 | _ => ToString propValue
                 end in
      if regexp_valid src then Ret (RxUser src "") else Throw SyntaxError
  end.

(** [regex.toString()] *)
Definition regex_toString (r : regex) : string :=
  match r with
  | RxUser src flags => "/" +:+ src +:+ "/" +:+ flags
  | RxObjectId => "/^[0-9a-fA-F]{24}$/"
  | RxPassword =>
      "/^(?=.*[a-z])(?=.*[A-Z])(?=.*\d)(?=.*[@$!%*?&#])[A-Za-z\d@$!%*?&#]{8,}$/"
  end.

(** The message of a [regex] or [match] modifier (lines 573-589). *)
Definition regexMessage (fieldName : string) (r : regex) (propValue customMessages : value)
  : outcome value :=
  let* message := getCustomMessage fieldName "regex" propValue customMessages in
  if truthy message then Ret message
  else
    let regexStr := regex_toString r in
    let name := toLowerCase fieldName in
    if includes "email" name || includes "@" regexStr then
      Ret (VStr (fieldName +:+ " must be a valid email address"))
    else if includes "password" name || includes "(?=.*\d)" regexStr then
      Ret (VStr (fieldName +:+ " must contain at least one lowercase letter, one uppercase letter, one number, and one special character."))
    else if includes "phone" name || includes "\d" regexStr then
      Ret (VStr (fieldName +:+ " must be a valid phone number"))
    else if includes "url" name || includes "http" regexStr then
      Ret (VStr (fieldName +:+ " must be a valid URL"))
    else Ret (VStr (fieldName +:+ " format is invalid")).

(** One turn of the loop of step 2 (lines 510-611): the modifier
    [propName: propValue] applied to the rule built so far. *)
Definition applyModifier (ver : zod_version) (customMessages : value)
    (fieldName propName : string) (propValue : value) (zodValidator : zschema)
  : outcome zschema :=
  if String.eqb propName "type" || String.eqb propName "items" then Ret zodValidator
  else if String.eqb propName "required" then
    if is_false propValue then Ret (ZOptional zodValidator) else Ret zodValidator
  else if String.eqb propName "minlength" || String.eqb propName "minLength" then
    if is_str "string" (def_type ver zodValidator) then
      let* m := getCustomMessage fieldName "minlength" propValue customMessages in
      let message :=
        js_or m (VStr (fieldName +:+ " must be at least " +:+ ToString propValue
                       +:+ " characters long")) in
      Ret (add_str_check zodValidator (SMin propValue message))
    else Ret zodValidator
  else if String.eqb propName "maxlength" || String.eqb propName "maxLength" then
    if is_str "string" (def_type ver zodValidator) then
      let* m := getCustomMessage fieldName "maxlength" propValue customMessages in
      let message :=
        js_or m (VStr (fieldName +:+ " must be at most " +:+ ToString propValue
                       +:+ " characters long")) in
      Ret (add_str_check zodValidator (SMax propValue message))
    else Ret zodValidator
  else if String.eqb propName "min" then
    if is_str "number" (def_type ver zodValidator) then
      Ret (add_bound_check zodValidator
             (BMin propValue ("Min value for " +:+ fieldName +:+ " is "
                              +:+ ToString propValue)))
    else if is_str "array" (def_type ver zodValidator) then
      Ret (add_bound_check zodValidator
             (BMin propValue ("Array " +:+ fieldName +:+ " must have at least "
                              +:+ ToString propValue +:+ " items")))
    else Ret zodValidator
  else if String.eqb propName "max" then
    if is_str "number" (def_type ver zodValidator) then
      Ret (add_bound_check zodValidator
             (BMax propValue ("Max value for " +:+ fieldName +:+ " is "
                              +:+ ToString propValue)))
    else if is_str "array" (def_type ver zodValidator) then
      Ret (add_bound_check zodValidator
             (BMax propValue ("Array " +:+ fieldName +:+ " must have at most "
                              +:+ ToString propValue +:+ " items")))
    else Ret zodValidator
  else if String.eqb propName "email" then
    if is_true propValue && is_str "string" (def_type ver zodValidator) then
      Ret (add_str_check zodValidator
             (SEmail ("Invalid email format for " +:+ fieldName)))
    else Ret zodValidator
  else if String.eqb propName "enum" then
    match propValue with
    | VArr l =>
        let* lowerCaseEnum := mapM call_toLowerCase l in
        Ret (enumRule lowerCaseEnum
               (fieldName +:+ " must be one of: " +:+ join ", " l))
    | _ => Ret zodValidator
    end
  else if String.eqb propName "regex" || String.eqb propName "match" then
    if is_str "string" (def_type ver zodValidator) then
      let* regex := to_regex propValue in
      let* message := regexMessage fieldName regex propValue customMessages in
      Ret (add_str_check zodValidator (SRegex regex message))
    else Ret zodValidator
  else if String.eqb propName "default" then
    if negb (is_undefined propValue) then Ret (ZDefault zodValidator propValue)
    else Ret zodValidator
  else if String.eqb propName "unique" then Ret zodValidator
  else if String.eqb propName "ref" then
    if is_str "ZodString" (def_typeName ver zodValidator) then Ret objectIdRule
    else Ret zodValidator
  else Ret zodValidator.

(** Step 2: the loop over [Object.entries(fieldProps)]. *)
Definition applyModifiers (ver : zod_version) (customMessages : value)
    (fieldName : string) (entries : obj value) (zodValidator : zschema)
  : outcome zschema :=
  foldM (fun z pv => applyModifier ver customMessages fieldName (fst pv) (snd pv) z)
        entries zodValidator.

Definition passwordMessage (fieldName : string) : value :=
  VStr (fieldName +:+ " must contain at least one lowercase letter, one uppercase letter, one number, and one special character (@$!%*?&#).").

(** Step 3 (lines 613-620) *)
Definition passwordStep (ver : zod_version) (fieldName : string)
    (fieldProps : value) (zodValidator : zschema) : zschema :=
  if includes "password" (toLowerCase fieldName)
     && is_undefined (get_prop fieldProps "regex")
     && is_str "string" (def_type ver zodValidator)
  then add_str_check zodValidator (SRegex RxPassword (passwordMessage fieldName))
  else zodValidator.

(** Step 4 (lines 622-625) *)
Definition defaultStep (fieldProps : value) (zodValidator : zschema) : zschema :=
  if negb (is_undefined (get_prop fieldProps "default"))
     && negb (is_true (get_prop fieldProps "required"))
  then ZOptional zodValidator
  else zodValidator.

(** The array shorthand, a field given as [[{ type, enum }]]
    (lines 331-360). *)
Definition shorthandRule (fieldName : string) (elems : list value)
  : outcome zschema :=
  let first := hd VUndefined elems in
  let itemType := js_or (get_prop first "type") (VStr "String") in
  let itemValidator :=
    if is_builtin BString itemType || is_str "String" itemType then ZString []
    else if is_builtin BNumber itemType || is_str "Number" itemType then ZNumber []
    else if is_builtin BBoolean itemType || is_str "Boolean" itemType then ZBoolean
    else if is_builtin BDate itemType || is_str "Date" itemType then ZDate
    else ZAny in
  let enum := get_prop first "enum" in
  if truthy enum then
    let* lowerCaseEnum := call_map enum call_toLowerCase in
    match itemValidator with
    | ZString cs =>
        let* joined := call_join enum ", " in
        Ret (ZArray (ZString (cs ++ [SToLowerCase;
                                     SIncludes lowerCaseEnum
                                       (fieldName +:+ " must be one of: " +:+ joined)]))
                    [])
    | _ => Throw TypeError     (* itemValidator.toLowerCase is not a function *)
    end
  else Ret (ZArray itemValidator []).

(** The body of the loop over the fields (lines 327-628): the rule stored
    under [fieldName]. *)
Definition compileField (ver : zod_version) (nested : outcome zschema)
    (customMessages : value) (fieldName : string) (fieldProps : value)
  : outcome zschema :=
  match fieldProps with
  | VArr elems => shorthandRule fieldName elems
  | VUndefined | VNull => Throw TypeError
  | _ =>
      let* base := baseRule nested fieldProps in
      let* z := applyModifiers ver customMessages fieldName (own_props fieldProps) base in
      Ret (defaultStep fieldProps (passwordStep ver fieldName fieldProps z))
  end.

(** [const { strictMode = false, customMessages = {} } = options], with
    [options = {}] when the argument is undefined. *)
Definition zodOptions (options : value) : outcome value :=
  match options with
  | VUndefined => Ret (VObj [])
  | VNull => Throw TypeError
  | _ => match get_prop options "customMessages" with
         | VUndefined => Ret (VObj [])
         | cm => Ret cm
         end
  end.

(** [createZodSchema(schemaDefinition, options)].  The recursion on
    [fieldProps.schema] is structural: the nested schema is a property of a
    field of the definition. *)
Fixpoint createZodSchema (ver : zod_version) (options schemaDefinition : value)
  {struct schemaDefinition} : outcome zschema :=
  let nested_of (fieldProps : value) : outcome zschema :=
    match fieldProps with
    | VObj props =>
        (fix find (ps : obj value) : outcome zschema :=
           match ps with
           | [] => Throw TypeError
           | (k, v) :: rest =>
               if String.eqb k "schema" then createZodSchema ver options v
               else find rest
           end) props
    | _ => Throw TypeError
    end in
  let* customMessages := zodOptions options in
  match schemaDefinition with
  | VUndefined | VNull => Throw TypeError
  | VObj fields =>
      (fix loop (fs : obj value) (zodSchemaObject : obj zschema) : outcome zschema :=
         match fs with
         | [] => Ret (ZObject zodSchemaObject Strip)
         | (fieldName, fieldProps) :: rest =>
             let* zodValidator :=
               compileField ver (nested_of fieldProps) customMessages
                            fieldName fieldProps in
             loop rest (assign_key fieldName zodValidator zodSchemaObject)
         end) fields []
  | VArr elems =>
      (fix loop (i : nat) (es : list value) (zodSchemaObject : obj zschema)
         : outcome zschema :=
         match es with
         | [] => Ret (ZObject zodSchemaObject Strip)
         | fieldProps :: rest =>
             let* zodValidator :=
               compileField ver (nested_of fieldProps) customMessages
                            (pretty i) fieldProps in
             loop (S i) rest (assign_key (pretty i) zodValidator zodSchemaObject)
         end) 0%nat elems []
  | _ =>
      let* zodSchemaObject :=
        foldM (fun zodSchemaObject nf =>
                 let* zodValidator :=
                   compileField ver (Throw TypeError) customMessages
                                (fst nf) (snd nf) in
                 Ret (assign_key (fst nf) zodValidator zodSchemaObject))
              (own_props schemaDefinition) [] in
      Ret (ZObject zodSchemaObject Strip)
  end.

(** The body of the loop over the fields, with the rule stored in the
    object under construction. *)
Definition fieldStep (ver : zod_version) (options customMessages : value)
    (zodSchemaObject : obj zschema) (nf : string * value) : outcome (obj zschema) :=
  let* zodValidator :=
    compileField ver (createZodSchema ver options (get_prop (snd nf) "schema"))
                 customMessages (fst nf) (snd nf) in
  Ret (assign_key (fst nf) zodValidator zodSchemaObject).

(** ** The persistence compiler (createMongooseSchema) *)

(** Lines 22-72: the Mongoose type of a [type] token. *)
Definition mongooseType (t : value) : value :=
  let typeStr := match t with VStr s => toLowerCase s | _ => "" end in
  if is_builtin BString t then VBuiltin BString
  else if is_builtin BNumber t then VBuiltin BNumber
  else if is_builtin BBoolean t then VBuiltin BBoolean
  else if is_builtin BDate t then VBuiltin BDate
  else if is_builtin BArray t then VBuiltin BArray
  else if String.eqb typeStr "string" then VBuiltin BString
  else if String.eqb typeStr "number" then VBuiltin BNumber
  else if String.eqb typeStr "boolean" then VBuiltin BBoolean
  else if String.eqb typeStr "date" then VBuiltin BDate
  else if String.eqb typeStr "array" then VBuiltin BArray
  else if String.eqb typeStr "objectid" || String.eqb typeStr "object_id"
       then VBuiltin BObjectId
  else if String.eqb typeStr "mixed" then VBuiltin BMixed
  else if String.eqb typeStr "object" then VBuiltin BMixed
  else t.

(** [case 'items':] (lines 108-157) *)
Definition applyItems (fieldConfig : obj value) (propValue : value) : obj value :=
  if is_builtin BArray (default VUndefined (lookup_key "type" fieldConfig))
     && truthy propValue
  then
    let t := get_prop propValue "type" in
    let itemTypeStr := match t with VStr s => toLowerCase s | _ => "" end in
    let array_of (b : builtin) := set_key "type" (VArr [VBuiltin b]) fieldConfig in
    if is_builtin BString t then array_of BString
    else if is_builtin BNumber t then array_of BNumber
    else if is_builtin BDate t then array_of BDate
    else if is_builtin BBoolean t then array_of BBoolean
    else if is_builtin BArray t then array_of BArray
    else if String.eqb itemTypeStr "string" then array_of BString
    else if String.eqb itemTypeStr "number" then array_of BNumber
    else if String.eqb itemTypeStr "date" then array_of BDate
    else if String.eqb itemTypeStr "boolean" then array_of BBoolean
    else if String.eqb itemTypeStr "array" then array_of BArray
    else if String.eqb itemTypeStr "objectid" || String.eqb itemTypeStr "object_id"
    then
      if truthy (get_prop propValue "ref")
      then set_key "ref" (get_prop propValue "ref") (array_of BObjectId)
      else array_of BObjectId
    else array_of BMixed
  else fieldConfig.

Definition validate_with (v : validator) (message : string) : value :=
  VObj [("validator", VValidator v); ("message", VStr message)].

(** One turn of the loop over [Object.entries(fieldProps)] (lines 77-220). *)
Definition applyProp (fieldConfig : obj value) (propName : string) (propValue : value)
  : obj value :=
  if String.eqb propName "type" then fieldConfig
  else if String.eqb propName "required" then set_key "required" propValue fieldConfig
  else if String.eqb propName "unique" then set_key "unique" propValue fieldConfig
  else if String.eqb propName "minlength" || String.eqb propName "minLength"
       then set_key "minlength" propValue fieldConfig
  else if String.eqb propName "maxlength" || String.eqb propName "maxLength"
       then set_key "maxlength" propValue fieldConfig
  else if String.eqb propName "min" then set_key "min" propValue fieldConfig
  else if String.eqb propName "max" then set_key "max" propValue fieldConfig
  else if String.eqb propName "default" then set_key "default" propValue fieldConfig
  else if String.eqb propName "ref" then set_key "ref" propValue fieldConfig
  else if String.eqb propName "items" then applyItems fieldConfig propValue
  else if String.eqb propName "email" then
    if is_true propValue
    then set_key "validate" (validate_with EmailValidator "Invalid email format")
                 fieldConfig
    else fieldConfig
  else if String.eqb propName "enum" then
    match propValue with
    | VArr _ => set_key "enum" propValue fieldConfig
    | _ => fieldConfig
    end
  else if String.eqb propName "regex" || String.eqb propName "match" then
    match propValue with
    | VRegExp src flags =>
        set_key "validate" (validate_with (RegExpValidator src flags) "Invalid format")
                fieldConfig
    | VStr src =>
        set_key "validate" (validate_with (PatternValidator src) "Invalid format")
                fieldConfig
    | _ => fieldConfig
    end
  else if String.eqb propName "select" then set_key "select" propValue fieldConfig
  else if String.eqb propName "sparse" then set_key "sparse" propValue fieldConfig
  else if String.eqb propName "index" then set_key "index" propValue fieldConfig
  else if String.eqb propName "text" then set_key "text" propValue fieldConfig
  else if String.eqb propName "immutable" then set_key "immutable" propValue fieldConfig
  else if String.eqb propName "transform" then set_key "transform" propValue fieldConfig
  else if String.eqb propName "get" then set_key "get" propValue fieldConfig
  else if String.eqb propName "set" then set_key "set" propValue fieldConfig
  else fieldConfig.

(** The body of the loop over the fields (lines 17-223): the config stored
    under the field's name. *)
Definition applyProps (props : obj value) (fieldConfig : obj value) : obj value :=
  fold_left (fun fieldConfig pv => applyProp fieldConfig (fst pv) (snd pv))
            props fieldConfig.

Definition fieldConfigOf (fieldProps : value) : outcome (obj value) :=
  let* t := get_member fieldProps "type" in
  Ret (applyProps (own_props fieldProps) [("type", mongooseType t)]).

(** [{ timestamps: true, ...schemaOptions }] (lines 226-229) *)
Definition finalSchemaOptions (schemaOptions : value) : gmap string value :=
  fold_left (fun m kv => <[kv.1 := kv.2]> m)
            (own_props schemaOptions)
            {[ "timestamps" := VBool true ]}.

(** What the compiler hands to Mongoose: the arguments of
    [new mongoose.Schema], then the registration calls in order.  Mongoose
    checks what it is handed and can throw, at the constructor (line 231)
    and at each registration; that is the library's code and not modelled.
    A result [Ret m] of [createMongooseSchema] below therefore says that the
    repository's own code runs to its end and hands [m] over, not that the
    call returns. *)
Inductive schema_call : Type :=
| Pre (hook : string) (fn : value)
| Post (hook : string) (fn : value)
| VirtualGet (name : string) (fn : value)
| VirtualSet (name : string) (fn : value)
| Virtual (name : string)
| Index (field : string) (indexConfig : value).

Record mschema : Type := {
  schema_definition : obj (obj value);
  schema_options : gmap string value;
  schema_calls : list schema_call
}.

(** An option of [createMongooseSchema], with its default [{}]. *)
Definition option_or_empty (options : value) (name : string) : value :=
  match get_prop options name with
  | VUndefined => VObj []
  | v => v
  end.

(** Lines 234-244: [middleware.pre] and [middleware.post] *)
Definition hookCalls (middleware : value) (name : string)
    (mk : string -> value -> schema_call) : outcome (list schema_call) :=
  let* hooks := get_member middleware name in
  if truthy hooks then Ret (map (fun hf => mk hf.1 hf.2) (own_props hooks))
  else Ret [].

(** Lines 248-256 *)
Definition virtualCalls (name : string) (config : value) : outcome (list schema_call) :=
  if callable config then Ret [Virtual name; VirtualGet name config]
  else
    let* getter := get_member config "get" in
    Ret (Virtual name
         :: (if truthy getter then [VirtualGet name getter] else [])
         ++ (if truthy (get_prop config "set")
             then [VirtualSet name (get_prop config "set")] else [])).

Definition createMongooseSchema (schemaDefinition options : value)
  : outcome mschema :=
  let* options := match options with
                  | VUndefined => Ret (VObj [])
                  | VNull => Throw TypeError
                  | _ => Ret options
                  end in
  let schemaOptions := option_or_empty options "schemaOptions" in
  let middleware := option_or_empty options "middleware" in
  let virtuals := option_or_empty options "virtuals" in
  let indexes := option_or_empty options "indexes" in
  let* fields := Object_entries schemaDefinition in
  let* mongooseSchemaObject :=
    foldM (fun acc nf =>
             let* fieldConfig := fieldConfigOf (snd nf) in
             Ret (assign_key (fst nf) fieldConfig acc))
          fields [] in
  let* pre := hookCalls middleware "pre" Pre in
  let* post := hookCalls middleware "post" Post in
  let* virt :=
    if truthy virtuals
    then let* cs := mapM (fun nc => virtualCalls nc.1 nc.2) (own_props virtuals) in
         Ret (concat cs)
    else Ret [] in
  let idx := if truthy indexes
             then map (fun fc => Index fc.1 fc.2) (own_props indexes)
             else [] in
  Ret {| schema_definition := mongooseSchemaObject;
         schema_options := finalSchemaOptions schemaOptions;
         schema_calls := pre ++ post ++ virt ++ idx |}.

(** ** The error normalizer (normalizeZodErrors, lines 274-285) *)

Definition normalizeEntry (err : value) : outcome value :=
  let* path := get_member err "path" in
  let* field := if truthy path
                then let* joined := call_join path "." in Ret (VStr joined)
                else Ret (VStr "unknown") in
  Ret (VObj [("field", field);
             ("message", js_or (get_prop err "message") (VStr "Validation failed"));
             ("code", js_or (get_prop err "code") (VStr "unknown"));
             ("value", js_or (get_prop err "input") (get_prop err "received"));
             ("type", js_or (js_or (get_prop err "expected") (get_prop err "format"))
                            (VStr "unknown"))]).

Definition normalizeZodErrors (error : value) : outcome value :=
  let* issues := get_member error "issues" in
  let errorList := js_or (js_or issues (get_prop error "errors")) (VArr []) in
  let* rows := call_map errorList normalizeEntry in
  Ret (VArr rows).

(** ** The compilation cache (index.js) *)

(** The compiled pair [{ mongooseSchema, zodSchema }]. *)
Record schemaPair : Type := {
  mongooseSchema : mschema;
  zodSchema : zschema
}.

(** A reference to a pair: its index among the pairs allocated so far. *)
Definition ref : Type := nat.

(** The module state: the [schemaCache] map, and the pairs allocated. *)
Record store : Type := {
  schemaCache : gmap string ref;
  pairs : list schemaPair
}.

(** The result of a call that runs in a store. *)
Inductive run (A : Type) : Type :=
| Returned (a : A) (st : store)
| Threw (e : exn) (st : store)
| Unmodelled.
#[global] Arguments Returned {A} a st.
#[global] Arguments Threw {A} e st.
#[global] Arguments Unmodelled {A}.

(** Lines 13-15 *)
Definition generateCacheKey (schemaDefinition options : value) : string :=
  JSON_stringify (VObj [("schemaDefinition", schemaDefinition);
                        ("options", options)]).

(** [const { enableCache = true, ...schemaOptions } = options] (line 25),
    with [options = {}] when the argument is undefined. *)
Definition splitOptions (options : value) : outcome (value * value) :=
  match options with
  | VNull => Throw TypeError
  | _ =>
      let enableCache := match get_prop options "enableCache" with
                         | VUndefined => VBool true
                         | v => v
                         end in
      Ret (enableCache, VObj (remove_key "enableCache" (own_props options)))
  end.

(** The object literal of lines 34-37. *)
Definition compilePair (ver : zod_version) (schemaDefinition schemaOptions : value)
  : outcome schemaPair :=
  let* m := createMongooseSchema schemaDefinition schemaOptions in
  let* z := createZodSchema ver schemaOptions schemaDefinition in
  Ret {| mongooseSchema := m; zodSchema := z |}.

(** Lines 24-45 *)
Definition createSchemas (ver : zod_version) (schemaDefinition options : value)
    (st : store) : run ref :=
  match splitOptions options with
  | Throw e => Threw e st
  | Foreign => Unmodelled
  | Ret (enableCache, schemaOptions) =>
      let cacheKey := generateCacheKey schemaDefinition schemaOptions in
      match (if truthy enableCache then schemaCache st !! cacheKey else None) with
      | Some cached => Returned cached st
      | None =>
          match compilePair ver schemaDefinition schemaOptions with
          | Throw e => Threw e st
          | Foreign => Unmodelled
          | Ret result =>
              let r := length (pairs st) in
              let cache := if truthy enableCache
                           then <[cacheKey := r]> (schemaCache st)
                           else schemaCache st in
              Returned r {| schemaCache := cache; pairs := pairs st ++ [result] |}
          end
      end
  end.



(** ** The normalized row of the specification (4.5) *)

(** An entry the normalizer can read: it is neither null nor undefined, and
    its [path] is an array or is falsy. *)
Definition readable_entry (err : value) : bool :=
  match err with
  | VUndefined | VNull => false
  | _ => match get_prop err "path" with
         | VArr _ => true
         | p => negb (truthy p)
         end
  end.

(** The row of one entry in the words of the specification: the path
    segments joined by a dot or "unknown"; the message or "Validation
    failed"; the code or "unknown"; [input] falling back to [received];
    [expected] falling back to [format], falling back to "unknown". *)
Definition expected_row (err : value) : value :=
  VObj [("field", match get_prop err "path" with
                  | VArr segments => VStr (join "." segments)
                  | _ => VStr "unknown"
                  end);
        ("message", js_or (get_prop err "message") (VStr "Validation failed"));
        ("code", js_or (get_prop err "code") (VStr "unknown"));
        ("value", js_or (get_prop err "input") (get_prop err "received"));
        ("type", js_or (get_prop err "expected")
                       (js_or (get_prop err "format") (VStr "unknown")))].

(** ** The alias table of the specification (4.1) *)

(** The nine supported type names, [object_id] being the second spelling
    of [objectid], with the canonical type of each on the validation side. *)
Definition validation_aliases : list (string * builtin) :=
  [("string", BString); ("number", BNumber); ("boolean", BBoolean);
   ("date", BDate); ("array", BArray); ("objectid", BObjectId);
   ("object_id", BObjectId); ("mixed", BMixed); ("object", BObject);
   ("map", BMap)].

(** The names the persistence side resolves, [object] standing for Mixed
    there. *)
Definition persistence_aliases : list (string * builtin) :=
  [("string", BString); ("number", BNumber); ("boolean", BBoolean);
   ("date", BDate); ("array", BArray); ("objectid", BObjectId);
   ("object_id", BObjectId); ("mixed", BMixed); ("object", BMixed)].

(** The constructors the validation side takes by identity. *)
Definition validation_constants : list builtin :=
  [BString; BNumber; BBoolean; BDate; BArray; BObject; BMap].

End Compilers.

(** ** The caller's objects *)

(** The definition and the options are objects of the caller: the compiler
    receives references to them.  A [cell] is what a variable or a property
    holds: a value that cannot change (a primitive, a function, a frozen
    literal), or a reference to an object or an array in the heap. *)
Abbreviation loc := nat.

Inductive cell : Type :=
| Imm (v : value)
| Ref (l : loc).

Inductive hobject : Type :=
| HObject (props : obj cell)
| HArray (elems : list cell)
| HRules (shape : obj zschema).     (* the object [zodSchemaObject] of a call *)

Abbreviation heap := (gmap loc hobject).

(** A computation on the heap returns a result and the heap it leaves, or
    is stuck: a reference to nothing, or an object graph that is not
    finite within the fuel. *)
Inductive hrun (A : Type) : Type :=
| HDone (a : A) (h : heap)
| HStuck.
Arguments HDone {A} a h.
Arguments HStuck {A}.

Definition hret {A} (a : A) : heap -> hrun A := fun h => HDone a h.

Definition hbind {A B} (m : heap -> hrun A) (k : A -> heap -> hrun B)
  : heap -> hrun B :=
  fun h => match m h with
           | HDone a h' => k a h'
           | HStuck => HStuck
           end.

Notation "'do*' x ':=' m 'in' k" := (hbind m (fun x => k))
  (at level 10, x pattern, m at level 100, k at level 200).

(** The one access to the heap the compiler makes: reading the object a
    reference points to. *)
Definition deref (l : loc) : heap -> hrun hobject :=
  fun h => match h !! l with
           | Some o => HDone o h
           | None => HStuck
           end.

Fixpoint hmapM {A B} (f : A -> heap -> hrun B) (l : list A) : heap -> hrun (list B) :=
  match l with
  | [] => hret []
  | x :: t => do* y := f x in do* ys := hmapM f t in hret (y :: ys)
  end.

(** The value a cell stands for: the object graph under it. *)
Fixpoint read (fuel : nat) (c : cell) : heap -> hrun value :=
  match c with
  | Imm v => hret v
  | Ref l =>
      match fuel with
      | O => fun _ => HStuck
      | S n =>
          do* o := deref l in
          match o with
          | HObject props =>
              do* ps := hmapM (fun kc => do* v := read n (snd kc) in hret (fst kc, v))
                              props in
              hret (VObj ps)
          | HArray elems =>
              do* vs := hmapM (read n) elems in hret (VArr vs)
          | HRules _ => fun _ => HStuck
          end
      end
  end.

(** [Object.entries] of an object in the heap. *)
Definition entries_of (o : hobject) : obj cell :=
  match o with
  | HObject props => props
  | HArray elems => indexed 0 elems
  | HRules _ => []
  end.

(** [const zodSchemaObject = {}]: a new object, at a location not in use. *)
Definition alloc_rules : heap -> hrun loc :=
  fun h => let l := fresh (dom h) in HDone l (<[l := HRules []]> h).

(** [zodSchemaObject[fieldName] = zodValidator] *)
Definition store_rule (acc : loc) (fieldName : string) (zodValidator : zschema)
  : heap -> hrun unit :=
  fun h => match h !! acc with
           | Some (HRules shape) =>
               HDone tt (<[acc := HRules (assign_key fieldName zodValidator shape)]> h)
           | _ => HStuck
           end.

(** The rules stored in [zodSchemaObject]. *)
Definition rules_of (acc : loc) : heap -> hrun (obj zschema) :=
  fun h => match h !! acc with
           | Some (HRules shape) => HDone shape h
           | _ => HStuck
           end.

Section HeapCompiler.
Context {R : Runtime}.

(** Does step 1 make the recursive call on [fieldProps.schema]: the type is
    the name [object] and the property is truthy (lines 489-492). *)
Definition wants_nested (fieldProps : value) : bool :=
  match fieldProps with
  | VArr _ => false
  | _ =>
      match zodType (get_prop fieldProps "type") with
      | Some BObject =>
          negb (is_builtin BObject (get_prop fieldProps "type"))
          && truthy (get_prop fieldProps "schema")
      | _ => false
      end
  end.

(** The recursive call [createZodSchema(fieldProps.schema, options)] for
    the field held in [c], made on the reference the property holds, where
    step 1 makes it; elsewhere no call is made and the result is not
    looked at. *)
Definition nestedH (rec : cell -> heap -> hrun (outcome zschema))
    (ver : zod_version) (options : value) (c : cell) (fieldProps : value)
  : heap -> hrun (outcome zschema) :=
  if wants_nested fieldProps then
    match c with
    | Imm v => hret (createZodSchema ver options (get_prop v "schema"))
    | Ref l =>
        do* o := deref l in
        match o with
        | HObject ps =>
            match lookup_key "schema" ps with
            | Some sc => rec sc
            | None => hret (Throw TypeError)
            end
        | _ => hret (Throw TypeError)
        end
    end
  else hret (Throw TypeError).

(** The loop over the fields, storing each rule in the object at [acc]. *)
Fixpoint fieldLoop (rec : cell -> heap -> hrun (outcome zschema))
    (readField : cell -> heap -> hrun value)
    (ver : zod_version) (options customMessages : value) (acc : loc)
    (fs : obj cell) : heap -> hrun (outcome unit) :=
  match fs with
  | [] => hret (Ret tt)
  | (fieldName, c) :: rest =>
      do* fieldProps := readField c in
      do* nested := nestedH rec ver options c fieldProps in
      match compileField ver nested customMessages fieldName fieldProps with
      | Ret zodValidator =>
          do* _ := store_rule acc fieldName zodValidator in
          fieldLoop rec readField ver options customMessages acc rest
      | Throw e => hret (Throw e)
      | Foreign => hret Foreign
      end
  end.

(** [createZodSchema] on a reference to the definition. *)
Fixpoint createZodSchemaH (fuel : nat) (ver : zod_version) (options : value)
    (schemaDefinition : cell) {struct fuel} : heap -> hrun (outcome zschema) :=
  match schemaDefinition with
  | Imm v => hret (createZodSchema ver options v)
  | Ref l =>
      match fuel with
      | O => fun _ => HStuck
      | S n =>
          match zodOptions options with
          | Ret customMessages =>
              do* acc := alloc_rules in
              do* o := deref l in
              do* r := fieldLoop (createZodSchemaH n ver options) (read n)
                                 ver options customMessages acc (entries_of o) in
              match r with
              | Ret _ => do* shape := rules_of acc in
                         hret (Ret (ZObject shape Strip))
              | Throw e => hret (Throw e)
              | Foreign => hret Foreign
              end
          | Throw e => hret (Throw e)
          | Foreign => hret Foreign
          end
      end
  end.

(** The call [createZodSchema(schemaDefinition, options)] with both
    arguments in the heap. *)
Definition createZodSchemaOn (fuel : nat) (ver : zod_version)
    (options schemaDefinition : cell) : heap -> hrun (outcome zschema) :=
  do* o := read fuel options in
  createZodSchemaH fuel ver o schemaDefinition.

End HeapCompiler.

(** A computation that only reads: it leaves the heap it ran in, and gives
    the same result in any heap that extends it. *)
Definition reads {A} (m : heap -> hrun A) : Prop :=
  forall (h h1 : heap) (a : A),
    m h = HDone a h1 ->
    h1 = h /\ forall h' : heap, h ⊆ h' -> m h' = HDone a h'.

(** A field and the value read from it. *)
Definition field_reads (fuel : nat) (h : heap) (kc : string * cell)
    (kv : string * value) : Prop :=
  fst kc = fst kv /\ read fuel (snd kc) h = HDone (snd kv) h.

(** A serializer to evaluate examples with: it prints the structure of a
    value, a function or a pattern as a fixed word. *)
Fixpoint sample_stringify (v : value) : string :=
  match v with
  | VUndefined => "undefined"
  | VNull => "null"
  | VBool true => "true"
  | VBool false => "false"
  | VNum n => pretty n
  | VStr s => "'" +:+ s +:+ "'"
  | VArr l => "[" +:+ String.concat "," (map sample_stringify l) +:+ "]"
  | VObj props =>
      "{" +:+ String.concat ","
                (map (fun kv => fst kv +:+ ":" +:+ sample_stringify (snd kv)) props)
          +:+ "}"
  | _ => "{}"
  end.

(** A runtime to evaluate examples with: a value that is not a string
    prints as the empty string, every pattern of the caller is well formed
    and matches. *)
Definition sample_runtime : Runtime := {|
  ToString_other := fun _ => "";
  ToNumber_other := fun _ => None;
  regexp_valid := fun _ => true;
  regexp_test := fun _ _ _ => true;
  email_test := fun _ => true;
  any_key_optional := false;
  JSON_stringify := sample_stringify
|}.

Definition empty_store : store := {| schemaCache := ∅; pairs := [] |}.

Definition name_schema : value := VObj [("name", VObj [("type", VStr "String")])].

(** The store after compiling the definitions [ds] in turn, with default
    options. *)
Definition store_after (ds : list value) : store :=
  fold_left (fun st d =>
               match createSchemas (R := sample_runtime) Zod4 d VUndefined st with
               | Returned _ st' => st'
               | _ => st
               end) ds empty_store.

(** A definition in the heap: a field with a nested schema and a field
    with an enum. *)
Definition sample_heap : gmap nat hobject :=
  list_to_map
    [(0%nat, HObject [("profile", Ref 1); ("role", Ref 2)]);
     (1%nat, HObject [("type", Imm (VStr "object")); ("schema", Ref 3)]);
     (2%nat, HObject [("type", Imm (VStr "String")); ("enum", Ref 5)]);
     (3%nat, HObject [("bio", Ref 4)]);
     (4%nat, HObject [("type", Imm (VStr "String")); ("maxlength", Imm (VNum 200))]);
     (5%nat, HArray [Imm (VStr "user"); Imm (VStr "admin")])].

Definition sample_definition : value :=
  VObj [("profile",
         VObj [("type", VStr "object");
               ("schema",
                VObj [("bio", VObj [("type", VStr "String");
                                    ("maxlength", VNum 200)])])]);
        ("role", VObj [("type", VStr "String");
                       ("enum", VArr [VStr "user"; VStr "admin"])])].

(** ** The vocabulary of the further properties *)

(** The modifiers the loop of lines 77-220 copies under their own name and
    that no other case assigns (lines 82-87, 96-104 and 192-218). *)
Definition verbatim_names : list string :=
  ["required"; "unique"; "min"; "max"; "default"; "select"; "sparse";
   "index"; "text"; "immutable"; "transform"; "get"; "set"].

(** The keys lines 74-218 assign to a field config. *)
Definition config_keys : list string :=
  ["type"; "required"; "unique"; "minlength"; "maxlength"; "min"; "max";
   "default"; "ref"; "validate"; "enum"; "select"; "sparse"; "index"; "text";
   "immutable"; "transform"; "get"; "set"].

(** Is [k] one of them. *)
Definition is_config_key (k : string) : bool :=
  existsb (String.eqb k) config_keys.

(** The validator a modifier attaches to the config, if it attaches one
    (lines 158-168 and 174-191). *)
Definition validatorOf (propName : string) (propValue : value) : option value :=
  if String.eqb propName "email" then
    if is_true propValue
    then Some (validate_with EmailValidator "Invalid email format")
    else None
  else if String.eqb propName "regex" || String.eqb propName "match" then
    match propValue with
    | VRegExp src flags =>
        Some (validate_with (RegExpValidator src flags) "Invalid format")
    | VStr src => Some (validate_with (PatternValidator src) "Invalid format")
    | _ => None
    end
  else None.

(** A well-formed config: no key twice, every key a config key. *)
Definition config_ok (fieldConfig : obj value) : Prop :=
  NoDup (map fst fieldConfig)
  /\ forallb is_config_key (map fst fieldConfig) = true.

(** Is the rule inside a wrapper: [.optional()] or [.default(v)]. *)
Definition wrapped (z : zschema) : bool :=
  match z with
  | ZOptional _ | ZDefault _ _ => true
  | _ => false
  end.

(** The modifiers that act on a rule whatever its kind. *)
Definition kind_blind (propName : string) : bool :=
  String.eqb propName "required" || String.eqb propName "default"
  || String.eqb propName "enum".

Section Vocabulary.
Context {R : Runtime}.

(** A rule that is not [z.any()] rejects a missing value. *)
Definition needs_value (z : zschema) : Prop :=
  accepts z VUndefined = true -> z = ZAny.


(** Every entry of the cache refers to a pair that was compiled from a
    definition and options with the key of the entry. *)
Definition cache_sound (ver : zod_version) (st : store) : Prop :=
  forall (key : string) (r : ref),
    schemaCache st !! key = Some r ->
    exists schemaDefinition schemaOptions result,
      pairs st !! r = Some result
      /\ generateCacheKey schemaDefinition schemaOptions = key
      /\ compilePair ver schemaDefinition schemaOptions = Ret result.

End Vocabulary.

(** ** The demo server (server.js) *)

(** [userSchema], lines 7-57 of server.js *)
Definition userSchema : value :=
  VObj [("name", VObj [("type", VStr "String"); ("required", VBool true);
                       ("minlength", VNum 3); ("maxlength", VNum 50)]);
        ("age", VObj [("type", VStr "Number"); ("required", VBool true);
                      ("min", VNum 0); ("max", VNum 120)]);
        ("email", VObj [("type", VStr "String"); ("required", VBool true);
                        ("unique", VBool true); ("email", VBool true)]);
        ("password",
         VObj [("type", VStr "String"); ("required", VBool true);
               ("minlength", VNum 8);
               ("regex",
                VRegExp "^(?=.*[a-z])(?=.*[A-Z])(?=.*\d)[a-zA-Z\d@$!%*?&]{8,}$" "")]);
        ("role", VObj [("type", VStr "String"); ("required", VBool true);
                       ("enum", VArr [VStr "user"; VStr "admin"; VStr "moderator"]);
                       ("default", VStr "user")]);
        ("tags", VObj [("type", VStr "Array");
                       ("items", VObj [("type", VStr "String")]);
                       ("min", VNum 0); ("max", VNum 10)]);
        ("profile", VObj [("type", VStr "Object"); ("required", VBool false)]);
        ("isActive", VObj [("type", VStr "Boolean"); ("default", VBool true)]);
        ("score", VObj [("type", VStr "Number"); ("min", VNum 0); ("max", VNum 100);
                        ("default", VNum 0)])].

(** ** The example module (src/schemaDefinition.js) *)

(** [exampleSchema], lines 4-23 of src/schemaDefinition.js *)
Definition exampleSchema : value :=
  VObj [("name", VObj [("type", VStr "String"); ("required", VBool true);
                       ("minlength", VNum 3); ("maxlength", VNum 50)]);
        ("email", VObj [("type", VStr "String"); ("required", VBool true);
                        ("unique", VBool true); ("email", VBool true)]);
        ("age", VObj [("type", VStr "Number"); ("required", VBool true);
                      ("min", VNum 0); ("max", VNum 120)])].

(** * Properties *)

Section Properties.
Context {R : Runtime}.

(** ** Property lists *)

Lemma lookup_set_key {A} (k k' : string) (v : A) (o : obj A) :
  lookup_key k (set_key k' v o)
  = if String.eqb k' k then Some v else lookup_key k o.
Proof.
  induction o as [|[k0 v0] o IH]; simpl.
  - destruct (String.eqb k' k); reflexivity.
  - destruct (String.eqb k0 k') eqn:E0; simpl.
    + apply String.eqb_eq in E0. subst k0.
      destruct (String.eqb k' k); reflexivity.
    + destruct (String.eqb k0 k) eqn:E1.
      * apply String.eqb_eq in E1. subst k0.
        rewrite String.eqb_sym in E0. rewrite E0. reflexivity.
      * exact IH.
Qed.

Lemma lookup_assign_key {A} (k k' : string) (v : A) (o : obj A) :
  lookup_key k' (assign_key k v o)
  = if String.eqb k "__proto__" then lookup_key k' o
    else if String.eqb k k' then Some v else lookup_key k' o.
Proof.
  unfold assign_key. destruct (String.eqb k "__proto__"); [reflexivity|].
  apply lookup_set_key.
Qed.

Lemma lookup_key_In {A} (k : string) (v : A) (o : obj A) :
  NoDup (map fst o) -> In (k, v) o -> lookup_key k o = Some v.
Proof.
  induction o as [|[k0 v0] o IH]; simpl; intros Hnd Hin; [contradiction|].
  apply NoDup_cons in Hnd. destruct Hnd as [Hnotin Hnd].
  destruct Hin as [Heq | Hin].
  - injection Heq as -> ->. rewrite String.eqb_refl. reflexivity.
  - destruct (String.eqb k0 k) eqn:E.
    + apply String.eqb_eq in E. subst k0. exfalso. apply Hnotin.
      apply list_elem_of_In, in_map_iff. exists (k, v). split; [reflexivity | exact Hin].
    + apply IH; assumption.
Qed.

Lemma lookup_key_Some_In {A} (k : string) (v : A) (o : obj A) :
  lookup_key k o = Some v -> In (k, v) o.
Proof.
  induction o as [|[k0 v0] o IH]; simpl; [discriminate|].
  destruct (String.eqb k0 k) eqn:E.
  - apply String.eqb_eq in E. subst k0. intros [= ->]. left. reflexivity.
  - intros H. right. apply IH. exact H.
Qed.

Lemma lookup_key_None {A} (k : string) (o : obj A) :
  ~ In k (map fst o) -> lookup_key k o = None.
Proof.
  induction o as [|[k0 v0] o IH]; simpl; intros Hn; [reflexivity|].
  destruct (String.eqb k0 k) eqn:E.
  - apply String.eqb_eq in E. tauto.
  - apply IH. tauto.
Qed.

(** ** Outcomes *)

Lemma bind_Ret {A B} (m : outcome A) (k : A -> outcome B) (b : B) :
  bind m k = Ret b -> exists a, m = Ret a /\ k a = Ret b.
Proof. destruct m; simpl; intros H; try discriminate. eauto. Qed.

Lemma foldM_app {A B} (f : B -> A -> outcome B) (l1 l2 : list A) (b : B) :
  foldM f (l1 ++ l2) b = let* b' := foldM f l1 b in foldM f l2 b'.
Proof.
  revert b. induction l1 as [|x l1 IH]; intros b; simpl; [reflexivity|].
  destruct (f b x); simpl; auto.
Qed.

(** ** Type resolution *)

(** Step 1 is the rule of the canonical type the switch settles on. *)
Lemma baseRule_zodType (nested : outcome zschema) (fieldProps : value) :
  baseRule nested fieldProps
  = match zodType (get_prop fieldProps "type") with
    | Some b => ruleOfType nested fieldProps b
    | None => Throw (Error ("Invalid type: " +:+ ToString (get_prop fieldProps "type")))
    end.
Proof.
  unfold baseRule, zodType, ruleOfType. cbv zeta.
  generalize (get_prop fieldProps "type") as t. intro t.
  repeat (match goal with
          | |- context [is_builtin ?b t] => destruct (is_builtin b t)
          end; simpl; try reflexivity).
  repeat (match goal with
          | |- context [String.eqb ?a ?b] => destruct (String.eqb a b)
          end; simpl; try reflexivity).
Qed.

Lemma mongooseType_cases (t : value) :
  mongooseType t = t \/ exists b, mongooseType t = VBuiltin b.
Proof.
  unfold mongooseType. cbv zeta.
  repeat match goal with
         | |- context [if ?c then _ else _] => destruct c
         end; eauto.
Qed.

Lemma mongooseType_idempotent (t : value) :
  mongooseType (mongooseType t) = mongooseType t.
Proof.
  destruct (mongooseType_cases t) as [H | [b H]]; rewrite H.
  - exact H.
  - destruct b; reflexivity.
Qed.

(** C6, as stated, fails: on the persistence side two casings of [map]
    resolve to different type values, and on the validation side the
    canonical types ObjectId and Mixed are not resolved at all. *)
Lemma C6_resolution_counterexample :
  mongooseType (VStr "MAP") <> mongooseType (VStr "map")
  /\ zodType (VBuiltin BObjectId) = None
  /\ zodType (VBuiltin BMixed) = None.
Proof. repeat split; try reflexivity. discriminate. Qed.

(** C6 (amended): type resolution is case-insensitive for all nine
    supported names on the validation side and for the names other than
    [map] on the persistence side; persistence-side resolution is
    idempotent on every token, and the validation side resolves to itself
    each of the constants String, Number, Boolean, Date, Array, Object and
    Map. *)
Theorem C6_type_resolution :
  (forall (s name : string) (b : builtin),
      In (name, b) validation_aliases -> toLowerCase s = name ->
      zodType (VStr s) = Some b)
  /\ (forall (s name : string) (b : builtin),
      In (name, b) persistence_aliases -> toLowerCase s = name ->
      mongooseType (VStr s) = VBuiltin b)
  /\ (forall t : value, mongooseType (mongooseType t) = mongooseType t)
  /\ (forall b : builtin,
      In b validation_constants -> zodType (VBuiltin b) = Some b).
Proof.
  split; [|split; [|split]].
  - intros s name b Hin Hs. unfold zodType. simpl is_builtin. cbv zeta iota.
    rewrite Hs. simpl in Hin.
    repeat (destruct Hin as [[= <- <-] | Hin]; [reflexivity|]).
    contradiction.
  - intros s name b Hin Hs. unfold mongooseType. simpl is_builtin. cbv zeta iota.
    rewrite Hs. simpl in Hin.
    repeat (destruct Hin as [[= <- <-] | Hin]; [reflexivity|]).
    contradiction.
  - exact mongooseType_idempotent.
  - intros b Hin. simpl in Hin.
    repeat (destruct Hin as [<- | Hin]; [reflexivity|]).
    contradiction.
Qed.

Lemma C6_type_resolution_witness :
  zodType (VStr "STRING") = Some BString
  /\ mongooseType (VStr "ObjectId") = VBuiltin BObjectId
  /\ zodType (VBuiltin BMap) = Some BMap.
Proof.
  destruct C6_type_resolution as (Hz & Hm & _ & Hc).
  split; [|split].
  - apply (Hz "STRING" "string" BString); [simpl; tauto | reflexivity].
  - apply (Hm "ObjectId" "objectid" BObjectId); [simpl; tauto | reflexivity].
  - apply (Hc BMap). simpl. tauto.
Defined.

(** ** The validation compiler *)

Lemma get_prop_cons (k0 : string) (v : value) (ps : obj value) (key : string) :
  get_prop (VObj ((k0, v) :: ps)) key
  = if String.eqb k0 key then v else get_prop (VObj ps) key.
Proof. unfold get_prop. simpl. destruct (String.eqb k0 key); reflexivity. Qed.

Lemma zodOptions_cases (options : value) :
  zodOptions options = Throw TypeError \/ exists cm, zodOptions options = Ret cm.
Proof.
  unfold zodOptions. destruct options; eauto; destruct (get_prop _ _); eauto.
Qed.

Lemma createZodSchema_undefined (ver : zod_version) (options : value) :
  createZodSchema ver options VUndefined = Throw TypeError.
Proof.
  simpl. destruct (zodOptions_cases options) as [-> | [cm ->]]; reflexivity.
Qed.

Lemma createZodSchema_obj (ver : zod_version) (options : value) (fields : obj value) :
  createZodSchema ver options (VObj fields)
  = let* customMessages := zodOptions options in
    let* zodSchemaObject := foldM (fieldStep ver options customMessages) fields [] in
    Ret (ZObject zodSchemaObject Strip).
Proof.
  cbn [createZodSchema].
  destruct (zodOptions options) as [cm| |]; simpl; try reflexivity.
  generalize (@nil (string * zschema)) as acc.
  induction fields as [|[k fp] fields IH]; intros acc; simpl; [reflexivity|].
  match goal with
  | |- bind (compileField _ ?n _ _ _) _ = _ =>
      assert (n = createZodSchema ver options (get_prop fp "schema")) as ->
  end.
  { destruct fp;
      try (change (get_prop _ "schema") with VUndefined;
           rewrite createZodSchema_undefined; reflexivity).
    induction props as [|[k0 v] ps IHp].
    - change (get_prop _ "schema") with VUndefined.
      rewrite createZodSchema_undefined. reflexivity.
    - rewrite get_prop_cons.
      destruct (String.eqb k0 "schema"); [reflexivity | exact IHp]. }
  unfold fieldStep at 1. simpl.
  destruct (compileField ver _ cm k fp); simpl; try reflexivity.
  apply IH.
Qed.

Lemma foldM_fieldStep_other (ver : zod_version) (options cm : value)
    (fields : obj value) (acc shape : obj zschema) (name : string) :
  foldM (fieldStep ver options cm) fields acc = Ret shape ->
  ~ In name (map fst fields) ->
  lookup_key name shape = lookup_key name acc.
Proof.
  revert acc.
  induction fields as [|[k fp] fields IH]; intros acc; simpl.
  - intros [= <-] _. reflexivity.
  - intros H Hn. apply bind_Ret in H. destruct H as (acc' & Hstep & H).
    rewrite (IH _ H) by tauto.
    unfold fieldStep in Hstep. apply bind_Ret in Hstep.
    destruct Hstep as (z & _ & [= <-]). simpl.
    rewrite lookup_assign_key.
    destruct (String.eqb k "__proto__"); [reflexivity|].
    destruct (String.eqb k name) eqn:E; [|reflexivity].
    apply String.eqb_eq in E. tauto.
Qed.

Lemma foldM_fieldStep_field (ver : zod_version) (options cm : value)
    (fields : obj value) (acc shape : obj zschema) (name : string)
    (fieldProps : value) :
  foldM (fieldStep ver options cm) fields acc = Ret shape ->
  NoDup (map fst fields) -> In (name, fieldProps) fields ->
  name <> "__proto__" ->
  exists z,
    compileField ver (createZodSchema ver options (get_prop fieldProps "schema"))
                 cm name fieldProps = Ret z
    /\ lookup_key name shape = Some z.
Proof.
  revert acc.
  induction fields as [|[k fp] fields IH]; intros acc; simpl; [contradiction|].
  intros H Hnd Hin Hname. apply NoDup_cons in Hnd. destruct Hnd as [Hnotin Hnd].
  rewrite list_elem_of_In in Hnotin.
  apply bind_Ret in H. destruct H as (acc' & Hstep & H).
  destruct Hin as [[= -> ->] | Hin].
  - unfold fieldStep in Hstep. apply bind_Ret in Hstep.
    destruct Hstep as (z & Hz & [= <-]). simpl in *.
    exists z. split; [exact Hz|].
    rewrite (foldM_fieldStep_other _ _ _ _ _ _ _ H Hnotin).
    apply String.eqb_neq in Hname.
    rewrite lookup_assign_key, Hname, String.eqb_refl. reflexivity.
  - eapply IH; eassumption.
Qed.

(** The rule a compiled schema holds for a field of the definition, other
    than [__proto__], is the result of the loop body on that field. *)
Lemma createZodSchema_field (ver : zod_version) (options : value)
    (fields : obj value) (name : string) (fieldProps : value) (zs : zschema) :
  createZodSchema ver options (VObj fields) = Ret zs ->
  NoDup (map fst fields) -> In (name, fieldProps) fields ->
  name <> "__proto__" ->
  exists cm shape z,
    zodOptions options = Ret cm
    /\ zs = ZObject shape Strip
    /\ lookup_key name shape = Some z
    /\ compileField ver (createZodSchema ver options (get_prop fieldProps "schema"))
                    cm name fieldProps = Ret z.
Proof.
  rewrite createZodSchema_obj. intros H Hnd Hin Hname.
  apply bind_Ret in H. destruct H as (cm & Hcm & H).
  apply bind_Ret in H. destruct H as (shape & Hshape & [= <-]).
  destruct (foldM_fieldStep_field _ _ _ _ _ _ _ _ Hshape Hnd Hin Hname)
    as (z & Hz & Hl).
  exists cm, shape, z. auto.
Qed.
Ltac inv_ret :=
  repeat match goal with
         | H : bind _ _ = Ret _ |- _ =>
             apply bind_Ret in H; destruct H as (? & ? & H)
         | H : Ret _ = Ret _ |- _ => injection H as <-
         | H : Throw _ = Ret _ |- _ => discriminate H
         | H : Foreign = Ret _ |- _ => discriminate H
         | H : (if ?c then _ else _) = Ret _ |- _ => destruct c eqn:?
         | H : match ?x with _ => _ end = Ret _ |- _ => destruct x eqn:?
         end.

Lemma In_not_proto {A} (fields : obj A) (name : string) (fp : A) :
  ~ In "__proto__" (map fst fields) -> In (name, fp) fields -> name <> "__proto__".
Proof.
  intros Hn Hin ->. apply Hn. apply in_map_iff. exists ("__proto__", fp). auto.
Qed.

Lemma is_optional_add_str_check (z : zschema) (c : str_check) :
  is_optional (add_str_check z c) = is_optional z.
Proof. destruct z; reflexivity. Qed.

Lemma is_optional_add_bound_check (z : zschema) (c : bound_check) :
  is_optional (add_bound_check z c) = is_optional z.
Proof. destruct z; reflexivity. Qed.

(** Every definition that compiles compiles to a strict object rule. *)
Lemma createZodSchema_object (ver : zod_version) (options schemaDefinition : value)
    (zs : zschema) :
  createZodSchema ver options schemaDefinition = Ret zs ->
  exists shape, zs = ZObject shape Strip.
Proof.
  destruct schemaDefinition; cbn [createZodSchema]; intros H;
    apply bind_Ret in H; destruct H as (cm & _ & H); try discriminate;
    try (apply bind_Ret in H; destruct H as (shape & _ & [= <-]); eauto; fail).
  - revert H. generalize (@nil (string * zschema)) as acc. generalize 0%nat as i.
    induction l as [|fp l IH]; intros i acc H.
    + injection H as <-. eauto.
    + apply bind_Ret in H. destruct H as (z & _ & H). eapply IH. exact H.
  - revert H. generalize (@nil (string * zschema)) as acc.
    induction props as [|[k fp] props IH]; intros acc H.
    + injection H as <-. eauto.
    + apply bind_Ret in H. destruct H as (z & _ & H). eapply IH. exact H.
Qed.

Lemma baseRule_not_optional (nested : outcome zschema) (fieldProps : value) (z : zschema) :
  (forall n, nested = Ret n -> is_optional n = false) ->
  baseRule nested fieldProps = Ret z -> is_optional z = false.
Proof.
  intros Hn. rewrite baseRule_zodType.
  destruct (zodType _) as [b|]; [|discriminate].
  destruct b; simpl; unfold arrayRule; intros H; inv_ret; auto.
  destruct (truthy _); reflexivity.
Qed.

Lemma applyModifier_not_optional (ver : zod_version) (cm : value)
    (name propName : string) (propValue : value) (z z' : zschema) :
  applyModifier ver cm name propName propValue z = Ret z' ->
  (propName = "required" -> propValue <> VBool false) ->
  is_optional z = false -> is_optional z' = false.
Proof.
  unfold applyModifier, enumRule, objectIdRule. intros H Hreq Hz.
  inv_ret; rewrite ?is_optional_add_str_check, ?is_optional_add_bound_check;
    auto.
  exfalso. apply Hreq.
  - match goal with H : String.eqb propName "required" = true |- _ =>
      apply String.eqb_eq in H; exact H end.
  - destruct propValue as [| | [|] | | | | | | | |]; try discriminate. reflexivity.
Qed.

Lemma applyModifiers_not_optional (ver : zod_version) (cm : value) (name : string)
    (entries : obj value) (z z' : zschema) :
  applyModifiers ver cm name entries z = Ret z' ->
  (forall v, In ("required", v) entries -> v <> VBool false) ->
  is_optional z = false -> is_optional z' = false.
Proof.
  unfold applyModifiers. revert z.
  induction entries as [|[k v] entries IH]; simpl; intros z H Hreq Hz.
  - injection H as <-. exact Hz.
  - apply bind_Ret in H. destruct H as (z1 & H1 & H).
    apply (IH z1 H); [intros; apply Hreq; auto|].
    eapply applyModifier_not_optional; [exact H1 | | exact Hz].
    intros ->. apply Hreq. auto.
Qed.

Lemma is_optional_passwordStep (ver : zod_version) (name : string)
    (fieldProps : value) (z : zschema) :
  is_optional (passwordStep ver name fieldProps z) = is_optional z.
Proof.
  unfold passwordStep. destruct (_ && _); [apply is_optional_add_str_check | reflexivity].
Qed.

Lemma get_prop_In (props : obj value) (k : string) (v : value) :
  NoDup (map fst props) -> In (k, v) props -> get_prop (VObj props) k = v.
Proof.
  intros Hnd Hin. unfold get_prop. rewrite (lookup_key_In _ _ _ Hnd Hin). reflexivity.
Qed.

Lemma wrapped_kind (ver : zod_version) (z : zschema) :
  wrapped z = true ->
  is_str "string" (def_type ver z) = false
  /\ is_str "number" (def_type ver z) = false
  /\ is_str "array" (def_type ver z) = false
  /\ is_str "ZodString" (def_typeName ver z) = false.
Proof.
  destruct z; try discriminate; destruct ver; intros _; repeat split; reflexivity.
Qed.

Lemma applyModifier_wrapped (ver : zod_version) (cm : value)
    (fieldName propName : string) (propValue : value) (z : zschema) :
  wrapped z = true -> kind_blind propName = false ->
  applyModifier ver cm fieldName propName propValue z = Ret z.
Proof.
  intros Hw Hk. destruct (wrapped_kind ver z Hw) as (Hs & Hn & Ha & Ht).
  unfold kind_blind in Hk.
  apply orb_false_iff in Hk. destruct Hk as [Hk He].
  apply orb_false_iff in Hk. destruct Hk as [Hr Hd].
  unfold applyModifier. rewrite Hs, Hn, Ha, Ht, Hr, Hd, He, andb_false_r.
  repeat match goal with
         | |- context [if ?c then _ else _] => destruct c
         end; reflexivity.
Qed.

Lemma applyModifiers_wrapped (ver : zod_version) (cm : value) (fieldName : string)
    (post : obj value) (z : zschema) :
  wrapped z = true ->
  forallb (fun pv => negb (kind_blind (fst pv))) post = true ->
  applyModifiers ver cm fieldName post z = Ret z.
Proof.
  intros Hw. unfold applyModifiers.
  induction post as [|[p v] post IH]; simpl; [reflexivity|].
  intros H. apply andb_true_iff in H. destruct H as [Hp H].
  apply negb_true_iff in Hp.
  rewrite applyModifier_wrapped by assumption. simpl. apply IH. exact H.
Qed.

Lemma passwordStep_wrapped (ver : zod_version) (name : string)
    (fieldProps : value) (z : zschema) :
  wrapped z = true -> passwordStep ver name fieldProps z = z.
Proof.
  intros Hw. destruct (wrapped_kind ver z Hw) as (Hs & _).
  unfold passwordStep. rewrite Hs, andb_false_r. reflexivity.
Qed.

(** After a wrapper that accepts a missing value, only an [enum] can take
    the wrapper away. *)
Lemma applyModifier_keeps_missing (ver : zod_version) (cm : value)
    (fieldName propName : string) (propValue : value) (z z' : zschema) :
  wrapped z = true -> isOptional z = true -> propName <> "enum" ->
  applyModifier ver cm fieldName propName propValue z = Ret z' ->
  wrapped z' = true /\ isOptional z' = true.
Proof.
  intros Hw Ho He H.
  destruct (kind_blind propName) eqn:Hk.
  - unfold kind_blind in Hk. apply String.eqb_neq in He. rewrite He, orb_false_r in Hk.
    apply orb_true_iff in Hk. unfold applyModifier in H.
    destruct Hk as [Hk | Hk]; apply String.eqb_eq in Hk; subst propName;
      cbn [String.eqb Ascii.eqb Bool.eqb orb] in H.
    + destruct (is_false propValue); injection H as <-; auto.
    + destruct (negb (is_undefined propValue)); injection H as <-; auto.
  - rewrite (applyModifier_wrapped ver cm fieldName propName propValue z Hw Hk) in H.
    injection H as <-. auto.
Qed.

Lemma applyModifiers_keeps_missing (ver : zod_version) (cm : value)
    (fieldName : string) (post : obj value) (z z' : zschema) :
  wrapped z = true -> isOptional z = true -> ~ In "enum" (map fst post) ->
  applyModifiers ver cm fieldName post z = Ret z' ->
  wrapped z' = true /\ isOptional z' = true.
Proof.
  unfold applyModifiers. revert z.
  induction post as [|[p v] post IH]; intros z Hw Ho He H; simpl in H.
  - injection H as <-. auto.
  - apply bind_Ret in H. destruct H as (z1 & H1 & H). simpl in He, H1.
    destruct (applyModifier_keeps_missing ver cm fieldName p v z z1) as [Hw1 Ho1];
      auto.
    apply (IH z1); auto.
Qed.

(** C8 (amended): in a definition none of whose fields is named [__proto__],
    the rule of a field whose FieldSpec sets [default] to a defined value and
    does not set [required] to true is wrapped by [.optional()] and accepts
    a missing value.  For a field whose FieldSpec sets [required] to true the
    last step adds no [.optional()]; its rule accepts a missing value all the
    same when the FieldSpec sets a defined [default] and has no [enum] after
    it, since [.default()] itself lets the value be left out. *)
Theorem C8_default_optional (ver : zod_version) (options : value)
    (fields props : obj value) (name : string) (zs : zschema) :
  NoDup (map fst fields) -> ~ In "__proto__" (map fst fields) ->
  In (name, VObj props) fields ->
  NoDup (map fst props) ->
  createZodSchema ver options (VObj fields) = Ret zs ->
  exists shape z,
    zs = ZObject shape Strip
    /\ lookup_key name shape = Some z
    /\ (get_prop (VObj props) "default" <> VUndefined ->
        get_prop (VObj props) "required" <> VBool true ->
        is_optional z = true /\ isOptional z = true)
    /\ (get_prop (VObj props) "required" = VBool true ->
        is_optional z = false)
    /\ (forall (pre post : obj value) (d : value),
          props = pre ++ ("default", d) :: post -> d <> VUndefined ->
          ~ In "enum" (map fst post) ->
          isOptional z = true).
Proof.
  intros Hnd Hproto Hin Hndp H.
  destruct (createZodSchema_field _ _ _ _ _ _ H Hnd Hin (In_not_proto _ _ _ Hproto Hin))
    as (cm & shape & z & Hcm & -> & Hl & Hz).
  exists shape, z. split; [reflexivity|]. split; [exact Hl|].
  unfold compileField in Hz.
  apply bind_Ret in Hz. destruct Hz as (base & Hbase & Hz).
  apply bind_Ret in Hz. destruct Hz as (z1 & Hmods & [= <-]).
  split; [|split].
  - intros Hd Hr. unfold defaultStep.
    destruct (get_prop (VObj props) "default"); try contradiction;
      destruct (get_prop (VObj props) "required") as [| | [|] | | | | | | | |];
      try contradiction; split; reflexivity.
  - intros Hr. unfold defaultStep. rewrite Hr. rewrite andb_false_r.
    rewrite is_optional_passwordStep.
    eapply applyModifiers_not_optional; [exact Hmods | |].
    + intros v Hv ->. simpl own_props in Hv.
      rewrite (get_prop_In _ _ _ Hndp Hv) in Hr. discriminate.
    + eapply baseRule_not_optional; [|exact Hbase].
      intros n Hn. apply createZodSchema_object in Hn. destruct Hn as [s ->].
      reflexivity.
  - intros pre post d -> Hd Henum.
    cbn [own_props] in Hmods. unfold applyModifiers in Hmods.
    rewrite foldM_app in Hmods.
    apply bind_Ret in Hmods. destruct Hmods as (zpre & _ & Hmods).
    cbn [foldM fst snd] in Hmods.
    apply bind_Ret in Hmods. destruct Hmods as (zd & Hzd & Hmods).
    assert (zd = ZDefault zpre d) as ->.
    { unfold applyModifier in Hzd. cbn [String.eqb Ascii.eqb Bool.eqb orb] in Hzd.
      destruct d; try contradiction; injection Hzd as <-; reflexivity. }
    destruct (applyModifiers_keeps_missing ver cm name post (ZDefault zpre d) z1)
      as [Hw Ho]; auto.
    rewrite (passwordStep_wrapped _ _ _ _ Hw).
    unfold defaultStep. destruct (_ && _); [reflexivity | exact Ho].
Qed.

(** ** The enum rule *)

Lemma mapM_toLowerCase_strings (strs : list string) :
  mapM call_toLowerCase (map VStr strs) = Ret (map toLowerCase strs).
Proof.
  induction strs as [|s strs IH]; simpl; [reflexivity|].
  rewrite IH. reflexivity.
Qed.

Lemma accepts_enumRule (lowerCaseEnum : list string) (msg : string) (input : value) :
  accepts (enumRule lowerCaseEnum msg) input = true
  <-> exists s, input = VStr s /\ In (toLowerCase s) lowerCaseEnum.
Proof.
  unfold enumRule. split.
  - destruct input; simpl; try discriminate.
    rewrite andb_true_r. intros H. apply existsb_exists in H.
    destruct H as (x & Hx & He). apply String.eqb_eq in He. subst x. eauto.
  - intros (s & -> & Hin). simpl. rewrite andb_true_r.
    apply existsb_exists. exists (toLowerCase s). split; [exact Hin|].
    apply String.eqb_refl.
Qed.

(** The [enum] modifier discards the rule built so far. *)
Lemma applyModifier_enum (ver : zod_version) (cm : value) (name : string)
    (strs : list string) (z : zschema) :
  applyModifier ver cm name "enum" (VArr (map VStr strs)) z
  = Ret (enumRule (map toLowerCase strs)
           (name +:+ " must be one of: " +:+ join ", " (map VStr strs))).
Proof.
  unfold applyModifier. simpl. rewrite mapM_toLowerCase_strings. reflexivity.
Qed.

(** C1 (amended): in a definition none of whose fields is named
    [__proto__], for every field whose FieldSpec carries an [enum] array of
    strings, the modifier replaces the rule built so far, whatever the
    declared type and the modifiers before it, by a string rule that
    lowercases the input and accepts exactly the strings whose lowercased
    form is in the lowercased allowed set; the compiled rule of the field is
    that rule with the modifiers that follow [enum] in the FieldSpec, then
    the password and default steps, applied to it. *)
Theorem C1_enum_replaces_rule (ver : zod_version) (options : value)
    (fields pre post : obj value) (name : string) (strs : list string)
    (zs : zschema) :
  let fieldProps := VObj (pre ++ ("enum", VArr (map VStr strs)) :: post) in
  let rule := enumRule (map toLowerCase strs)
                (name +:+ " must be one of: " +:+ join ", " (map VStr strs)) in
  NoDup (map fst fields) -> ~ In "__proto__" (map fst fields) ->
  In (name, fieldProps) fields ->
  createZodSchema ver options (VObj fields) = Ret zs ->
  (forall input : value,
      accepts rule input = true
      <-> exists s, input = VStr s /\ In (toLowerCase s) (map toLowerCase strs))
  /\ exists cm shape z,
      zodOptions options = Ret cm
      /\ zs = ZObject shape Strip
      /\ applyModifiers ver cm name post rule = Ret z
      /\ lookup_key name shape
         = Some (defaultStep fieldProps (passwordStep ver name fieldProps z)).
Proof.
  intros fieldProps rule Hnd Hproto Hin H. split; [apply accepts_enumRule|].
  destruct (createZodSchema_field _ _ _ _ _ _ H Hnd Hin (In_not_proto _ _ _ Hproto Hin))
    as (cm & shape & z0 & Hcm & -> & Hl & Hz).
  unfold compileField in Hz. subst fieldProps. cbv iota beta in Hz.
  apply bind_Ret in Hz. destruct Hz as (base & _ & Hz).
  apply bind_Ret in Hz. destruct Hz as (z & Hmods & [= <-]).
  unfold applyModifiers in Hmods. simpl own_props in Hmods.
  rewrite foldM_app in Hmods.
  apply bind_Ret in Hmods. destruct Hmods as (zpre & _ & Hmods).
  simpl in Hmods. rewrite applyModifier_enum in Hmods. simpl in Hmods.
  exists cm, shape, z. auto.
Qed.

(** ** The password step *)

(** Step 3 appends the default pattern exactly when the name contains
    "password", the FieldSpec has no [regex] property, and the rule is a
    string rule; the [match] property is not consulted. *)
Lemma passwordStep_fires (ver : zod_version) (name : string) (fieldProps : value)
    (z : zschema) :
  has_password_pattern z = false ->
  has_password_pattern (passwordStep ver name fieldProps z)
  = includes "password" (toLowerCase name)
    && is_undefined (get_prop fieldProps "regex")
    && is_str "string" (def_type ver z).
Proof.
  intros Hz. unfold passwordStep.
  destruct (_ && _) eqn:E; [|exact Hz].
  apply andb_true_iff in E. destruct E as [_ E].
  destruct ver; simpl in E; [discriminate|].
  destruct z; simpl in E; try discriminate.
  simpl. rewrite existsb_app. simpl. apply orb_true_r.
Qed.

(** C2, at the failing input: a password field that supplies its pattern
    under [match] is compiled with that pattern and with the default
    password pattern as well. *)
Theorem C2_match_keeps_password_pattern (src flags : string) :
  createZodSchema Zod4 VUndefined
    (VObj [("password", VObj [("type", VStr "String");
                              ("match", VRegExp src flags)])])
  = Ret (ZObject
           [("password",
             ZString [SRegex (RxUser src flags) (VStr "password format is invalid");
                      SRegex RxPassword (passwordMessage "password")])]
           Strip).
Proof. reflexivity. Qed.

(** ** The ref modifier *)

(** No rule is a string rule for both tests the validation compiler uses:
    [_def.type === 'string'] holds in Zod 4 only and
    [_def.typeName === 'ZodString'] in Zod 3 only. *)
Lemma string_tests_exclusive (ver : zod_version) (z : zschema) :
  is_str "string" (def_type ver z) && is_str "ZodString" (def_typeName ver z)
  = false.
Proof. destruct ver; simpl; [reflexivity | apply andb_false_r]. Qed.

(** C5, at the failing input: with Zod 4 the [ref] modifier leaves every
    rule as it is, so a string field with a [ref] accepts a string that is
    not an ObjectId. *)
Theorem C5_ref_leaves_rule (cm : value) (name : string) (propValue : value)
    (z : zschema) :
  applyModifier Zod4 cm name "ref" propValue z = Ret z
  /\ createZodSchema Zod4 VUndefined
       (VObj [("author", VObj [("type", VStr "String"); ("ref", VStr "User")])])
     = Ret (ZObject [("author", ZString [])] Strip)
  /\ accepts (ZString []) (VStr "not an ObjectId") = true.
Proof. repeat split. Qed.

(** With Zod 3 the [ref] test holds for a string rule, and the tests on
    [_def.type] of the same loop never do. *)
Lemma zod3_ref_and_lengths (cm : value) (name : string) (propValue : value) :
  applyModifier Zod3 cm name "ref" propValue (ZString []) = Ret objectIdRule
  /\ applyModifier Zod3 cm name "minlength" propValue (ZString []) = Ret (ZString [])
  /\ passwordStep Zod3 "password" (VObj []) (ZString []) = ZString [].
Proof. repeat split. Qed.
(** ** The validation compiler on the caller's heap *)

(** Where step 1 makes no recursive call, the rule of a field does not
    depend on [nested]. *)
Lemma compileField_without_nested (ver : zod_version) (nested nested' : outcome zschema)
    (cm : value) (name : string) (fieldProps : value) :
  wants_nested fieldProps = false ->
  compileField ver nested cm name fieldProps
  = compileField ver nested' cm name fieldProps.
Proof.
  intros Hw. unfold compileField.
  assert (baseRule nested fieldProps = baseRule nested' fieldProps) as Hb.
  { rewrite !baseRule_zodType. unfold wants_nested in Hw.
    destruct (zodType (get_prop fieldProps "type")) as [b|]; [|reflexivity].
    destruct b; try reflexivity.
    unfold ruleOfType.
    destruct fieldProps; try reflexivity; rewrite Hw; reflexivity. }
  destruct fieldProps; try reflexivity; rewrite Hb; reflexivity.
Qed.

Lemma reads_hret {A} (a : A) : reads (hret a).
Proof. intros h h1 a' [= <- <-]. split; [reflexivity|]. reflexivity. Qed.

Lemma reads_deref (l : loc) : reads (deref l).
Proof.
  intros h h1 o H. unfold deref in *.
  destruct (h !! l) as [o'|] eqn:E; [|discriminate].
  injection H as <- <-. split; [reflexivity|].
  intros h' Hsub. rewrite (lookup_weaken _ _ _ _ E Hsub). reflexivity.
Qed.

Lemma reads_hbind {A B} (m : heap -> hrun A) (k : A -> heap -> hrun B) :
  reads m -> (forall a, reads (k a)) -> reads (hbind m k).
Proof.
  intros Hm Hk h h1 b H. unfold hbind in *.
  destruct (m h) as [a h2|] eqn:E; [|discriminate].
  destruct (Hm _ _ _ E) as [-> Hm'].
  destruct (Hk a _ _ _ H) as [-> Hk'].
  split; [reflexivity|].
  intros h' Hsub. rewrite (Hm' _ Hsub). apply Hk'. exact Hsub.
Qed.

Lemma reads_hmapM {A B} (f : A -> heap -> hrun B) (l : list A) :
  (forall x, reads (f x)) -> reads (hmapM f l).
Proof.
  intros Hf. induction l as [|x l IH]; simpl.
  - apply reads_hret.
  - apply reads_hbind; [apply Hf|]. intros y.
    apply reads_hbind; [exact IH|]. intros ys. apply reads_hret.
Qed.

Lemma reads_stuck {A} : reads (fun _ : heap => @HStuck A).
Proof. intros h h1 a H. discriminate. Qed.

Lemma reads_read (fuel : nat) (c : cell) : reads (read fuel c).
Proof.
  revert c. induction fuel as [|n IH]; intros [v|l]; simpl;
    try apply reads_hret; try apply reads_stuck.
  apply reads_hbind; [apply reads_deref|]. intros [props|elems|shape].
  - apply reads_hbind; [|intros; apply reads_hret].
    apply reads_hmapM. intros [k c].
    apply reads_hbind; [apply IH | intros; apply reads_hret].
  - apply reads_hbind; [|intros; apply reads_hret].
    apply reads_hmapM. exact IH.
  - apply reads_stuck.
Qed.

Lemma hmapM_ext {A B} (f g : A -> heap -> hrun B) (l : list A) (h : heap)
    (ys : list B) :
  (forall x, reads (f x)) ->
  (forall x y, f x h = HDone y h -> g x h = HDone y h) ->
  hmapM f l h = HDone ys h -> hmapM g l h = HDone ys h.
Proof.
  intros Hf Hfg. revert ys.
  induction l as [|x l IH]; intros ys; simpl; [auto|].
  unfold hbind. destruct (f x h) as [y h1|] eqn:E; [|discriminate].
  destruct (Hf _ _ _ _ E) as [-> _].
  rewrite (Hfg _ _ E).
  destruct (hmapM f l h) as [ys' h1|] eqn:E'; [|discriminate].
  destruct (reads_hmapM f l Hf _ _ _ E') as [-> _].
  rewrite (IH _ eq_refl). auto.
Qed.

(** More fuel reads the same value. *)
Lemma read_more_fuel (fuel : nat) (c : cell) (h : heap) (v : value) :
  read fuel c h = HDone v h -> read (S fuel) c h = HDone v h.
Proof.
  revert c v. induction fuel as [|n IH]; intros [v0|l] v; try (simpl; auto; fail);
    try discriminate.
  intros H. change (read (S (S n)) (Ref l)) with
    (do* o := deref l in
     match o with
     | HObject props =>
         do* ps := hmapM (fun kc => do* v := read (S n) (snd kc) in hret (fst kc, v))
                         props in
         hret (VObj ps)
     | HArray elems => do* vs := hmapM (read (S n)) elems in hret (VArr vs)
     | HRules _ => fun _ => HStuck
     end).
  simpl in H. unfold hbind in *.
  destruct (deref l h) as [o h1|] eqn:E; [|discriminate].
  destruct (reads_deref _ _ _ _ E) as [-> _].
  destruct o as [props|elems|shape]; [| |discriminate].
  - destruct (hmapM _ props h) as [ps h1|] eqn:E'; [|discriminate].
    assert (h1 = h) as ->.
    { eapply reads_hmapM; [|exact E']. intros [k c].
      apply reads_hbind; [apply reads_read | intros; apply reads_hret]. }
    erewrite hmapM_ext; [exact H| | |exact E'].
    + intros [k c]. apply reads_hbind; [apply reads_read | intros; apply reads_hret].
    + intros [k c] [k' v']. unfold hbind, hret. cbn [fst snd].
      destruct (read n c h) as [v1 h1|] eqn:Ec; [|discriminate].
      destruct (reads_read _ _ _ _ _ Ec) as [-> _].
      rewrite (IH _ _ Ec). auto.
  - destruct (hmapM _ elems h) as [vs h1|] eqn:E'; [|discriminate].
    assert (h1 = h) as -> by (eapply reads_hmapM; [apply reads_read | exact E']).
    erewrite hmapM_ext; [exact H| | |exact E'].
    + apply reads_read.
    + intros c v'. apply IH.
Qed.

Lemma hmapM_Forall2 {A B} (f : A -> heap -> hrun B) (l : list A) (h h1 : heap)
    (ys : list B) :
  (forall x, reads (f x)) ->
  hmapM f l h = HDone ys h1 ->
  h1 = h /\ Forall2 (fun x y => f x h = HDone y h) l ys.
Proof.
  intros Hf. revert ys h1.
  induction l as [|x l IH]; intros ys h1; simpl.
  - intros [= <- <-]. split; [reflexivity | constructor].
  - unfold hbind, hret. destruct (f x h) as [y h2|] eqn:E; [|discriminate].
    destruct (Hf _ _ _ _ E) as [-> _].
    destruct (hmapM f l h) as [ys' h2|] eqn:E'; [|discriminate].
    destruct (IH _ _ eq_refl) as [-> Hall].
    intros [= <- <-]. split; [reflexivity|]. constructor; assumption.
Qed.

Lemma Forall2_indexed (fuel : nat) (h : heap) (elems : list cell) (vs : list value)
    (i : nat) :
  Forall2 (fun c v => read fuel c h = HDone v h) elems vs ->
  Forall2 (field_reads fuel h) (indexed i elems) (indexed i vs).
Proof.
  intros H. revert i. induction H as [|c v elems vs Hc _ IH]; intros i; simpl.
  - constructor.
  - constructor; [split; [reflexivity | exact Hc] | apply IH].
Qed.

(** What reading a reference gives: the object it points to, entry by
    entry. *)
Lemma read_ref (fuel : nat) (l : loc) (h : heap) (d : value) :
  read (S fuel) (Ref l) h = HDone d h ->
  exists o,
    h !! l = Some o
    /\ Forall2 (field_reads fuel h) (entries_of o) (own_props d)
    /\ match o with
       | HObject props => exists ps, d = VObj ps
       | HArray _ => exists vs, d = VArr vs
       | HRules _ => False
       end.
Proof.
  simpl. unfold hbind, deref, hret. intros H.
  destruct (h !! l) as [o|] eqn:E; [|discriminate].
  exists o. split; [reflexivity|].
  destruct o as [props|elems|shape]; [| |discriminate].
  - destruct (hmapM _ props h) as [ps h1|] eqn:E'; [|discriminate].
    apply hmapM_Forall2 in E'.
    2:{ intros [k c]. apply reads_hbind; [apply reads_read | intros; apply reads_hret]. }
    destruct E' as [-> Hall]. injection H as <-. split; [|eauto].
    simpl. eapply Forall2_impl; [exact Hall|].
    intros [k c] [k' v]. unfold hbind, hret, field_reads. cbn [fst snd].
    destruct (read fuel c h) as [v1 h1|] eqn:Ec; [|discriminate].
    destruct (reads_read _ _ _ _ _ Ec) as [-> _].
    intros [= <- <-]. auto.
  - destruct (hmapM _ elems h) as [vs h1|] eqn:E'; [|discriminate].
    apply hmapM_Forall2 in E'; [|apply reads_read].
    destruct E' as [-> Hall]. injection H as <-. split; [|eauto].
    simpl. apply Forall2_indexed. exact Hall.
Qed.

Lemma lookup_key_field_reads (fuel : nat) (h : heap) (props : obj cell)
    (ps : obj value) (k : string) :
  Forall2 (field_reads fuel h) props ps ->
  match lookup_key k props with
  | Some c => exists v, lookup_key k ps = Some v /\ read fuel c h = HDone v h
  | None => lookup_key k ps = None
  end.
Proof.
  induction 1 as [|[k1 c] [k2 v] props ps [Hk Hr] _ IH]; simpl; [reflexivity|].
  simpl in Hk, Hr. subst k2.
  destruct (String.eqb k1 k); [eauto | exact IH].
Qed.

Lemma createZodSchema_arr (ver : zod_version) (options : value) (elems : list value) :
  createZodSchema ver options (VArr elems)
  = let* customMessages := zodOptions options in
    let* zodSchemaObject :=
      foldM (fieldStep ver options customMessages) (indexed 0 elems) [] in
    Ret (ZObject zodSchemaObject Strip).
Proof.
  cbn [createZodSchema].
  destruct (zodOptions options) as [cm| |]; simpl; try reflexivity.
  generalize (@nil (string * zschema)) as acc. generalize 0%nat as i.
  induction elems as [|fp elems IH]; intros i acc; simpl; [reflexivity|].
  match goal with
  | |- bind (compileField _ ?n _ _ _) _ = _ =>
      assert (n = createZodSchema ver options (get_prop fp "schema")) as ->
  end.
  { destruct fp;
      try (change (get_prop _ "schema") with VUndefined;
           rewrite createZodSchema_undefined; reflexivity).
    induction props as [|[k0 v] ps IHp].
    - change (get_prop _ "schema") with VUndefined.
      rewrite createZodSchema_undefined. reflexivity.
    - rewrite get_prop_cons.
      destruct (String.eqb k0 "schema"); [reflexivity | exact IHp]. }
  unfold fieldStep at 1. simpl.
  destruct (compileField ver _ cm (pretty i) fp); simpl; try reflexivity.
  apply IH.
Qed.

(** The loop on the heap stores what the loop on the values computes, and
    keeps every object the heap [h] had. *)
Lemma fieldLoop_simulates (n : nat) (ver : zod_version) (options cm : value)
    (acc : loc) (h : heap) :
  (forall (c : cell) (d : value) (h0 : heap),
      read n c h0 = HDone d h0 ->
      exists h', createZodSchemaH n ver options c h0
                 = HDone (createZodSchema ver options d) h'
                 /\ h0 ⊆ h') ->
  zodOptions options = Ret cm ->
  h !! acc = None ->
  forall (fs : obj cell) (tfs : obj value),
    Forall2 (field_reads n h) fs tfs ->
    forall (shape : obj zschema) (hk : heap),
      h ⊆ hk -> hk !! acc = Some (HRules shape) ->
      exists (r : outcome unit) (hk' : heap),
        fieldLoop (createZodSchemaH n ver options) (read n) ver options cm acc fs hk
        = HDone r hk'
        /\ h ⊆ hk'
        /\ match foldM (fieldStep ver options cm) tfs shape with
           | Ret shape' => r = Ret tt /\ hk' !! acc = Some (HRules shape')
           | Throw e => r = Throw e
           | Foreign => r = Foreign
           end.
Proof.
  intros IHn Hcm Hacc fs tfs Hall.
  induction Hall as [|[k c] [k' fp] fs tfs [Hk Hr] Hall IH]; intros shape hk Hsub Hk'.
  - exists (Ret tt), hk. simpl. auto.
  - simpl in Hk, Hr. subst k'.
    cbn [fieldLoop foldM]. unfold hbind at 1.
    destruct (reads_read _ _ _ _ _ Hr) as [_ Hr'].
    rewrite (Hr' _ Hsub).
    (* the nested schema *)
    assert (exists nested hk2,
               nestedH (createZodSchemaH n ver options) ver options c fp hk
               = HDone nested hk2
               /\ hk ⊆ hk2
               /\ compileField ver nested cm k fp
                  = compileField ver (createZodSchema ver options (get_prop fp "schema"))
                                 cm k fp)
      as (nested & hk2 & Hnested & Hsub2 & Hsame).
    { unfold nestedH. destruct (wants_nested fp) eqn:Hw.
      2:{ exists (Throw TypeError), hk. split; [reflexivity|]. split; [reflexivity|].
          apply compileField_without_nested. exact Hw. }
      destruct c as [v|l'].
      - assert (fp = v) as -> by (destruct n; injection Hr as <-; reflexivity).
        eexists. exists hk. split; [reflexivity|]. split; reflexivity.
      - destruct n as [|n']; [discriminate|].
        destruct (read_ref _ _ _ _ Hr) as (o' & Ho' & Hfields & Hshape).
        unfold hbind, deref.
        rewrite (lookup_weaken _ _ _ _ Ho' Hsub).
        destruct o' as [ps|elems|sh]; [| |contradiction].
        + destruct Hshape as [pst ->]. simpl in Hfields.
          pose proof (lookup_key_field_reads _ _ _ _ "schema" Hfields) as Hl.
          destruct (lookup_key "schema" ps) as [sc|].
          * destruct Hl as (v & Hv & Hrv).
            apply read_more_fuel in Hrv.
            destruct (reads_read _ _ _ _ _ Hrv) as [_ Hrv'].
            destruct (IHn sc v hk (Hrv' _ Hsub)) as (hk2 & H2 & Hs2).
            eexists. exists hk2.
            replace (get_prop (VObj pst) "schema") with v
              by (unfold get_prop; rewrite Hv; reflexivity).
            split; [exact H2|]. split; [exact Hs2 | reflexivity].
          * eexists. exists hk.
            replace (get_prop (VObj pst) "schema") with VUndefined
              by (unfold get_prop; rewrite Hl; reflexivity).
            rewrite createZodSchema_undefined.
            split; [reflexivity|]. split; reflexivity.
        + destruct Hshape as [vs ->]. discriminate Hw. }
    unfold hbind at 1. rewrite Hnested.
    unfold fieldStep at 1. cbn [fst snd]. rewrite <- Hsame.
    destruct (compileField ver nested cm k fp) as [z|e|] eqn:Ez; simpl bind.
    + unfold hbind at 1, store_rule.
      rewrite (lookup_weaken _ _ _ _ Hk' Hsub2).
      apply IH.
      * apply insert_subseteq_r; [exact Hacc|]. etrans; eassumption.
      * apply lookup_insert_eq.
    + exists (Throw e), hk2. split; [reflexivity|]. split; [etrans; eassumption|].
      reflexivity.
    + exists Foreign, hk2. split; [reflexivity|]. split; [etrans; eassumption|].
      reflexivity.
Qed.

(** [createZodSchemaH], given a finite object graph, returns what
    [createZodSchema] computes from its content, in a heap that still has
    every object it started with. *)
Lemma createZodSchemaH_simulates (ver : zod_version) (options : value) (n : nat) :
  forall (c : cell) (d : value) (h : heap),
    read n c h = HDone d h ->
    exists h', createZodSchemaH n ver options c h
               = HDone (createZodSchema ver options d) h'
               /\ h ⊆ h'.
Proof.
  induction n as [|n IHn]; intros [v|l] d h Hr; try discriminate.
  - injection Hr as ->. exists h. split; reflexivity.
  - injection Hr as ->. exists h. split; reflexivity.
  - destruct (read_ref _ _ _ _ Hr) as (o & Ho & Hfields & Hshape).
    assert (createZodSchema ver options d
            = let* customMessages := zodOptions options in
              let* zodSchemaObject :=
                foldM (fieldStep ver options customMessages) (own_props d) [] in
              Ret (ZObject zodSchemaObject Strip)) as ->.
    { destruct o as [ps|elems|sh]; [| |contradiction].
      - destruct Hshape as [pst ->]. apply createZodSchema_obj.
      - destruct Hshape as [vs ->]. apply createZodSchema_arr. }
    cbn [createZodSchemaH].
    destruct (zodOptions options) as [cm|e|] eqn:Hcm;
      [|exists h; split; reflexivity|exists h; split; reflexivity].
    set (acc := fresh (dom h)).
    assert (h !! acc = None) as Hacc
      by (apply not_elem_of_dom; apply is_fresh).
    unfold hbind at 1, alloc_rules. fold acc.
    assert (h ⊆ <[acc := HRules []]> h) as Hsub
      by (apply insert_subseteq; exact Hacc).
    unfold hbind at 1, deref. rewrite (lookup_weaken _ _ _ _ Ho Hsub).
    destruct (fieldLoop_simulates n ver options cm acc h IHn Hcm Hacc _ _ Hfields
                [] (<[acc := HRules []]> h) Hsub (lookup_insert_eq _ _ _))
      as (r & hk' & Hloop & Hsub' & Hres).
    unfold hbind at 1. rewrite Hloop. simpl bind.
    destruct (foldM (fieldStep ver options cm) (own_props d) []) as [shape'|e|];
      simpl bind.
    + destruct Hres as [-> Hshape']. unfold hbind, rules_of. rewrite Hshape'.
      exists hk'. split; [reflexivity | exact Hsub'].
    + subst r. exists hk'. split; [reflexivity | exact Hsub'].
    + subst r. exists hk'. split; [reflexivity | exact Hsub'].
Qed.

(** C9: compiling a definition held in the caller's heap returns the rule
    computed from its content and leaves every object the heap had as it
    was: the definition, each FieldSpec, each modifier value, each nested
    schema and the options read the same afterwards.  The one object the
    compiler writes to is the [zodSchemaObject] it has allocated. *)
Theorem C9_definition_unchanged (fuel : nat) (ver : zod_version)
    (options schemaDefinition : cell) (o d : value) (h : heap) :
  read fuel options h = HDone o h ->
  read fuel schemaDefinition h = HDone d h ->
  exists h' : heap,
    createZodSchemaOn fuel ver options schemaDefinition h
    = HDone (createZodSchema ver o d) h'
    /\ h ⊆ h'
    /\ read fuel schemaDefinition h' = HDone d h'
    /\ read fuel options h' = HDone o h'.
Proof.
  intros Ho Hd. unfold createZodSchemaOn, hbind. rewrite Ho.
  destruct (createZodSchemaH_simulates ver o fuel _ _ _ Hd) as (h' & H & Hsub).
  exists h'. split; [exact H|]. split; [exact Hsub|].
  split; [eapply reads_read | eapply reads_read]; eassumption.
Qed.

(** ** The persistence compiler *)

Ltac case_chain :=
  repeat match goal with
         | |- context [if ?c then _ else _] => destruct c eqn:?
         | |- context [match ?x with _ => _ end] => destruct x eqn:?
         end.

Lemma applyItems_keeps_enum (fieldConfig : obj value) (propValue : value) :
  lookup_key "enum" (applyItems fieldConfig propValue) = lookup_key "enum" fieldConfig.
Proof.
  unfold applyItems. cbv zeta.
  case_chain; rewrite ?lookup_set_key; reflexivity.
Qed.

(** A modifier other than [enum] leaves the [enum] entry of the config as
    it is. *)
Lemma applyProp_keeps_enum (fieldConfig : obj value) (propName : string) (propValue : value) :
  propName <> "enum" ->
  lookup_key "enum" (applyProp fieldConfig propName propValue)
  = lookup_key "enum" fieldConfig.
Proof.
  intros Hne. unfold applyProp.
  destruct (String.eqb propName "enum") eqn:E.
  { apply String.eqb_eq in E. contradiction. }
  destruct (String.eqb propName "items").
  { case_chain; rewrite ?lookup_set_key; try reflexivity; apply applyItems_keeps_enum. }
  case_chain; rewrite ?lookup_set_key; reflexivity.
Qed.

Lemma applyProp_enum (fieldConfig : obj value) (propValue : value) :
  lookup_key "enum" (applyProp fieldConfig "enum" propValue)
  = match propValue with
    | VArr _ => Some propValue
    | _ => lookup_key "enum" fieldConfig
    end.
Proof.
  unfold applyProp. simpl.
  destruct propValue; try reflexivity.
  rewrite lookup_set_key. reflexivity.
Qed.

Lemma applyProps_without_enum (props fieldConfig : obj value) :
  ~ In "enum" (map fst props) ->
  lookup_key "enum" (applyProps props fieldConfig) = lookup_key "enum" fieldConfig.
Proof.
  revert fieldConfig.
  induction props as [|[k v] props IH]; intros fieldConfig Hn; [reflexivity|].
  simpl in *. unfold applyProps in *. simpl. rewrite IH by tauto.
  apply applyProp_keeps_enum. intros ->. tauto.
Qed.

Lemma applyProps_with_enum (props fieldConfig : obj value) (v : value) :
  NoDup (map fst props) -> In ("enum", v) props ->
  lookup_key "enum" (applyProps props fieldConfig)
  = match v with
    | VArr _ => Some v
    | _ => lookup_key "enum" fieldConfig
    end.
Proof.
  revert fieldConfig.
  induction props as [|[k0 v0] props IH]; intros fieldConfig Hnd Hin; [contradiction|].
  simpl in Hnd. apply NoDup_cons in Hnd. destruct Hnd as [Hnotin Hnd].
  rewrite list_elem_of_In in Hnotin.
  unfold applyProps in *. simpl.
  destruct Hin as [[= -> ->] | Hin].
  - rewrite (applyProps_without_enum props _ Hnotin).
    apply applyProp_enum.
  - rewrite (IH _ Hnd Hin).
    assert (k0 <> "enum") as Hk.
    { intros ->. apply Hnotin. apply in_map_iff. exists ("enum", v). auto. }
    destruct v; try reflexivity; apply applyProp_keeps_enum; exact Hk.
Qed.

(** C4, as stated, fails: the [enum] array of a FieldSpec is an entry of
    the persistence config. *)
Lemma C4_enum_counterexample :
  fieldConfigOf (VObj [("type", VStr "String");
                       ("enum", VArr [VStr "user"; VStr "admin"])])
  = Ret [("type", VBuiltin BString);
         ("enum", VArr [VStr "user"; VStr "admin"])].
Proof. reflexivity. Qed.

(** C4 (amended): for every FieldSpec carrying an [enum] modifier, the
    persistence config has that value under [enum] when it is an array, and
    no [enum] entry when it is not. *)
Theorem C4_enum_in_persistence_config (props : obj value) (v : value) :
  NoDup (map fst props) -> In ("enum", v) props ->
  exists fieldConfig,
    fieldConfigOf (VObj props) = Ret fieldConfig
    /\ lookup_key "enum" fieldConfig
       = match v with VArr _ => Some v | _ => None end.
Proof.
  intros Hnd Hin. unfold fieldConfigOf. simpl.
  eexists. split; [reflexivity|].
  rewrite (applyProps_with_enum _ _ v Hnd Hin).
  destruct v; reflexivity.
Qed.

Lemma C4_enum_in_persistence_config_witness :
  exists fieldConfig,
    fieldConfigOf (VObj [("type", VStr "String"); ("required", VBool true);
                         ("enum", VArr [VStr "active"; VStr "inactive"]);
                         ("default", VStr "active")])
    = Ret fieldConfig
    /\ lookup_key "enum" fieldConfig = Some (VArr [VStr "active"; VStr "inactive"]).
Proof.
  apply (C4_enum_in_persistence_config
           [("type", VStr "String"); ("required", VBool true);
            ("enum", VArr [VStr "active"; VStr "inactive"]);
            ("default", VStr "active")]
           (VArr [VStr "active"; VStr "inactive"])).
  - apply (bool_decide_unpack _). vm_compute. exact I.
  - simpl. tauto.
Defined.

(** ** The schema options *)

Lemma finalSchemaOptions_lookup (props : obj value) (m0 : gmap string value) (k : string) :
  NoDup (map fst props) ->
  fold_left (fun m kv => <[kv.1 := kv.2]> m) props m0 !! k
  = match lookup_key k props with
    | Some v => Some v
    | None => m0 !! k
    end.
Proof.
  revert m0.
  induction props as [|[k0 v0] props IH]; intros m0 Hnd; simpl; [reflexivity|].
  simpl in Hnd. apply NoDup_cons in Hnd. destruct Hnd as [Hnotin Hnd].
  rewrite list_elem_of_In in Hnotin.
  rewrite (IH _ Hnd).
  destruct (String.eqb k0 k) eqn:E.
  - apply String.eqb_eq in E. subst k0.
    rewrite (lookup_key_None _ _ Hnotin). apply lookup_insert_eq.
  - apply String.eqb_neq in E.
    destruct (lookup_key k props); [reflexivity|].
    apply lookup_insert_ne. exact E.
Qed.

Lemma createMongooseSchema_options (schemaDefinition options : value) (m : mschema) :
  createMongooseSchema schemaDefinition options = Ret m ->
  schema_options m = finalSchemaOptions (option_or_empty options "schemaOptions").
Proof.
  unfold createMongooseSchema. intros H.
  apply bind_Ret in H. destruct H as (options' & Hopt & H).
  assert (option_or_empty options' "schemaOptions"
          = option_or_empty options "schemaOptions") as Heq.
  { destruct options; simpl in Hopt; try discriminate;
      injection Hopt as <-; reflexivity. }
  rewrite <- Heq. clear Heq Hopt.
  repeat (apply bind_Ret in H; destruct H as (? & _ & H)).
  injection H as <-. reflexivity.
Qed.

(** C10: the options handed to [new mongoose.Schema] are the caller's
    [schemaOptions] over the default [timestamps: true]: an entry of the
    caller wins, [timestamps] included, every other entry is forwarded as it
    is, and with no [schemaOptions] the schema is created with
    [timestamps: true] alone. *)
Theorem C10_timestamps_default (schemaDefinition options : value) (m : mschema) :
  createMongooseSchema schemaDefinition options = Ret m ->
  (get_prop options "schemaOptions" = VUndefined ->
   schema_options m = {[ "timestamps" := VBool true ]})
  /\ (forall props : obj value,
        get_prop options "schemaOptions" = VObj props ->
        NoDup (map fst props) ->
        forall k : string,
          schema_options m !! k
          = match lookup_key k props with
            | Some v => Some v
            | None => if String.eqb k "timestamps" then Some (VBool true) else None
            end).
Proof.
  intros H. apply createMongooseSchema_options in H. rewrite H.
  unfold option_or_empty. split.
  - intros ->. reflexivity.
  - intros props -> Hnd k. unfold finalSchemaOptions. simpl own_props.
    rewrite (finalSchemaOptions_lookup _ _ _ Hnd).
    destruct (lookup_key k props); [reflexivity|].
    destruct (String.eqb k "timestamps") eqn:E.
    + apply String.eqb_eq in E. subst k. apply lookup_singleton_eq.
    + apply String.eqb_neq in E. apply lookup_singleton_ne. congruence.
Qed.

Lemma C10_timestamps_default_witness :
  (exists m,
      createMongooseSchema (VObj [("name", VObj [("type", VStr "String")])]) VUndefined
      = Ret m
      /\ schema_options m = {[ "timestamps" := VBool true ]})
  /\ (exists m,
        createMongooseSchema
          (VObj [("name", VObj [("type", VStr "String")])])
          (VObj [("schemaOptions",
                  VObj [("timestamps", VBool false); ("versionKey", VBool false)])])
        = Ret m
        /\ schema_options m !! "timestamps" = Some (VBool false)
        /\ schema_options m !! "versionKey" = Some (VBool false)).
Proof.
  split.
  - eexists. split; [reflexivity|].
    exact (proj1 (C10_timestamps_default
                    (VObj [("name", VObj [("type", VStr "String")])]) VUndefined
                    _ eq_refl) eq_refl).
  - eexists. split; [reflexivity|].
    pose proof (proj2 (C10_timestamps_default
                         (VObj [("name", VObj [("type", VStr "String")])])
                         (VObj [("schemaOptions",
                                 VObj [("timestamps", VBool false);
                                       ("versionKey", VBool false)])])
                         _ eq_refl)
                  [("timestamps", VBool false); ("versionKey", VBool false)]
                  eq_refl) as H.
    assert (NoDup (map fst [("timestamps", VBool false); ("versionKey", VBool false)]))
      as Hnd by (apply (bool_decide_unpack _); vm_compute; exact I).
    split; [exact (H Hnd "timestamps") | exact (H Hnd "versionKey")].
Defined.

(** ** The error normalizer *)

Lemma js_or_assoc (a b c : value) : js_or (js_or a b) c = js_or a (js_or b c).
Proof. unfold js_or. destruct (truthy a) eqn:E; [rewrite E|]; reflexivity. Qed.

Lemma normalizeEntry_readable (err : value) :
  readable_entry err = true -> normalizeEntry err = Ret (expected_row err).
Proof.
  intros H. unfold normalizeEntry, expected_row.
  assert (get_member err "path" = Ret (get_prop err "path")) as ->
    by (destruct err; simpl in H; try discriminate; reflexivity).
  assert (match get_prop err "path" with
          | VArr _ => true
          | p => negb (truthy p)
          end = true) as Hp
    by (destruct err; simpl in H; try discriminate; exact H).
  rewrite js_or_assoc. simpl bind.
  destruct (get_prop err "path") eqn:E; simpl in Hp |- *;
    try reflexivity; try discriminate;
    apply negb_true_iff in Hp; rewrite Hp; reflexivity.
Qed.




(** ** The compilation cache *)

(** What a call does, by cases on the cache and on the compilation. *)
Lemma createSchemas_cases (ver : zod_version) (schemaDefinition options : value)
    (st : store) (enableCache schemaOptions : value) :
  splitOptions options = Ret (enableCache, schemaOptions) ->
  let cacheKey := generateCacheKey schemaDefinition schemaOptions in
  createSchemas ver schemaDefinition options st
  = match (if truthy enableCache then schemaCache st !! cacheKey else None)
          return run ref with
    | Some cached => Returned cached st
    | None =>
        match compilePair ver schemaDefinition schemaOptions with
        | Ret result =>
            Returned (length (pairs st))
              {| schemaCache := if truthy enableCache
                                then <[cacheKey := length (pairs st)]> (schemaCache st)
                                else schemaCache st;
                 pairs := pairs st ++ [result] |}
        | Throw e => Threw e st
        | Foreign => Unmodelled
        end
    end.
Proof. intros H. unfold createSchemas. rewrite H. reflexivity. Qed.





End Properties.

(** * Further properties of the compilers *)

Section Coverage.
Context {R : Runtime}.

Ltac inv_bind :=
  repeat match goal with
         | H : bind _ _ = Ret _ |- _ =>
             apply bind_Ret in H; destruct H as (? & ? & H)
         | H : Ret _ = Ret _ |- _ => injection H as <-
         | H : Throw _ = Ret _ |- _ => discriminate H
         | H : Foreign = Ret _ |- _ => discriminate H
         end.

Ltac chain :=
  repeat match goal with
         | |- context [if ?c then _ else _] => destruct c eqn:?
         | |- context [match ?x with _ => _ end] => destruct x eqn:?
         end.

(** ** Messages *)

Lemma append_nonempty (a b : string) :
  String.eqb b "" = false -> String.eqb (a +:+ b) "" = false.
Proof.
  intros Hb. destruct a as [|c a]; simpl; [exact Hb | reflexivity].
Qed.

Lemma truthy_append (a b : string) :
  truthy (VStr b) = true -> truthy (VStr (a +:+ b)) = true.
Proof.
  simpl. intros H. apply negb_true_iff in H.
  rewrite (append_nonempty a b H). reflexivity.
Qed.

Lemma zodOptions_defined (options cm : value) :
  zodOptions options = Ret cm -> cm <> VUndefined.
Proof.
  unfold zodOptions. destruct options; try discriminate;
    try (intros [= <-]; discriminate);
    destruct (get_prop _ _); intros [= <-]; discriminate.
Qed.

Lemma truthy_js_or_r (a b : value) : truthy b = true -> truthy (js_or a b) = true.
Proof. unfold js_or. destruct (truthy a) eqn:E; auto. Qed.

Lemma getCustomMessage_truthy (fieldName rule : string) (v cm m : value) :
  getCustomMessage fieldName rule v cm = Ret m -> truthy m = true.
Proof.
  unfold getCustomMessage. intros H. inv_bind.
  destruct (truthy x) eqn:E; injection H as <-; [exact E|].
  apply truthy_js_or_r. apply truthy_append. reflexivity.
Qed.

Lemma js_or_truthy (a b : value) : truthy a = true -> js_or a b = a.
Proof. unfold js_or. intros ->. reflexivity. Qed.

Lemma getCustomMessage_unfold (fieldName rule : string) (v cm : value) :
  cm <> VNull ->
  getCustomMessage fieldName rule v cm
  = if truthy (get_prop cm (fieldName +:+ "." +:+ rule))
    then Ret (get_prop cm (fieldName +:+ "." +:+ rule))
    else Ret (js_or (get_computed (defaultMessages fieldName v) rule)
                    (VStr (fieldName +:+ " validation failed"))).
Proof.
  intros Hn. unfold getCustomMessage. destruct cm; try reflexivity; contradiction.
Qed.

Lemma getCustomMessage_Ret (fieldName rule : string) (v cm : value) :
  cm <> VNull -> cm <> VUndefined ->
  exists m, getCustomMessage fieldName rule v cm = Ret m.
Proof.
  intros Hn _. rewrite getCustomMessage_unfold by exact Hn.
  destruct (truthy _); eauto.
Qed.

Lemma truthy_Object_prototype (k : string) (member : value) :
  lookup_key k Object_prototype = Some member -> truthy member = true.
Proof.
  unfold Object_prototype. cbn [lookup_key].
  repeat match goal with
         | |- context [if ?c then _ else _] => destruct c
         end; intros [= <-]; reflexivity.
Qed.

Lemma truthy_append_l (a b : string) :
  truthy (VStr a) = true -> truthy (VStr (a +:+ b)) = true.
Proof. destruct a; [discriminate | reflexivity]. Qed.

Lemma truthy_defaultMessages (fieldName rule : string) (v template : value) :
  lookup_key rule (defaultMessages fieldName v) = Some template ->
  truthy template = true.
Proof.
  unfold defaultMessages. cbn [lookup_key].
  repeat match goal with
         | |- context [if ?c then _ else _] => destruct c
         end; intros [= <-];
    apply truthy_append; try reflexivity; apply truthy_append_l; reflexivity.
Qed.

(** X1: With a custom-message table other than null, [getCustomMessage]
    returns for every field, rule and value, an undefined table counting as
    an empty one, and what it returns is truthy: the caller's entry under
    "<field>.<rule>" when that entry is truthy; otherwise the template of
    the rule for the eight rules that have one, the inherited member for
    another rule name that [Object.prototype] has, and "<field> validation
    failed" for every other rule. *)
Theorem getCustomMessage_returns (fieldName rule : string) (v cm : value) :
  cm <> VNull ->
  exists m,
    getCustomMessage fieldName rule v cm = Ret m
    /\ truthy m = true
    /\ (truthy (get_prop cm (fieldName +:+ "." +:+ rule)) = true ->
        m = get_prop cm (fieldName +:+ "." +:+ rule))
    /\ (truthy (get_prop cm (fieldName +:+ "." +:+ rule)) = false ->
        m = match lookup_key rule (defaultMessages fieldName v) with
            | Some template => template
            | None =>
                match lookup_key rule Object_prototype with
                | Some member => member
                | None => VStr (fieldName +:+ " validation failed")
                end
            end).
Proof.
  intros Hn. rewrite getCustomMessage_unfold by exact Hn.
  destruct (truthy (get_prop cm (fieldName +:+ "." +:+ rule))) eqn:E.
  - eexists. split; [reflexivity|]. split; [exact E|].
    split; [reflexivity | discriminate].
  - eexists. split; [reflexivity|]. unfold get_computed.
    destruct (lookup_key rule (defaultMessages fieldName v)) as [template|] eqn:Et.
    + pose proof (truthy_defaultMessages _ _ _ _ Et) as Ht.
      rewrite (js_or_truthy _ _ Ht).
      split; [exact Ht|]. split; [discriminate | reflexivity].
    + destruct (lookup_key rule Object_prototype) as [member|] eqn:Em;
        cbn [default from_option id].
      * pose proof (truthy_Object_prototype _ _ Em) as Ht.
        rewrite (js_or_truthy _ _ Ht).
        split; [exact Ht|]. split; [discriminate | reflexivity].
      * split; [apply truthy_append; reflexivity|].
        split; [discriminate | reflexivity].
Qed.

Lemma regexMessage_is_getCustomMessage (fieldName : string) (r : regex)
    (propValue cm : value) :
  regexMessage fieldName r propValue cm
  = getCustomMessage fieldName "regex" propValue cm.
Proof.
  unfold regexMessage.
  destruct (getCustomMessage fieldName "regex" propValue cm) as [m|e|] eqn:E;
    simpl; try reflexivity.
  rewrite (getCustomMessage_truthy _ _ _ _ _ E). reflexivity.
Qed.

Lemma getCustomMessage_default (fieldName rule : string) (v : value)
    (custom : obj value) (template : value) :
  lookup_key (fieldName +:+ "." +:+ rule) custom = None ->
  lookup_key rule (defaultMessages fieldName v) = Some template ->
  truthy template = true ->
  getCustomMessage fieldName rule v (VObj custom) = Ret template.
Proof.
  intros Hc Hd Ht. unfold getCustomMessage, get_member, get_prop, get_computed.
  rewrite Hc, Hd. simpl. rewrite (js_or_truthy _ _ Ht). reflexivity.
Qed.

(** X2: The message of a [regex] or [match] modifier is the one
    [getCustomMessage] gives for the rule [regex]: the caller's entry under
    "<field>.regex", or else "<field> format is invalid".  The messages for
    e-mail, password, phone and URL patterns of lines 576-589 are never
    produced. *)
Theorem regex_message_generic (fieldName : string) :
  (forall (r : regex) (propValue cm : value),
      regexMessage fieldName r propValue cm
      = getCustomMessage fieldName "regex" propValue cm)
  /\ (forall (propName : string) (custom : obj value) (src flags : string)
             (checks : list str_check),
      propName = "regex" \/ propName = "match" ->
      lookup_key (fieldName +:+ ".regex") custom = None ->
      applyModifier Zod4 (VObj custom) fieldName propName (VRegExp src flags)
                    (ZString checks)
      = Ret (ZString (checks ++ [SRegex (RxUser src flags)
                                   (VStr (fieldName +:+ " format is invalid"))]))).
Proof.
  split; [intros; apply regexMessage_is_getCustomMessage|].
  intros propName custom src flags checks Hp Hc.
  assert (applyModifier Zod4 (VObj custom) fieldName propName (VRegExp src flags)
                        (ZString checks)
          = let* message := regexMessage fieldName (RxUser src flags)
                                         (VRegExp src flags) (VObj custom) in
            Ret (ZString (checks ++ [SRegex (RxUser src flags) message]))) as ->
    by (destruct Hp as [-> | ->]; reflexivity).
  rewrite regexMessage_is_getCustomMessage.
  rewrite (getCustomMessage_default fieldName "regex" _ custom
             (VStr (fieldName +:+ " format is invalid")));
    [reflexivity | exact Hc | reflexivity | apply truthy_append; reflexivity].
Qed.

(** X3: The message of a length bound is looked up under "<field>.minlength"
    or "<field>.maxlength" whatever the spelling of the modifier, and
    without an entry it is the template of [getCustomMessage], which ends in
    "characters": the fallback ending in "characters long" of lines 527 and
    535 is never used. *)
Theorem length_message_key (fieldName propName : string) (custom : obj value)
    (propValue : value) (checks : list str_check) :
  (propName = "minlength" \/ propName = "minLength" ->
   lookup_key (fieldName +:+ ".minlength") custom = None ->
   applyModifier Zod4 (VObj custom) fieldName propName propValue (ZString checks)
   = Ret (ZString (checks ++ [SMin propValue
                                (VStr (fieldName +:+ " must be at least "
                                       +:+ ToString propValue +:+ " characters"))])))
  /\ (propName = "maxlength" \/ propName = "maxLength" ->
      lookup_key (fieldName +:+ ".maxlength") custom = None ->
      applyModifier Zod4 (VObj custom) fieldName propName propValue (ZString checks)
      = Ret (ZString (checks ++ [SMax propValue
                                   (VStr (fieldName +:+ " must be at most "
                                          +:+ ToString propValue +:+ " characters"))]))).
Proof.
  split; intros Hp Hc.
  - assert (applyModifier Zod4 (VObj custom) fieldName propName propValue (ZString checks)
            = let* m := getCustomMessage fieldName "minlength" propValue (VObj custom) in
              Ret (ZString (checks ++ [SMin propValue
                     (js_or m (VStr (fieldName +:+ " must be at least "
                                     +:+ ToString propValue +:+ " characters long")))])))
      as -> by (destruct Hp as [-> | ->]; reflexivity).
    rewrite (getCustomMessage_default fieldName "minlength" _ custom
               (VStr (fieldName +:+ " must be at least " +:+ ToString propValue
                      +:+ " characters")));
      [| exact Hc | reflexivity | do 3 apply truthy_append; reflexivity].
    simpl bind. rewrite js_or_truthy; [reflexivity|].
    do 3 apply truthy_append. reflexivity.
  - assert (applyModifier Zod4 (VObj custom) fieldName propName propValue (ZString checks)
            = let* m := getCustomMessage fieldName "maxlength" propValue (VObj custom) in
              Ret (ZString (checks ++ [SMax propValue
                     (js_or m (VStr (fieldName +:+ " must be at most "
                                     +:+ ToString propValue +:+ " characters long")))])))
      as -> by (destruct Hp as [-> | ->]; reflexivity).
    rewrite (getCustomMessage_default fieldName "maxlength" _ custom
               (VStr (fieldName +:+ " must be at most " +:+ ToString propValue
                      +:+ " characters")));
      [| exact Hc | reflexivity | do 3 apply truthy_append; reflexivity].
    simpl bind. rewrite js_or_truthy; [reflexivity|].
    do 3 apply truthy_append. reflexivity.
Qed.

(** ** The persistence field config *)

Lemma keys_set_key {A} (k : string) (v : A) (o : obj A) :
  map fst (set_key k v o)
  = if existsb (String.eqb k) (map fst o) then map fst o else map fst o ++ [k].
Proof.
  induction o as [|[k0 v0] o IH]; simpl; [reflexivity|].
  rewrite (String.eqb_sym k k0).
  destruct (String.eqb k0 k) eqn:E; simpl; [reflexivity|].
  rewrite IH. destruct (existsb _ _); reflexivity.
Qed.

Lemma existsb_eqb_In (k : string) (l : list string) :
  existsb (String.eqb k) l = true <-> In k l.
Proof.
  rewrite existsb_exists. split.
  - intros (x & Hx & E). apply String.eqb_eq in E. subst. exact Hx.
  - intros H. exists k. split; [exact H | apply String.eqb_refl].
Qed.

Lemma NoDup_keys_set_key {A} (k : string) (v : A) (o : obj A) :
  NoDup (map fst o) -> NoDup (map fst (set_key k v o)).
Proof.
  intros H. rewrite keys_set_key.
  destruct (existsb _ _) eqn:E; [exact H|].
  apply NoDup_app. split; [exact H|]. split.
  - intros x Hx Hk. apply list_elem_of_In in Hx, Hk. destruct Hk as [<- | []].
    apply existsb_eqb_In in Hx. congruence.
  - apply NoDup_singleton.
Qed.

Lemma known_keys_set_key {A} (k : string) (v : A) (o : obj A) :
  is_config_key k = true ->
  forallb is_config_key (map fst o) = true ->
  forallb is_config_key (map fst (set_key k v o)) = true.
Proof.
  intros Hk Ho. rewrite keys_set_key.
  destruct (existsb _ _); [exact Ho|].
  rewrite forallb_app, Ho. simpl. rewrite Hk. reflexivity.
Qed.

Lemma config_ok_set_key (k : string) (v : value) (fieldConfig : obj value) :
  is_config_key k = true -> config_ok fieldConfig ->
  config_ok (set_key k v fieldConfig).
Proof.
  intros Hk [Hnd Hall]. split;
    [apply NoDup_keys_set_key | apply known_keys_set_key]; assumption.
Qed.

Lemma config_ok_applyItems (fieldConfig : obj value) (propValue : value) :
  config_ok fieldConfig -> config_ok (applyItems fieldConfig propValue).
Proof.
  intros H. unfold applyItems. cbv zeta.
  chain; repeat apply config_ok_set_key; auto.
Qed.

Lemma config_ok_applyProp (fieldConfig : obj value) (propName : string)
    (propValue : value) :
  config_ok fieldConfig -> config_ok (applyProp fieldConfig propName propValue).
Proof.
  intros H. unfold applyProp.
  destruct (String.eqb propName "items").
  { chain; try apply config_ok_set_key; auto; apply config_ok_applyItems; exact H. }
  chain; try apply config_ok_set_key; auto.
Qed.

Lemma config_ok_applyProps (props fieldConfig : obj value) :
  config_ok fieldConfig -> config_ok (applyProps props fieldConfig).
Proof.
  revert fieldConfig. unfold applyProps.
  induction props as [|[k v] props IH]; intros fieldConfig H; simpl; [exact H|].
  apply IH. apply config_ok_applyProp. exact H.
Qed.

Lemma fieldConfigOf_config_ok (fieldProps : value) (fieldConfig : obj value) :
  fieldConfigOf fieldProps = Ret fieldConfig -> config_ok fieldConfig.
Proof.
  unfold fieldConfigOf. intros H.
  apply bind_Ret in H. destruct H as (t & _ & [= <-]).
  apply config_ok_applyProps. split; [apply NoDup_singleton | reflexivity].
Qed.

Lemma config_ok_keys (fieldConfig : obj value) (k : string) :
  config_ok fieldConfig -> In k (map fst fieldConfig) -> In k config_keys.
Proof.
  intros [_ Hall] Hk. rewrite forallb_forall in Hall.
  apply existsb_eqb_In. apply Hall. exact Hk.
Qed.

(** X4: The config the persistence compiler builds for a field has no key
    twice and only keys of [config_keys]; the [schema] and the [items] of
    the field are never copied into it. *)
Theorem fieldConfig_keys (fieldProps : value) (fieldConfig : obj value) :
  fieldConfigOf fieldProps = Ret fieldConfig ->
  NoDup (map fst fieldConfig)
  /\ (forall k, In k (map fst fieldConfig) -> In k config_keys)
  /\ lookup_key "schema" fieldConfig = None
  /\ lookup_key "items" fieldConfig = None.
Proof.
  intros H. apply fieldConfigOf_config_ok in H.
  split; [exact (proj1 H)|]. split; [intros k; apply config_ok_keys; exact H|].
  split; apply lookup_key_None; intros Hin; apply (config_ok_keys _ _ H) in Hin;
    simpl in Hin; intuition discriminate.
Qed.

(** ** Modifiers copied as they are *)

Lemma applyItems_keeps (k : string) (fieldConfig : obj value) (propValue : value) :
  k <> "type" -> k <> "ref" ->
  lookup_key k (applyItems fieldConfig propValue) = lookup_key k fieldConfig.
Proof.
  intros Ht Hr. apply String.eqb_neq in Ht, Hr.
  rewrite String.eqb_sym in Ht. rewrite String.eqb_sym in Hr.
  unfold applyItems. cbv zeta.
  chain; rewrite ?lookup_set_key, ?Ht, ?Hr; reflexivity.
Qed.

Lemma applyProp_keeps_verbatim (k : string) (fieldConfig : obj value)
    (propName : string) (propValue : value) :
  In k verbatim_names -> propName <> k ->
  lookup_key k (applyProp fieldConfig propName propValue)
  = lookup_key k fieldConfig.
Proof.
  intros Hk Hne.
  assert (k <> "type" /\ k <> "ref") as [Ht Hr]
    by (simpl in Hk; split; intros ->; intuition discriminate).
  destruct (String.eqb_spec propName "items") as [-> | Hni].
  { unfold applyProp. simpl. apply applyItems_keeps; assumption. }
  unfold applyProp. simpl in Hk.
  repeat (destruct Hk as [<- | Hk];
          [ chain; rewrite ?lookup_set_key; try reflexivity;
            repeat match goal with
                   | H : String.eqb propName _ = true |- _ =>
                       apply String.eqb_eq in H; subst propName
                   end; try contradiction; try discriminate; reflexivity |]).
  contradiction.
Qed.

Lemma applyProp_sets_verbatim (k : string) (fieldConfig : obj value) (propValue : value) :
  In k verbatim_names ->
  lookup_key k (applyProp fieldConfig k propValue) = Some propValue.
Proof.
  intros Hk. simpl in Hk.
  repeat (destruct Hk as [<- | Hk];
          [unfold applyProp; simpl; rewrite lookup_set_key; reflexivity|]).
  contradiction.
Qed.

Lemma applyProps_keeps_verbatim (k : string) (props fieldConfig : obj value) :
  In k verbatim_names -> ~ In k (map fst props) ->
  lookup_key k (applyProps props fieldConfig) = lookup_key k fieldConfig.
Proof.
  intros Hk. revert fieldConfig. unfold applyProps.
  induction props as [|[p v] props IH]; intros fieldConfig Hn; simpl; [reflexivity|].
  simpl in Hn. rewrite IH by tauto.
  apply applyProp_keeps_verbatim; [exact Hk | intros ->; tauto].
Qed.

Lemma applyProps_copies_verbatim (k : string) (v : value) (props : obj value) :
  In k verbatim_names ->
  NoDup (map fst props) -> In (k, v) props ->
  forall fieldConfig, lookup_key k (applyProps props fieldConfig) = Some v.
Proof.
  intros Hk.
  induction props as [|[p w] props IH]; intros Hnd Hin cfg; [contradiction|].
  simpl in Hnd. apply NoDup_cons in Hnd. destruct Hnd as [Hnotin Hnd].
  rewrite list_elem_of_In in Hnotin.
  unfold applyProps. simpl. fold (applyProps props (applyProp cfg p w)).
  destruct Hin as [[= -> ->] | Hin].
  - rewrite (applyProps_keeps_verbatim _ _ _ Hk Hnotin).
    apply applyProp_sets_verbatim. exact Hk.
  - apply IH; assumption.
Qed.

(** X5: Each of the thirteen modifiers of [verbatim_names] is copied into
    the persistence config under its own name with the value the definition
    gives, whatever that value is. *)
Theorem verbatim_modifiers_copied (props : obj value) (k : string) (v : value) :
  In k verbatim_names ->
  NoDup (map fst props) -> In (k, v) props ->
  exists fieldConfig,
    fieldConfigOf (VObj props) = Ret fieldConfig
    /\ lookup_key k fieldConfig = Some v.
Proof.
  intros Hk Hnd Hin. unfold fieldConfigOf. simpl. eexists. split; [reflexivity|].
  apply applyProps_copies_verbatim; assumption.
Qed.

(** ** The two spellings of the length bounds *)

Lemma applyProp_keeps_length (k : string) (fieldConfig : obj value)
    (propName : string) (propValue : value) :
  k = "minlength" \/ k = "maxlength" ->
  toLowerCase propName <> k ->
  lookup_key k (applyProp fieldConfig propName propValue)
  = lookup_key k fieldConfig.
Proof.
  intros Hk Hne.
  destruct (String.eqb_spec propName "items") as [-> | Hni].
  { unfold applyProp. simpl. apply applyItems_keeps; destruct Hk; subst; discriminate. }
  unfold applyProp.
  destruct Hk as [-> | ->];
    chain; rewrite ?lookup_set_key; try reflexivity;
    repeat match goal with
           | H : String.eqb propName _ = true |- _ =>
               apply String.eqb_eq in H; subst propName
           | H : (_ || _) = true |- _ => apply orb_true_iff in H; destruct H
           end; try contradiction; try discriminate; try reflexivity;
    exfalso; apply Hne; reflexivity.
Qed.

Lemma applyProps_keeps_length (k : string) (props fieldConfig : obj value) :
  k = "minlength" \/ k = "maxlength" ->
  ~ In k (map toLowerCase (map fst props)) ->
  lookup_key k (applyProps props fieldConfig) = lookup_key k fieldConfig.
Proof.
  intros Hk. revert fieldConfig. unfold applyProps.
  induction props as [|[p v] props IH]; intros fieldConfig Hn; simpl; [reflexivity|].
  simpl in Hn. rewrite IH by tauto.
  apply applyProp_keeps_length; [exact Hk | intros E; tauto].
Qed.

(** X6: Both spellings of a length bound land under the lower-case key of
    the persistence config, the last one written winning, and the config
    never has a [minLength] or [maxLength] key. *)
Theorem length_bounds_normalised (pre post : obj value) (propName k : string)
    (v : value) :
  (k = "minlength" /\ (propName = "minlength" \/ propName = "minLength"))
  \/ (k = "maxlength" /\ (propName = "maxlength" \/ propName = "maxLength")) ->
  ~ In k (map toLowerCase (map fst post)) ->
  exists fieldConfig,
    fieldConfigOf (VObj (pre ++ (propName, v) :: post)) = Ret fieldConfig
    /\ lookup_key k fieldConfig = Some v
    /\ lookup_key "minLength" fieldConfig = None
    /\ lookup_key "maxLength" fieldConfig = None.
Proof.
  intros Hk Hpost.
  destruct (fieldConfigOf (VObj (pre ++ (propName, v) :: post))) as [cfg| |] eqn:E;
    try discriminate E.
  exists cfg. split; [reflexivity|].
  assert (forall k, In k (map fst cfg) -> In k config_keys) as Hkeys
    by (intros k0; apply config_ok_keys, (fieldConfigOf_config_ok _ _ E)).
  split.
  - unfold fieldConfigOf in E. simpl in E. injection E as <-.
    unfold applyProps. rewrite fold_left_app. simpl.
    match goal with
    | |- lookup_key k (fold_left ?f post ?c) = _ =>
        change (fold_left f post c) with (applyProps post c)
    end.
    rewrite applyProps_keeps_length; [| tauto | exact Hpost].
    destruct Hk as [[-> [-> | ->]] | [-> [-> | ->]]];
      unfold applyProp; simpl; rewrite lookup_set_key; reflexivity.
  - split; apply lookup_key_None; intros Hin; apply Hkeys in Hin;
      simpl in Hin; intuition discriminate.
Qed.

(** ** The validator of a field *)

Lemma applyProp_validate (fieldConfig : obj value) (propName : string)
    (propValue : value) :
  lookup_key "validate" (applyProp fieldConfig propName propValue)
  = match validatorOf propName propValue with
    | Some validate => Some validate
    | None => lookup_key "validate" fieldConfig
    end.
Proof.
  destruct (String.eqb_spec propName "items") as [-> | Hni].
  { unfold applyProp, validatorOf. simpl. apply applyItems_keeps; discriminate. }
  unfold applyProp, validatorOf.
  chain; rewrite ?lookup_set_key; try reflexivity; try discriminate;
    repeat match goal with
           | H : String.eqb propName _ = true |- _ =>
               apply String.eqb_eq in H; subst propName
           | H : (_ || _) = true |- _ => apply orb_true_iff in H; destruct H
           | H : (_ || _) = false |- _ => apply orb_false_iff in H; destruct H
           end; try contradiction; try discriminate; try reflexivity; congruence.
Qed.

Lemma applyProps_no_validator (props fieldConfig : obj value) :
  (forall p v, In (p, v) props -> validatorOf p v = None) ->
  lookup_key "validate" (applyProps props fieldConfig)
  = lookup_key "validate" fieldConfig.
Proof.
  revert fieldConfig. unfold applyProps.
  induction props as [|[p v] props IH]; intros fieldConfig H; simpl; [reflexivity|].
  rewrite IH by (intros; apply H; right; assumption).
  rewrite applyProp_validate, (H p v) by (left; reflexivity). reflexivity.
Qed.

(** X7: The persistence config has one [validate] slot: the last of the
    [email: true], [regex] and [match] modifiers that attaches a validator
    overwrites the earlier ones. *)
Theorem last_validator_wins (pre post : obj value) (propName : string)
    (propValue validate : value) :
  validatorOf propName propValue = Some validate ->
  (forall p v, In (p, v) post -> validatorOf p v = None) ->
  exists fieldConfig,
    fieldConfigOf (VObj (pre ++ (propName, propValue) :: post)) = Ret fieldConfig
    /\ lookup_key "validate" fieldConfig = Some validate.
Proof.
  intros Hv Hpost. unfold fieldConfigOf. simpl. eexists. split; [reflexivity|].
  unfold applyProps. rewrite fold_left_app. simpl.
  match goal with
  | |- lookup_key _ (fold_left ?f post ?c) = _ =>
      change (fold_left f post c) with (applyProps post c)
  end.
  rewrite (applyProps_no_validator _ _ Hpost).
  rewrite applyProp_validate, Hv. reflexivity.
Qed.

(** X8: A field none of whose modifiers attaches a validator ([email] other
    than [true], a [regex] or [match] that is neither a RegExp nor a string)
    gets no [validate] key. *)
Theorem no_validator_without_modifier (props : obj value) :
  (forall p v, In (p, v) props -> validatorOf p v = None) ->
  exists fieldConfig,
    fieldConfigOf (VObj props) = Ret fieldConfig
    /\ lookup_key "validate" fieldConfig = None.
Proof.
  intros H. unfold fieldConfigOf. simpl. eexists. split; [reflexivity|].
  rewrite (applyProps_no_validator _ _ H). reflexivity.
Qed.

Lemma value_nested_ind (P : value -> Prop) :
  P VUndefined -> P VNull -> (forall b, P (VBool b)) -> (forall n, P (VNum n)) ->
  (forall s, P (VStr s)) -> (forall b, P (VBuiltin b)) ->
  (forall src flags, P (VRegExp src flags)) -> (forall id, P (VFun id)) ->
  (forall v, P (VValidator v)) ->
  (forall l, Forall P l -> P (VArr l)) ->
  (forall props, Forall (fun kv => P (snd kv)) props -> P (VObj props)) ->
  forall v, P v.
Proof.
  intros Hu Hn Hb Hz Hs Hc Hr Hf Hv Ha Ho.
  fix IH 1. intros v.
  destruct v; [exact Hu | exact Hn | apply Hb | apply Hz | apply Hs | apply Hc
              | apply Hr | apply Hf | apply Hv | |].
  - apply Ha. revert l. fix IHl 1. intros l. destruct l; constructor.
    + apply IH.
    + apply IHl.
  - apply Ho. revert props. fix IHl 1. intros l. destruct l; constructor.
    + apply IH.
    + apply IHl.
Qed.

(** ** The options of the validation compiler *)

Lemma foldM_ext {A B} (f g : B -> A -> outcome B) (l : list A) (b : B) :
  (forall x, In x l -> forall c, f c x = g c x) ->
  foldM f l b = foldM g l b.
Proof.
  revert b. induction l as [|x l IH]; intros b H; simpl; [reflexivity|].
  rewrite (H x) by (left; reflexivity).
  destruct (g b x); simpl; try reflexivity.
  apply IH. intros y Hy. apply H. right. exact Hy.
Qed.

Lemma In_indexed {A} (i : nat) (l : list A) (kx : string * A) :
  In kx (indexed i l) -> In (snd kx) l.
Proof.
  revert i. induction l as [|x l IH]; intros i; simpl; [tauto|].
  intros [<- | H]; [left; reflexivity | right; eapply IH; exact H].
Qed.

Lemma createZodSchema_options_ext (ver : zod_version) (o1 o2 : value) :
  zodOptions o1 = zodOptions o2 ->
  forall schemaDefinition,
    createZodSchema ver o1 schemaDefinition = createZodSchema ver o2 schemaDefinition.
Proof.
  intros Ho.
  assert (forall d,
             createZodSchema ver o1 d = createZodSchema ver o2 d
             /\ forall k, createZodSchema ver o1 (get_prop d k)
                          = createZodSchema ver o2 (get_prop d k)) as H.
  { induction d using value_nested_ind.
    1-9: split; [| intros k; change (get_prop _ k) with VUndefined;
                   rewrite !createZodSchema_undefined; reflexivity].
    1-9: cbn [createZodSchema]; rewrite Ho; reflexivity.
    - split.
      + rewrite !createZodSchema_arr, Ho.
        destruct (zodOptions o2) as [cm| |]; cbn [bind]; [| reflexivity ..].
        rewrite (foldM_ext (fieldStep ver o1 cm) (fieldStep ver o2 cm)); [reflexivity|].
        intros [k fp] Hin acc. unfold fieldStep. simpl.
        apply In_indexed in Hin. simpl in Hin.
        rewrite Forall_forall in H.
        rewrite (proj2 (H fp ltac:(apply list_elem_of_In; exact Hin)) "schema").
        reflexivity.
      + intros k. change (get_prop _ k) with VUndefined.
        rewrite !createZodSchema_undefined. reflexivity.
    - rewrite Forall_forall in H. split.
      + rewrite !createZodSchema_obj, Ho.
        destruct (zodOptions o2) as [cm| |]; cbn [bind]; [| reflexivity ..].
        rewrite (foldM_ext (fieldStep ver o1 cm) (fieldStep ver o2 cm)); [reflexivity|].
        intros [k fp] Hin acc. unfold fieldStep. simpl.
        apply list_elem_of_In, H in Hin. simpl in Hin.
        rewrite (proj2 Hin "schema").
        reflexivity.
      + intros k. unfold get_prop.
        destruct (lookup_key k props) as [v|] eqn:E; cbn [from_option id].
        * apply lookup_key_Some_In in E.
          apply list_elem_of_In, H in E. exact (proj1 E).
        * rewrite !createZodSchema_undefined. reflexivity. }
  intros d. apply H.
Qed.

(** X9: The [strictMode] option is read and never used: the compiled rule is
    the same whatever it is set to, at every nesting depth. *)
Theorem strictMode_ignored (ver : zod_version) (options : obj value)
    (strictMode schemaDefinition : value) :
  createZodSchema ver (VObj (set_key "strictMode" strictMode options)) schemaDefinition
  = createZodSchema ver (VObj options) schemaDefinition.
Proof.
  apply createZodSchema_options_ext.
  unfold zodOptions, get_prop. rewrite lookup_set_key. reflexivity.
Qed.

(** ** The fields of the compiled pair *)

Lemma keys_set_key_fresh {A} (k : string) (v : A) (o : obj A) :
  ~ In k (map fst o) -> map fst (set_key k v o) = map fst o ++ [k].
Proof.
  intros H. rewrite keys_set_key.
  destruct (existsb _ _) eqn:E; [|reflexivity].
  apply existsb_eqb_In in E. contradiction.
Qed.

Lemma foldM_assign_key_keys {A B} (f : string -> A -> outcome B) (fields : obj A)
    (acc shape : obj B) :
  foldM (fun acc nf => let* x := f (fst nf) (snd nf) in Ret (assign_key (fst nf) x acc))
        fields acc = Ret shape ->
  NoDup (map fst acc ++ map fst fields) ->
  ~ In "__proto__" (map fst fields) ->
  map fst shape = map fst acc ++ map fst fields.
Proof.
  revert acc. induction fields as [|[k fp] fields IH]; intros acc; simpl.
  - intros [= <-] _ _. rewrite app_nil_r. reflexivity.
  - intros H Hnd Hproto. apply bind_Ret in H. destruct H as (acc' & Hstep & H).
    apply bind_Ret in Hstep. destruct Hstep as (x & _ & [= <-]).
    assert (~ In k (map fst acc)) as Hk.
    { intros Hin. apply NoDup_app in Hnd. destruct Hnd as (_ & Hd & _).
      apply (Hd k); [apply list_elem_of_In; exact Hin | left]. }
    assert (assign_key k x acc = set_key k x acc) as Ha.
    { unfold assign_key. destruct (String.eqb_spec k "__proto__"); [|reflexivity].
      exfalso. apply Hproto. left. assumption. }
    rewrite Ha in H. apply IH in H.
    + rewrite H, keys_set_key_fresh by exact Hk. rewrite <- app_assoc. reflexivity.
    + rewrite keys_set_key_fresh by exact Hk. rewrite <- app_assoc. exact Hnd.
    + tauto.
Qed.

(** X10: When both compilers return for a definition none of whose fields is
    named [__proto__], the shape of the validation schema and the definition
    of the persistence schema have exactly the field names of the
    definition, in its order. *)
Theorem compiled_field_names (ver : zod_version) (fields : obj value)
    (zoptions moptions : value) (zs : zschema) (m : mschema) :
  NoDup (map fst fields) -> ~ In "__proto__" (map fst fields) ->
  createZodSchema ver zoptions (VObj fields) = Ret zs ->
  createMongooseSchema (VObj fields) moptions = Ret m ->
  exists shape,
    zs = ZObject shape Strip
    /\ map fst shape = map fst fields
    /\ map fst (schema_definition m) = map fst fields.
Proof.
  intros Hnd Hproto Hz Hm.
  rewrite createZodSchema_obj in Hz.
  apply bind_Ret in Hz. destruct Hz as (cm & _ & Hz).
  apply bind_Ret in Hz. destruct Hz as (shape & Hshape & [= <-]).
  exists shape. split; [reflexivity|]. split.
  - apply (foldM_assign_key_keys
             (fun name fp =>
                compileField ver (createZodSchema ver zoptions (get_prop fp "schema"))
                             cm name fp)) in Hshape; [exact Hshape | exact Hnd | exact Hproto].
  - unfold createMongooseSchema in Hm.
    apply bind_Ret in Hm. destruct Hm as (o & _ & Hm).
    apply bind_Ret in Hm. destruct Hm as (fs & Hfs & Hm).
    injection Hfs as <-.
    apply bind_Ret in Hm. destruct Hm as (d & Hd & Hm).
    apply (foldM_assign_key_keys (fun _ fp => fieldConfigOf fp)) in Hd;
      [|exact Hnd | exact Hproto].
    inv_bind. simpl. exact Hd.
Qed.

(** ** A field that does not compile *)

Lemma zodType_None_mongooseType (t : value) :
  zodType t = None -> mongooseType t = t /\ is_builtin BArray t = false.
Proof.
  unfold zodType, mongooseType. cbv zeta.
  repeat match goal with
         | |- context [if ?c then _ else _] => destruct c eqn:?; try discriminate
         end.
  all: split; reflexivity.
Qed.

Lemma applyProp_keeps_type (fieldConfig : obj value) (propName : string)
    (propValue t : value) :
  lookup_key "type" fieldConfig = Some t -> is_builtin BArray t = false ->
  lookup_key "type" (applyProp fieldConfig propName propValue) = Some t.
Proof.
  intros Ht Ha.
  destruct (String.eqb_spec propName "items") as [-> | Hni].
  { unfold applyProp, applyItems. simpl. rewrite Ht. simpl. rewrite Ha. exact Ht. }
  unfold applyProp.
  chain; rewrite ?lookup_set_key; try exact Ht; simpl; try exact Ht;
    match goal with
    | H : String.eqb propName "items" = true |- _ =>
        apply String.eqb_eq in H; contradiction
    end.
Qed.

Lemma applyProps_keeps_type (props fieldConfig : obj value) (t : value) :
  lookup_key "type" fieldConfig = Some t -> is_builtin BArray t = false ->
  lookup_key "type" (applyProps props fieldConfig) = Some t.
Proof.
  revert fieldConfig. unfold applyProps.
  induction props as [|[p v] props IH]; intros fieldConfig Ht Ha; simpl; [exact Ht|].
  apply IH; [|exact Ha]. apply applyProp_keeps_type; assumption.
Qed.

(** X11: A type token the validation compiler does not know makes it throw
    "Invalid type: <token>"; the persistence compiler has no check of its
    own: the config its loop builds for the field, which it hands to
    Mongoose, has the token as its type, unchanged.  Whether Mongoose takes
    the token is not the repository's code. *)
Theorem unknown_type_asymmetry (ver : zod_version) (nested : outcome zschema)
    (cm : value) (fieldName : string) (props : obj value) :
  zodType (get_prop (VObj props) "type") = None ->
  compileField ver nested cm fieldName (VObj props)
  = Throw (Error ("Invalid type: " +:+ ToString (get_prop (VObj props) "type")))
  /\ exists fieldConfig,
      fieldConfigOf (VObj props) = Ret fieldConfig
      /\ lookup_key "type" fieldConfig = Some (get_prop (VObj props) "type").
Proof.
  intros Hz. split.
  - unfold compileField. rewrite baseRule_zodType, Hz. reflexivity.
  - unfold fieldConfigOf. cbn [get_member bind own_props].
    eexists. split; [reflexivity|].
    destruct (zodType_None_mongooseType _ Hz) as [Hm Ha].
    apply applyProps_keeps_type; [|exact Ha].
    rewrite Hm. reflexivity.
Qed.

(** X12: The first field that throws ends the compilation of the validation
    schema with its error, whatever fields come after it. *)
Theorem first_failure_aborts (ver : zod_version) (options cm : value)
    (pre post : obj value) (fieldName : string) (fieldProps : value)
    (zs : zschema) (e : exn) :
  zodOptions options = Ret cm ->
  createZodSchema ver options (VObj pre) = Ret zs ->
  compileField ver (createZodSchema ver options (get_prop fieldProps "schema"))
               cm fieldName fieldProps = Throw e ->
  createZodSchema ver options (VObj (pre ++ (fieldName, fieldProps) :: post))
  = Throw e.
Proof.
  intros Hcm Hpre He. rewrite createZodSchema_obj in *. rewrite Hcm in *.
  cbn [bind] in *.
  destruct (foldM (fieldStep ver options cm) pre []) as [acc| |] eqn:E;
    try discriminate Hpre.
  rewrite foldM_app, E. cbn [bind foldM]. unfold fieldStep at 1. cbn [fst snd].
  rewrite He. reflexivity.
Qed.

(** ** Modifiers after a wrapper *)

(** X13: The modifiers listed after [required: false], or after a default,
    are lost on the validation side, [required], [default] and [enum] apart:
    the rule is the one compiled from the entries up to the wrapper. *)
Theorem modifiers_after_wrapper_lost (ver : zod_version) (cm : value)
    (fieldName propName : string) (propValue : value) (pre post : obj value)
    (base : zschema) :
  (propName = "required" /\ propValue = VBool false)
  \/ (propName = "default" /\ propValue <> VUndefined) ->
  forallb (fun pv => negb (kind_blind (fst pv))) post = true ->
  applyModifiers ver cm fieldName (pre ++ (propName, propValue) :: post) base
  = applyModifiers ver cm fieldName (pre ++ [(propName, propValue)]) base.
Proof.
  intros Hw Hpost. unfold applyModifiers.
  rewrite !foldM_app.
  destruct (foldM _ pre base) as [z| |]; cbn [bind]; [| reflexivity ..].
  cbn [foldM fst snd].
  assert (exists z', applyModifier ver cm fieldName propName propValue z = Ret z'
                     /\ wrapped z' = true) as (z' & -> & Hz').
  { destruct Hw as [[-> ->] | [-> Hv]]; unfold applyModifier; simpl.
    - eauto.
    - destruct propValue; try contradiction; simpl; eauto. }
  cbn [bind].
  exact (applyModifiers_wrapped ver cm fieldName post z' Hz' Hpost).
Qed.

(** ** Bounds *)

Lemma length_toLowerCase (s : string) :
  String.length (toLowerCase s) = String.length s.
Proof. induction s as [|c s IH]; simpl; [reflexivity | rewrite IH; reflexivity]. Qed.

Lemma str_checks_app_length (cs : list str_check) (c : str_check) (s : string)
    (test : Z -> bool) :
  (forall s', str_checks [c] s' = test (str_length s')) ->
  str_checks (cs ++ [c]) s = str_checks cs s && test (str_length s).
Proof.
  intros Hc. revert s.
  induction cs as [|c0 cs IH]; intros s.
  - rewrite app_nil_l, Hc. reflexivity.
  - rewrite <- app_comm_cons. destruct c0; cbn [str_checks];
      rewrite IH, ?andb_assoc; try reflexivity.
    unfold str_length. rewrite length_toLowerCase. reflexivity.
Qed.

(** X14: [minlength] and [maxlength], in either spelling, add to a string
    rule an inclusive bound on the length of the input, next to the checks
    the rule already had. *)
Theorem length_bounds_inclusive (cm : value) (fieldName : string) (n : Z)
    (cs : list str_check) :
  cm <> VNull -> cm <> VUndefined ->
  (forall propName, propName = "minlength" \/ propName = "minLength" ->
     exists z,
       applyModifier Zod4 cm fieldName propName (VNum n) (ZString cs) = Ret z
       /\ forall s, accepts z (VStr s)
                    = accepts (ZString cs) (VStr s) && (n <=? str_length s)%Z)
  /\ (forall propName, propName = "maxlength" \/ propName = "maxLength" ->
     exists z,
       applyModifier Zod4 cm fieldName propName (VNum n) (ZString cs) = Ret z
       /\ forall s, accepts z (VStr s)
                    = accepts (ZString cs) (VStr s) && (str_length s <=? n)%Z).
Proof.
  intros Hn Hu. split; intros propName Hp.
  - destruct (getCustomMessage_Ret fieldName "minlength" (VNum n) cm Hn Hu)
      as (m & Hm).
    eexists. split.
    + destruct Hp as [-> | ->]; unfold applyModifier; simpl;
        rewrite Hm; reflexivity.
    + intros s. cbn [add_str_check accepts].
      apply (str_checks_app_length _ _ _ (fun len => (n <=? len)%Z)). intros s'. simpl.
      rewrite andb_true_r. reflexivity.
  - destruct (getCustomMessage_Ret fieldName "maxlength" (VNum n) cm Hn Hu)
      as (m & Hm).
    eexists. split.
    + destruct Hp as [-> | ->]; unfold applyModifier; simpl;
        rewrite Hm; reflexivity.
    + intros s. cbn [add_str_check accepts].
      apply (str_checks_app_length _ _ _ (fun len => (len <=? n)%Z)). intros s'. simpl.
      rewrite andb_true_r. reflexivity.
Qed.

Lemma bound_checks_app (cs : list bound_check) (c : bound_check) (x : Z) :
  bound_checks (cs ++ [c]) x = bound_checks cs x && bound_checks [c] x.
Proof. unfold bound_checks. rewrite forallb_app. reflexivity. Qed.

(** X15: [min] and [max] bound a number by its value and an array by its
    number of items, both inclusive; on every other rule, a string rule
    among them, they do nothing. *)
Theorem value_bounds_inclusive (cm : value) (fieldName : string) (n : Z) :
  (forall cs, exists zmin zmax,
      applyModifier Zod4 cm fieldName "min" (VNum n) (ZNumber cs) = Ret zmin
      /\ applyModifier Zod4 cm fieldName "max" (VNum n) (ZNumber cs) = Ret zmax
      /\ forall x,
          accepts zmin (VNum x) = accepts (ZNumber cs) (VNum x) && (n <=? x)%Z
          /\ accepts zmax (VNum x) = accepts (ZNumber cs) (VNum x) && (x <=? n)%Z)
  /\ (forall item cs, exists zmin zmax,
      applyModifier Zod4 cm fieldName "min" (VNum n) (ZArray item cs) = Ret zmin
      /\ applyModifier Zod4 cm fieldName "max" (VNum n) (ZArray item cs) = Ret zmax
      /\ forall l,
          accepts zmin (VArr l)
          = accepts (ZArray item cs) (VArr l) && (n <=? Z.of_nat (length l))%Z
          /\ accepts zmax (VArr l)
             = accepts (ZArray item cs) (VArr l) && (Z.of_nat (length l) <=? n)%Z)
  /\ (forall z, kind z <> "number" -> kind z <> "array" ->
      applyModifier Zod4 cm fieldName "min" (VNum n) z = Ret z
      /\ applyModifier Zod4 cm fieldName "max" (VNum n) z = Ret z).
Proof.
  split; [|split].
  - intros cs. eexists. eexists.
    split; [reflexivity|]. split; [reflexivity|].
    intros x. cbn [add_bound_check accepts]. rewrite !bound_checks_app.
    simpl. rewrite !andb_true_r. split; reflexivity.
  - intros item cs. eexists. eexists.
    split; [reflexivity|]. split; [reflexivity|].
    intros l. cbn [add_bound_check accepts]. rewrite !bound_checks_app.
    simpl. rewrite !andb_true_r, !andb_assoc. split; reflexivity.
  - intros z Hn Ha.
    destruct z; try (split; reflexivity); exfalso; [apply Hn | apply Ha]; reflexivity.
Qed.

(** ** The array shorthand *)

(** X16: In the shorthand [[{ type }]] the type names are matched as they
    are written, while every other place lower-cases them first: a name in
    another casing gives items that accept any value in the shorthand, and a
    typed rule in the long form. *)
Theorem shorthand_names_case_sensitive (fieldName s : string) (b : builtin)
    (first : obj value) (rest : list value) (nested : outcome zschema) :
  In (toLowerCase s, b) [("string", BString); ("number", BNumber);
                         ("boolean", BBoolean); ("date", BDate)] ->
  s <> "String" -> s <> "Number" -> s <> "Boolean" -> s <> "Date" ->
  lookup_key "type" first = Some (VStr s) ->
  truthy (get_prop (VObj first) "enum") = false ->
  shorthandRule fieldName (VObj first :: rest) = Ret (ZArray ZAny [])
  /\ baseRule nested (VObj first) = ruleOfType nested (VObj first) b
  /\ baseRule nested (VObj first) <> Ret ZAny.
Proof.
  intros Hin H1 H2 H3 H4 Ht He.
  assert (get_prop (VObj first) "type" = VStr s) as Hty.
  { unfold get_prop. rewrite Ht. reflexivity. }
  assert (truthy (VStr s) = true) as Hs.
  { destruct s; [simpl in Hin; intuition discriminate | reflexivity]. }
  split; [|split].
  - unfold shorthandRule. cbn [hd]. rewrite He, Hty. unfold js_or. rewrite Hs.
    cbn [is_builtin is_str orb].
    apply String.eqb_neq in H1, H2, H3, H4.
    rewrite H1, H2, H3, H4. reflexivity.
  - rewrite baseRule_zodType, Hty. unfold zodType. cbn [is_builtin]. cbv zeta.
    simpl in Hin.
    repeat (destruct Hin as [[= E <-] | Hin]; [rewrite <- E; reflexivity|]).
    contradiction.
  - rewrite baseRule_zodType, Hty. unfold zodType. cbn [is_builtin]. cbv zeta.
    simpl in Hin.
    repeat (destruct Hin as [[= E <-] | Hin]; [rewrite <- E; simpl; discriminate|]).
    contradiction.
Qed.

Lemma existsb_map_toLowerCase (s : string) (allowed : list string) :
  existsb (String.eqb s) (map toLowerCase allowed) = true
  <-> exists a, In a allowed /\ toLowerCase a = s.
Proof.
  rewrite existsb_exists. split.
  - intros (x & Hx & E). apply in_map_iff in Hx. destruct Hx as (a & <- & Ha).
    apply String.eqb_eq in E. eauto.
  - intros (a & Ha & <-). exists (toLowerCase a).
    split; [apply in_map; exact Ha | apply String.eqb_refl].
Qed.

(** X17: A shorthand with an [enum] of strings compiles only when the items
    are strings.  The rule then accepts the arrays of strings that each
    equal an allowed value up to case; with another item type the
    compilation throws a TypeError. *)
Theorem shorthand_enum (fieldName : string) (first : obj value)
    (rest : list value) (allowed : list string) :
  lookup_key "enum" first = Some (VArr (map VStr allowed)) ->
  let t := js_or (get_prop (VObj first) "type") (VStr "String") in
  (is_builtin BString t || is_str "String" t = true ->
   exists z,
     shorthandRule fieldName (VObj first :: rest) = Ret z
     /\ forall l, accepts z (VArr l) = true
                  <-> forall x, In x l ->
                        exists s a, x = VStr s /\ In a allowed
                                    /\ toLowerCase a = toLowerCase s)
  /\ (is_builtin BString t || is_str "String" t = false ->
      shorthandRule fieldName (VObj first :: rest) = Throw TypeError).
Proof.
  intros He t.
  assert (get_prop (VObj first) "enum" = VArr (map VStr allowed)) as Henum.
  { unfold get_prop. rewrite He. reflexivity. }
  split; intros Ht.
  - eexists. split.
    + unfold shorthandRule. cbn [hd]. fold t. rewrite Ht, Henum.
      cbn [truthy call_map call_join]. rewrite mapM_toLowerCase_strings.
      reflexivity.
    + intros l. cbn [accepts app]. rewrite andb_true_r, forallb_forall.
      split.
      * intros H x Hx. specialize (H x Hx).
        destruct x; try discriminate H. simpl in H.
        rewrite andb_true_r in H. apply existsb_map_toLowerCase in H.
        destruct H as (a & Ha & E). eauto.
      * intros H x Hx. destruct (H x Hx) as (s & a & -> & Ha & E).
        simpl. rewrite andb_true_r. apply existsb_map_toLowerCase. eauto.
  - unfold shorthandRule. cbn [hd]. fold t. rewrite Ht, Henum.
    cbn [truthy call_map call_join]. rewrite mapM_toLowerCase_strings.
    chain; reflexivity.
Qed.

(** ** Nested schemas *)

(** X18: A field typed by a name that lower-cases to [object] takes the rule
    compiled from its [schema]; typed by the constructor [Object] it ignores
    the [schema] and lets every object through.  The persistence side stores
    the field as Mixed with no trace of the [schema]. *)
Theorem nested_schema_only_by_name (ver : zod_version) (options cm : value)
    (fieldName s : string) (schema : value) (zs : zschema) :
  toLowerCase s = "object" ->
  truthy schema = true ->
  createZodSchema ver options schema = Ret zs ->
  compileField ver (createZodSchema ver options schema) cm fieldName
               (VObj [("type", VStr s); ("schema", schema)]) = Ret zs
  /\ compileField ver (createZodSchema ver options schema) cm fieldName
                  (VObj [("type", VBuiltin BObject); ("schema", schema)])
     = Ret (ZObject [] Passthrough)
  /\ fieldConfigOf (VObj [("type", VStr s); ("schema", schema)])
     = Ret [("type", VBuiltin BMixed)].
Proof.
  intros Hs Ht Hz.
  destruct (createZodSchema_object _ _ _ _ Hz) as [shape ->].
  split; [|split].
  - unfold compileField, baseRule. cbn [get_prop lookup_key String.eqb Ascii.eqb
      Bool.eqb default from_option id is_builtin]. cbv zeta. rewrite Hs.
    cbn [String.eqb Ascii.eqb Bool.eqb orb]. rewrite Ht, Hz. cbn [bind].
    unfold applyModifiers. cbn [own_props foldM fst snd].
    unfold applyModifier at 2. cbn [String.eqb Ascii.eqb Bool.eqb orb bind].
    unfold applyModifier. cbn [String.eqb Ascii.eqb Bool.eqb orb bind].
    unfold passwordStep, defaultStep. destruct ver; simpl;
      rewrite ?andb_false_r; reflexivity.
  - unfold compileField, baseRule. cbn [get_prop lookup_key String.eqb Ascii.eqb
      Bool.eqb default from_option id is_builtin]. cbv zeta.
    cbn [bind].
    unfold applyModifiers. cbn [own_props foldM fst snd].
    unfold applyModifier at 2. cbn [String.eqb Ascii.eqb Bool.eqb orb bind].
    unfold applyModifier. cbn [String.eqb Ascii.eqb Bool.eqb orb bind].
    unfold passwordStep, defaultStep. destruct ver; simpl;
      rewrite ?andb_false_r; reflexivity.
  - unfold fieldConfigOf. cbn [get_member get_prop lookup_key String.eqb Ascii.eqb
      Bool.eqb default from_option id bind own_props].
    unfold mongooseType. cbn [is_builtin]. cbv zeta. rewrite Hs. reflexivity.
Qed.

(** ** The cache *)


(** X20: The cache stays sound under every call: each entry refers to a pair
    compiled from a definition and options with the key of the entry.  The
    pair a call returns was compiled from arguments with the key of the
    call, and from the arguments of the call when the cache is off. *)
Theorem cache_stays_sound (ver : zod_version) (schemaDefinition options : value)
    (st st1 : store) (r : ref) :
  cache_sound ver st ->
  createSchemas ver schemaDefinition options st = Returned r st1 ->
  cache_sound ver st1
  /\ exists enableCache schemaOptions d so result,
      splitOptions options = Ret (enableCache, schemaOptions)
      /\ pairs st1 !! r = Some result
      /\ compilePair ver d so = Ret result
      /\ generateCacheKey d so = generateCacheKey schemaDefinition schemaOptions
      /\ (truthy enableCache = false -> d = schemaDefinition /\ so = schemaOptions).
Proof.
  intros Hsound Hcall.
  destruct (splitOptions options) as [[enableCache schemaOptions]| |] eqn:Hs;
    try (unfold createSchemas in Hcall; rewrite Hs in Hcall; discriminate).
  rewrite (createSchemas_cases _ _ _ st _ _ Hs) in Hcall. cbv zeta in Hcall.
  set (cacheKey := generateCacheKey schemaDefinition schemaOptions) in *.
  destruct (if truthy enableCache then schemaCache st !! cacheKey else None)
    as [cached|] eqn:Hlook.
  - injection Hcall as <- <-. split; [exact Hsound|].
    destruct (truthy enableCache) eqn:He; [|discriminate].
    destruct (Hsound _ _ Hlook) as (d & so & result & Hp & Hk & Hc).
    exists enableCache, schemaOptions, d, so, result.
    split; [reflexivity|]. split; [exact Hp|]. split; [exact Hc|].
    split; [exact Hk|]. intros Hf. congruence.
  - destruct (compilePair ver schemaDefinition schemaOptions) as [result| |] eqn:Hc;
      try discriminate.
    injection Hcall as <- <-. split.
    + intros key r Hkey. cbn [schemaCache pairs] in *.
      assert (forall r', schemaCache st !! key = Some r' ->
                exists d so res, (pairs st ++ [result]) !! r' = Some res
                  /\ generateCacheKey d so = key /\ compilePair ver d so = Ret res)
        as Hold.
      { intros r' Hr'. destruct (Hsound _ _ Hr') as (d & so & res & Hp & Hk & Hd).
        exists d, so, res. split; [|auto].
        apply lookup_app_l_Some. exact Hp. }
      destruct (truthy enableCache); [|apply Hold; exact Hkey].
      destruct (decide (cacheKey = key)) as [<- | Hne].
      * rewrite lookup_insert_eq in Hkey. injection Hkey as <-.
        exists schemaDefinition, schemaOptions, result.
        split; [|auto]. apply list_lookup_middle. reflexivity.
      * rewrite lookup_insert_ne in Hkey by exact Hne. apply Hold. exact Hkey.
    + exists enableCache, schemaOptions, schemaDefinition, schemaOptions, result.
      cbn [pairs]. split; [reflexivity|].
      split; [apply list_lookup_middle; reflexivity|]. auto.
Qed.

(** ** The error normalizer *)

Lemma normalizeEntry_Ret (err row : value) :
  normalizeEntry err = Ret row ->
  readable_entry err = true /\ row = expected_row err.
Proof.
  intros H.
  assert (readable_entry err = true) as Hr.
  { unfold normalizeEntry in H. unfold readable_entry.
    destruct err; try discriminate H; try reflexivity.
    cbn [get_member bind] in H.
    destruct (get_prop (VObj props) "path") eqn:E; try reflexivity;
      cbn [truthy call_join] in H |- *.
    - destruct b; [discriminate H | reflexivity].
    - destruct (n =? 0)%Z; [reflexivity | discriminate H].
    - destruct (String.eqb s ""); [reflexivity | discriminate H].
    - discriminate H.
    - discriminate H.
    - discriminate H.
    - discriminate H.
    - exfalso. unfold call_missing in H.
      destruct (lookup_key "join" props0) as [f|]; [|discriminate H].
      destruct (callable f); discriminate H. }
  split; [exact Hr|].
  rewrite (normalizeEntry_readable _ Hr) in H. injection H as <-. reflexivity.
Qed.

Lemma mapM_normalizeEntry_Ret (entries rows : list value) :
  mapM normalizeEntry entries = Ret rows ->
  forallb readable_entry entries = true /\ rows = map expected_row entries.
Proof.
  revert rows. induction entries as [|err entries IH]; intros rows H; simpl in H.
  - injection H as <-. split; reflexivity.
  - inv_bind. apply normalizeEntry_Ret in H0. destruct H0 as [Hr ->].
    destruct (IH _ H1) as [Hall ->]. simpl. rewrite Hr, Hall. split; reflexivity.
Qed.

Lemma normalizeZodErrors_rows (error out : value) :
  normalizeZodErrors error = Ret out ->
  exists entries,
    js_or (js_or (get_prop error "issues") (get_prop error "errors")) (VArr [])
    = VArr entries
    /\ forallb readable_entry entries = true
    /\ out = VArr (map expected_row entries).
Proof.
  unfold normalizeZodErrors. intros H.
  assert (get_member error "issues" = Ret (get_prop error "issues")) as E
    by (destruct error; try reflexivity; discriminate H).
  rewrite E in H. cbn [bind] in H.
  destruct (js_or (js_or (get_prop error "issues") (get_prop error "errors"))
                  (VArr [])) as [| | | | | | | | | entries | props] eqn:El;
    cbn [call_map] in H; try discriminate H.
  - inv_bind. apply mapM_normalizeEntry_Ret in H0. destruct H0 as [Hall ->].
    exists entries. auto.
  - exfalso. unfold call_missing in H.
    destruct (lookup_key "map" props) as [f|]; [|discriminate H].
    destruct (callable f); discriminate H.
Qed.

(** X21: The normalizer returns in no other case than on a failure object
    whose entry list is an array of readable entries; whenever it returns,
    what it returns is one row per entry, in order. *)
Theorem normalize_returns_only_readable (error out : value) :
  normalizeZodErrors error = Ret out ->
  error <> VUndefined /\ error <> VNull
  /\ exists entries,
      js_or (js_or (get_prop error "issues") (get_prop error "errors")) (VArr [])
      = VArr entries
      /\ forallb readable_entry entries = true
      /\ out = VArr (map expected_row entries).
Proof.
  intros H. split; [|split].
  - intros ->. discriminate H.
  - intros ->. discriminate H.
  - apply normalizeZodErrors_rows. exact H.
Qed.

(** X22: Every row the normalizer returns has the five keys in the order of
    the source, a string for [field], and a truthy [message], [code] and
    [type]. *)
Theorem normalized_rows_shape (error : value) (rows : list value) (row : value) :
  normalizeZodErrors error = Ret (VArr rows) -> In row rows ->
  exists field message code v type,
    row = VObj [("field", VStr field); ("message", message); ("code", code);
                ("value", v); ("type", type)]
    /\ truthy message = true /\ truthy code = true /\ truthy type = true.
Proof.
  intros H Hin. apply normalizeZodErrors_rows in H.
  destruct H as (entries & _ & _ & [= ->]).
  apply in_map_iff in Hin. destruct Hin as (err & <- & _).
  unfold expected_row.
  destruct (get_prop err "path");
    (eexists _, _, _, _, _; split; [reflexivity|]);
    (split; [|split]); repeat apply truthy_js_or_r; reflexivity.
Qed.

(** ** The options of the persistence compiler *)

Lemma fieldConfigOf_outcome (fieldProps : value) :
  fieldConfigOf fieldProps = Throw TypeError
  \/ exists fieldConfig, fieldConfigOf fieldProps = Ret fieldConfig.
Proof. unfold fieldConfigOf. destruct fieldProps; simpl; eauto. Qed.

Lemma foldM_fieldConfigOf_outcome (fields : obj value) (acc : obj (obj value)) :
  foldM (fun acc nf =>
           let* fieldConfig := fieldConfigOf (snd nf) in
           Ret (assign_key (fst nf) fieldConfig acc)) fields acc = Throw TypeError
  \/ exists d,
      foldM (fun acc nf =>
               let* fieldConfig := fieldConfigOf (snd nf) in
               Ret (assign_key (fst nf) fieldConfig acc)) fields acc = Ret d.
Proof.
  revert acc. induction fields as [|[k fp] fields IH]; intros acc; simpl; [eauto|].
  destruct (fieldConfigOf_outcome fp) as [-> | [c ->]]; simpl; [auto|]. apply IH.
Qed.

(** X23: A null [middleware] option makes the persistence compiler throw for
    every definition; a null [virtuals], [indexes] or [schemaOptions] is
    taken as an empty one. *)
Theorem null_options (schemaDefinition : value) (options : obj value) (name : string) :
  (lookup_key "middleware" options = Some VNull ->
   exists e, createMongooseSchema schemaDefinition (VObj options) = Throw e)
  /\ (name = "virtuals" \/ name = "indexes" \/ name = "schemaOptions" ->
      lookup_key name options = Some VNull ->
      createMongooseSchema schemaDefinition (VObj options)
      = createMongooseSchema schemaDefinition (VObj (set_key name (VObj []) options))).
Proof.
  split.
  - intros Hm. unfold createMongooseSchema. cbn [bind].
    destruct (Object_entries schemaDefinition) as [fields| |] eqn:Hf;
      cbn [bind]; [| eauto | destruct schemaDefinition; discriminate Hf].
    destruct (foldM_fieldConfigOf_outcome fields []) as [-> | [d ->]];
      [cbn [bind]; eauto|]. cbn [bind].
    assert (option_or_empty (VObj options) "middleware" = VNull) as ->
      by (unfold option_or_empty, get_prop; rewrite Hm; reflexivity).
    exists TypeError. reflexivity.
  - intros Hname Hnull. unfold createMongooseSchema. cbn [bind].
    assert (forall k, k <> name ->
              option_or_empty (VObj (set_key name (VObj []) options)) k
              = option_or_empty (VObj options) k) as Hother.
    { intros k Hk. unfold option_or_empty, get_prop. rewrite lookup_set_key.
      destruct (String.eqb_spec name k); [congruence | reflexivity]. }
    assert (option_or_empty (VObj options) name = VNull) as Hn.
    { unfold option_or_empty, get_prop. rewrite Hnull. reflexivity. }
    assert (option_or_empty (VObj (set_key name (VObj []) options)) name = VObj [])
      as He.
    { unfold option_or_empty, get_prop. rewrite lookup_set_key, String.eqb_refl.
      reflexivity. }
    destruct Hname as [-> | [-> | ->]];
      rewrite He, Hn, !Hother by discriminate; reflexivity.
Qed.

(** ** The element type of an array field *)

Lemma applyProp_type_other (fieldConfig : obj value) (propName : string)
    (propValue : value) :
  propName <> "items" ->
  lookup_key "type" (applyProp fieldConfig propName propValue)
  = lookup_key "type" fieldConfig.
Proof.
  intros Hni. unfold applyProp.
  chain; rewrite ?lookup_set_key; try reflexivity;
    match goal with
    | H : String.eqb propName "items" = true |- _ =>
        apply String.eqb_eq in H; contradiction
    end.
Qed.

Lemma applyProps_type_other (props fieldConfig : obj value) :
  ~ In "items" (map fst props) ->
  lookup_key "type" (applyProps props fieldConfig) = lookup_key "type" fieldConfig.
Proof.
  revert fieldConfig. unfold applyProps.
  induction props as [|[p v] props IH]; intros fieldConfig Hn; simpl; [reflexivity|].
  simpl in Hn. rewrite IH by tauto. apply applyProp_type_other. intros ->. tauto.
Qed.

Lemma applyItems_type (fieldConfig : obj value) (items t : value) :
  lookup_key "type" fieldConfig = Some t ->
  if is_builtin BArray t && truthy items then
    exists b,
      lookup_key "type" (applyItems fieldConfig items) = Some (VArr [VBuiltin b])
      /\ b <> BObject /\ b <> BMap
      /\ (forall s b', get_prop items "type" = VStr s ->
                       In (toLowerCase s, b') persistence_aliases -> b = b')
      /\ (forall s, get_prop items "type" = VStr s ->
                    lookup_key (toLowerCase s) persistence_aliases = None ->
                    b = BMixed)
      /\ (forall c, get_prop items "type" = VBuiltin c ->
                    b = if existsb (builtin_eqb c)
                             [BString; BNumber; BDate; BBoolean; BArray]
                        then c else BMixed)
      /\ ((forall s, get_prop items "type" <> VStr s) ->
          (forall c, get_prop items "type" <> VBuiltin c) ->
          b = BMixed)
  else lookup_key "type" (applyItems fieldConfig items) = Some t.
Proof.
  intros Ht. unfold applyItems. cbv zeta. rewrite Ht. cbn [default from_option id].
  destruct (is_builtin BArray t && truthy items); [|exact Ht].
  destruct (get_prop items "type") as [| | | | s | c | | | | |] eqn:Hty;
    cbn [is_builtin].
  1-4, 7-11:
    simpl (String.eqb "" _); cbn [orb];
    exists BMixed; rewrite lookup_set_key; simpl;
    (split; [reflexivity|]); repeat split; try discriminate.
  - chain; rewrite ?lookup_set_key; simpl;
      eexists; (split; [reflexivity|]); (split; [discriminate|]);
      (split; [discriminate|]);
      repeat match goal with
             | H : String.eqb _ _ = true |- _ => apply String.eqb_eq in H
             | H : (_ || _) = true |- _ => apply orb_true_iff in H; destruct H
             | H : (_ || _) = false |- _ => apply orb_false_iff in H; destruct H
             | H : String.eqb _ _ = false |- _ => apply String.eqb_neq in H
             end;
      (split; [intros s' b' [= <-] Hin; simpl in Hin;
               repeat (destruct Hin as [[= E <-] | Hin]; [congruence|]);
               contradiction|]);
      (split; [intros s' [= <-] Hnone;
               try reflexivity;
               match goal with
               | H : toLowerCase s = _ |- _ =>
                   rewrite H in Hnone; discriminate Hnone
               end|]);
      (split; [discriminate|]);
      intros Hs _; exfalso; apply (Hs s); reflexivity.
  - destruct c; simpl; rewrite lookup_set_key; simpl;
      eexists; (split; [reflexivity|]); (split; [discriminate|]);
      (split; [discriminate|]); (split; [discriminate|]);
      (split; [discriminate|]);
      (split; [intros c' [= <-]; reflexivity|]);
      intros _ Hc; exfalso; eapply Hc; reflexivity.
Qed.

(** X24: The [items] of a field set the element type only when the field is
    an array and the [items] are truthy.  The element type is then one of
    String, Number, Boolean, Date, Array, ObjectId and Mixed: the type an
    alias names, one of the five constructors given as it is, and Mixed for
    everything else: a name that is no alias, another constructor, a value
    that is neither a string nor a constructor. *)
Theorem items_element_type (props : obj value) (items : value) :
  NoDup (map fst props) -> In ("items", items) props ->
  exists fieldConfig,
    fieldConfigOf (VObj props) = Ret fieldConfig
    /\ let t := mongooseType (get_prop (VObj props) "type") in
       if is_builtin BArray t && truthy items then
         exists b,
           lookup_key "type" fieldConfig = Some (VArr [VBuiltin b])
           /\ b <> BObject /\ b <> BMap
           /\ (forall s b', get_prop items "type" = VStr s ->
                            In (toLowerCase s, b') persistence_aliases -> b = b')
           /\ (forall s, get_prop items "type" = VStr s ->
                         lookup_key (toLowerCase s) persistence_aliases = None ->
                         b = BMixed)
           /\ (forall c, get_prop items "type" = VBuiltin c ->
                         b = if existsb (builtin_eqb c)
                                  [BString; BNumber; BDate; BBoolean; BArray]
                             then c else BMixed)
           /\ ((forall s, get_prop items "type" <> VStr s) ->
               (forall c, get_prop items "type" <> VBuiltin c) ->
               b = BMixed)
       else lookup_key "type" fieldConfig = Some t.
Proof.
  intros Hnd Hin. unfold fieldConfigOf. cbn [get_member bind own_props].
  eexists. split; [reflexivity|]. cbv zeta.
  set (t := mongooseType (get_prop (VObj props) "type")).
  apply in_split in Hin. destruct Hin as (pre & post & ->).
  rewrite map_app in Hnd. cbn [map fst] in Hnd.
  apply NoDup_app in Hnd. destruct Hnd as (_ & Hpre & Hpost).
  apply NoDup_cons in Hpost. destruct Hpost as [Hpost _].
  rewrite list_elem_of_In in Hpost.
  assert (~ In "items" (map fst pre)) as Hpre'.
  { intros H. apply (Hpre "items"); [apply list_elem_of_In; exact H | left]. }
  unfold applyProps. rewrite fold_left_app. cbn [fold_left fst snd].
  match goal with
  | |- context [fold_left ?f pre ?c] =>
      change (fold_left f pre c) with (applyProps pre c);
      set (cfg := applyProps pre c)
  end.
  assert (lookup_key "type" cfg = Some t) as Hcfg.
  { unfold cfg. rewrite applyProps_type_other by exact Hpre'.
    simpl. reflexivity. }
  match goal with
  | |- context [fold_left ?f post ?c] =>
      change (fold_left f post c) with (applyProps post c)
  end.
  rewrite applyProps_type_other by exact Hpost.
  unfold applyProp. cbn [String.eqb Ascii.eqb Bool.eqb orb].
  exact (applyItems_type cfg items t Hcfg).
Qed.

(** ** Fields are required by default *)

Lemma needs_value_add_str_check (z : zschema) (c : str_check) :
  needs_value z -> needs_value (add_str_check z c).
Proof. destruct z; simpl; auto. unfold needs_value. simpl. discriminate. Qed.

Lemma needs_value_add_bound_check (z : zschema) (c : bound_check) :
  needs_value z -> needs_value (add_bound_check z c).
Proof. destruct z; simpl; auto; unfold needs_value; simpl; discriminate. Qed.

Lemma applyModifier_needs_value (ver : zod_version) (cm : value)
    (fieldName propName : string) (propValue : value) (z z' : zschema) :
  (propName = "required" -> propValue <> VBool false) ->
  propName <> "default" ->
  needs_value z ->
  applyModifier ver cm fieldName propName propValue z = Ret z' ->
  needs_value z' /\ (z' = ZAny -> z = ZAny).
Proof.
  intros Hr Hd Hz.
  destruct (String.eqb_spec propName "required") as [-> | Hr'].
  { assert (is_false propValue = false) as Hf.
    { destruct propValue as [| | [|] | | | | | | | |]; try reflexivity.
      exfalso. apply Hr; reflexivity. }
    unfold applyModifier. cbn [String.eqb Ascii.eqb Bool.eqb orb]. rewrite Hf.
    intros [= <-]. auto. }
  clear Hr. rename Hr' into Hr.
  apply String.eqb_neq in Hr, Hd.
  unfold applyModifier. rewrite Hr, Hd.
  repeat match goal with
         | |- context [if ?c then _ else _] => destruct c
         | |- context [match ?x with _ => _ end] => destruct x
         end;
    intros H; inv_bind;
    try (split; [assumption | auto]; fail);
    try (split; [apply needs_value_add_str_check; assumption
                | destruct z; simpl; congruence]; fail);
    try (split; [apply needs_value_add_bound_check; assumption
                | destruct z; simpl; congruence]; fail);
    try (split; [intros E; discriminate E | discriminate]; fail).
Qed.

Lemma applyModifiers_needs_value (ver : zod_version) (cm : value)
    (fieldName : string) (props : obj value) (z z' : zschema) :
  (forall v, In ("required", v) props -> v <> VBool false) ->
  ~ In "default" (map fst props) ->
  needs_value z ->
  applyModifiers ver cm fieldName props z = Ret z' ->
  needs_value z' /\ (z' = ZAny -> z = ZAny).
Proof.
  unfold applyModifiers. revert z.
  induction props as [|[p v] props IH]; intros z Hr Hd Hz H; simpl in *.
  - injection H as <-. auto.
  - inv_bind.
    destruct (applyModifier_needs_value ver cm fieldName p v z x) as [Hx Hany];
      auto.
    { intros ->. apply Hr. left. reflexivity. }
    destruct (IH x) as [Hz' Hany']; auto.
Qed.

Lemma baseRule_needs_value (nested : outcome zschema) (fieldProps : value)
    (z : zschema) :
  (forall n, nested = Ret n -> needs_value n /\ n <> ZAny) ->
  baseRule nested fieldProps = Ret z ->
  needs_value z
  /\ (z = ZAny -> zodType (get_prop fieldProps "type") = Some BMixed).
Proof.
  intros Hn. rewrite baseRule_zodType.
  destruct (zodType _) as [b|]; [|discriminate].
  destruct b; simpl; unfold arrayRule, needs_value;
    repeat match goal with
           | |- context [if ?c then _ else _] => destruct c
           end;
    intros H; try (injection H as <-); simpl;
    try (split; [discriminate | discriminate]; fail);
    try (split; [reflexivity | reflexivity]; fail);
    try (split; [auto | auto]; fail).
  destruct (Hn z H) as [Hz Hne]. split; [exact Hz | contradiction].
Qed.

Lemma lookup_key_None_inv {A} (k : string) (o : obj A) :
  lookup_key k o = None -> ~ In k (map fst o).
Proof.
  induction o as [|[k0 v0] o IH]; simpl; intros H; [tauto|].
  destruct (String.eqb_spec k0 k); [discriminate|].
  intros [E | Hin]; [contradiction | exact (IH H Hin)].
Qed.

(** X25: In a definition none of whose fields is named [__proto__], a field
    whose [required] modifier, if it has one, is not [false], and that has
    no [default], must be present in the input, unless its type is Mixed:
    the compiled schema rejects every object that lacks it. *)
Theorem required_by_default (ver : zod_version) (options : value)
    (fields props input : obj value) (fieldName : string) (zs : zschema) :
  createZodSchema ver options (VObj fields) = Ret zs ->
  NoDup (map fst fields) -> ~ In "__proto__" (map fst fields) ->
  In (fieldName, VObj props) fields ->
  (forall v, In ("required", v) props -> v <> VBool false) ->
  lookup_key "default" props = None ->
  zodType (get_prop (VObj props) "type") <> Some BMixed ->
  lookup_key fieldName input = None ->
  accepts zs (VObj input) = false.
Proof.
  intros Hzs Hnd Hproto Hin Hr Hd Hty Hmiss.
  destruct (createZodSchema_field _ _ _ _ _ _ Hzs Hnd Hin
              (In_not_proto _ _ _ Hproto Hin))
    as (cm & shape & z & _ & -> & Hl & Hz).
  assert (accepts z VUndefined = false /\ z <> ZAny) as [Hrej Hany].
  { unfold compileField in Hz. inv_bind.
    rename x into base, x0 into z1, H into Hbase, H0 into Hmods.
    assert (needs_value base
            /\ (base = ZAny -> zodType (get_prop (VObj props) "type") = Some BMixed))
      as [Hb Hmixed].
    { eapply baseRule_needs_value; [|exact Hbase].
      intros n Hn. destruct (createZodSchema_object _ _ _ _ Hn) as [s ->].
      split; [intros E; discriminate E | discriminate]. }
    cbn [own_props] in Hmods.
    destruct (applyModifiers_needs_value ver cm fieldName props base z1) as [Hz1 Hany];
      auto.
    { apply lookup_key_None_inv. exact Hd. }
    assert (needs_value (passwordStep ver fieldName (VObj props) z1)) as Hp.
    { unfold passwordStep. destruct (_ && _); [|exact Hz1].
      apply needs_value_add_str_check. exact Hz1. }
    assert (defaultStep (VObj props) (passwordStep ver fieldName (VObj props) z1)
            = passwordStep ver fieldName (VObj props) z1) as ->.
    { unfold defaultStep, get_prop. rewrite Hd. reflexivity. }
    assert (passwordStep ver fieldName (VObj props) z1 = ZAny -> False) as Hne.
    { intros E. apply Hty, Hmixed, Hany. unfold passwordStep in E.
      destruct (_ && _); [|exact E].
      destruct z1; simpl in E; try discriminate E; reflexivity. }
    split; [|exact Hne].
    destruct (accepts _ VUndefined) eqn:E; [|reflexivity].
    exfalso. apply Hne, Hp, E. }
  cbn [accepts]. apply andb_false_iff. left.
  apply not_true_is_false. intros Hall. rewrite forallb_forall in Hall.
  specialize (Hall (fieldName, z) (lookup_key_Some_In _ _ _ Hl)).
  cbn [fst snd] in Hall. rewrite Hmiss in Hall.
  destruct z; try contradiction; congruence.
Qed.

(** ** What the [items] of an array field carry *)

Lemma lookup_key_middle {A} (k a : string) (v1 v2 : A) (pre post : obj A) :
  lookup_key k (pre ++ (a, v1) :: post) = lookup_key k (pre ++ (a, v2) :: post)
  \/ (k = a
      /\ lookup_key k (pre ++ (a, v1) :: post) = Some v1
      /\ lookup_key k (pre ++ (a, v2) :: post) = Some v2).
Proof.
  induction pre as [|[k0 v0] pre IH]; simpl.
  - destruct (String.eqb_spec a k); [right; auto | left; reflexivity].
  - destruct (String.eqb k0 k); [left; reflexivity | exact IH].
Qed.

Lemma get_prop_middle (k : string) (v1 v2 : value) (pre post : obj value) :
  k <> "items" ->
  get_prop (VObj (pre ++ ("items", v1) :: post)) k
  = get_prop (VObj (pre ++ ("items", v2) :: post)) k.
Proof.
  intros Hk. unfold get_prop.
  destruct (lookup_key_middle k "items" v1 v2 pre post) as [-> | [E _]];
    [reflexivity | contradiction].
Qed.

Lemma applyModifiers_items (ver : zod_version) (cm : value) (fieldName : string)
    (pre post : obj value) (items : value) (base : zschema) :
  applyModifiers ver cm fieldName (pre ++ ("items", items) :: post) base
  = applyModifiers ver cm fieldName (pre ++ post) base.
Proof.
  unfold applyModifiers. rewrite !foldM_app.
  destruct (foldM _ pre base) as [z| |]; cbn [bind]; reflexivity.
Qed.

(** X26: Of the [items] of an array field the validation compiler reads the
    [type] and nothing else, and the persistence compiler the [type] and the
    [ref]: two definitions that differ in other properties of the [items]
    compile to the same rule and the same config. *)
Theorem items_carry_only_type (ver : zod_version) (nested : outcome zschema)
    (cm : value) (fieldName : string) (pre post : obj value) (i1 i2 : value) :
  get_prop i1 "type" = get_prop i2 "type" -> truthy i1 = truthy i2 ->
  compileField ver nested cm fieldName (VObj (pre ++ ("items", i1) :: post))
  = compileField ver nested cm fieldName (VObj (pre ++ ("items", i2) :: post))
  /\ (get_prop i1 "ref" = get_prop i2 "ref" ->
      fieldConfigOf (VObj (pre ++ ("items", i1) :: post))
      = fieldConfigOf (VObj (pre ++ ("items", i2) :: post))).
Proof.
  intros Hty Htr. split.
  - unfold compileField.
    assert (baseRule nested (VObj (pre ++ ("items", i1) :: post))
            = baseRule nested (VObj (pre ++ ("items", i2) :: post))) as ->.
    { unfold baseRule, arrayRule.
      rewrite (get_prop_middle "type" i1 i2), (get_prop_middle "schema" i1 i2)
        by discriminate.
      assert ((if truthy (get_prop (VObj (pre ++ ("items", i1) :: post)) "items")
               then ZArray (itemValidator
                              (get_prop (VObj (pre ++ ("items", i1) :: post)) "items")) []
               else ZArray ZAny [])
              = (if truthy (get_prop (VObj (pre ++ ("items", i2) :: post)) "items")
                 then ZArray (itemValidator
                                (get_prop (VObj (pre ++ ("items", i2) :: post)) "items")) []
                 else ZArray ZAny [])) as ->; [|reflexivity].
      unfold get_prop at 1 2 3 4.
      destruct (lookup_key_middle "items" "items" i1 i2 pre post)
        as [-> | (_ & -> & ->)]; [reflexivity|].
      cbn [default from_option id]. rewrite Htr.
      unfold itemValidator. rewrite Hty. reflexivity. }
    destruct (baseRule _ _) as [base| |]; cbn [bind]; [| reflexivity ..].
    cbn [own_props]. rewrite !applyModifiers_items.
    destruct (applyModifiers _ _ _ _ _) as [z| |]; cbn [bind]; [| reflexivity ..].
    unfold passwordStep, defaultStep.
    rewrite (get_prop_middle "regex" i1 i2), (get_prop_middle "default" i1 i2),
      (get_prop_middle "required" i1 i2) by discriminate.
    reflexivity.
  - intros Href. unfold fieldConfigOf. cbn [get_member bind own_props].
    rewrite (get_prop_middle "type" i1 i2) by discriminate.
    unfold applyProps. rewrite !fold_left_app. cbn [fold_left fst snd].
    unfold applyProp at 2 4. cbn [String.eqb Ascii.eqb Bool.eqb orb].
    unfold applyItems. rewrite Hty, Htr, Href. reflexivity.
Qed.

(** ** Degenerate definitions *)


(** ** The schema of the demo server *)

(** X28: The validation schema the demo server builds at start-up from its
    [userSchema] accepts a request body with the five fields [name], [age],
    [email], [password] and [tags] exactly when the name has 3 to 50
    characters, the age is between 0 and 120, the e-mail is well formed, the
    password has at least 8 characters and matches the pattern of the
    definition, and there are at most 10 tags: [role], [profile],
    [isActive] and [score] may be left out, and the default password
    pattern is not applied. *)
Theorem server_schema_accepts :
  exists (result : schemaPair) (st : store),
    createSchemas Zod4 userSchema VUndefined empty_store = Returned 0%nat st
    /\ pairs st = [result]
    /\ (exists shape rule,
          zodSchema result = ZObject shape Strip
          /\ lookup_key "password" shape = Some rule
          /\ has_password_pattern rule = false)
    /\ forall (name email password : string) (age : Z) (tags : list string),
        accepts (zodSchema result)
          (VObj [("name", VStr name); ("age", VNum age); ("email", VStr email);
                 ("password", VStr password); ("tags", VArr (map VStr tags))])
        = (3 <=? str_length name)%Z && (str_length name <=? 50)%Z
          && (0 <=? age)%Z && (age <=? 120)%Z
          && email_test email
          && (8 <=? str_length password)%Z
          && regexp_test "^(?=.*[a-z])(?=.*[A-Z])(?=.*\d)[a-zA-Z\d@$!%*?&]{8,}$" ""
               password
          && (Z.of_nat (length tags) <=? 10)%Z.
Proof.
  rewrite (createSchemas_cases Zod4 userSchema VUndefined empty_store
             (VBool true) (VObj []) eq_refl).
  cbv zeta. cbn [truthy empty_store schemaCache pairs]. rewrite lookup_empty.
  assert (exists m, createMongooseSchema userSchema (VObj []) = Ret m) as [m Hm]
    by (eexists; reflexivity).
  unfold compilePair. rewrite Hm. cbn [bind].
  destruct (createZodSchema Zod4 (VObj []) userSchema) as [z| |] eqn:Hz;
    [| cbv in Hz; discriminate Hz ..].
  cbn [bind]. eexists. eexists. split; [reflexivity|]. split; [reflexivity|].
  cbn [zodSchema]. cbv in Hz. injection Hz as <-.
  split; [eexists; eexists; split; [reflexivity|]; split; reflexivity|].
  intros name email password age tags.
  cbn [accepts forallb fst snd get_prop lookup_key String.eqb Ascii.eqb Bool.eqb
       default from_option id str_checks bound_checks ge_bound le_bound ToNumber
       regex_test andb].
  match goal with
  | |- context [forallb ?f (map VStr tags)] =>
      assert (forallb f (map VStr tags) = true) as ->
        by (clear; induction tags as [|t tags IH]; [reflexivity | exact IH])
  end.
  rewrite length_map.
  assert ((0 <=? Z.of_nat (length tags))%Z = true) as -> by (apply Z.leb_le; lia).
  rewrite ?andb_true_l, ?andb_true_r, ?andb_assoc, ?andb_true_r. reflexivity.
Qed.

(** ** The schema of the example module *)

(** X29: The validation schema the example module exports accepts an
    object with a string [name], a string [email] and a number [age]
    exactly when the name has 3 to 50 characters, the e-mail is well formed
    and the age is between 0 and 120, whatever other keys the object has;
    it rejects every object that lacks one of the three. *)
Theorem example_schema_accepts :
  exists (result : schemaPair) (st : store),
    createSchemas Zod4 exampleSchema VUndefined empty_store = Returned 0%nat st
    /\ pairs st = [result]
    /\ (forall (body : obj value) (name email : string) (age : Z),
          lookup_key "name" body = Some (VStr name) ->
          lookup_key "email" body = Some (VStr email) ->
          lookup_key "age" body = Some (VNum age) ->
          accepts (zodSchema result) (VObj body)
          = (3 <=? str_length name)%Z && (str_length name <=? 50)%Z
            && email_test email && (0 <=? age)%Z && (age <=? 120)%Z)
    /\ (forall body : obj value,
          lookup_key "name" body = None \/ lookup_key "email" body = None
          \/ lookup_key "age" body = None ->
          accepts (zodSchema result) (VObj body) = false).
Proof.
  rewrite (createSchemas_cases Zod4 exampleSchema VUndefined empty_store
             (VBool true) (VObj []) eq_refl).
  cbv zeta. cbn [truthy empty_store schemaCache pairs]. rewrite lookup_empty.
  assert (exists m, createMongooseSchema exampleSchema (VObj []) = Ret m) as [m Hm]
    by (eexists; reflexivity).
  unfold compilePair. rewrite Hm. cbn [bind].
  destruct (createZodSchema Zod4 (VObj []) exampleSchema) as [z| |] eqn:Hz;
    [| cbv in Hz; discriminate Hz ..].
  cbn [bind]. eexists. eexists. split; [reflexivity|]. split; [reflexivity|].
  cbn [zodSchema]. cbv in Hz. injection Hz as <-.
  split.
  - intros body name email age Hn He Ha.
    cbn [accepts forallb fst snd get_prop]. rewrite Hn, He, Ha.
    cbn [default from_option id str_checks bound_checks forallb ge_bound le_bound
         ToNumber andb].
    rewrite ?andb_true_l, ?andb_true_r, ?andb_assoc, ?andb_true_r. reflexivity.
  - intros body H. cbn [accepts forallb fst snd get_prop].
    destruct H as [H | [H | H]]; rewrite H; cbn [default from_option id];
      rewrite ?andb_false_r; reflexivity.
Qed.

End Coverage.

(** * The properties at concrete inputs *)



(** The example of the specification for the password step. *)
Lemma password_example :
  exists z,
    createZodSchema (R := sample_runtime) Zod4 VUndefined
      (VObj [("password", VObj [("type", VStr "String"); ("minlength", VNum 8)])])
    = Ret (ZObject [("password", z)] Strip)
    /\ has_password_pattern z = true
    /\ accepts (R := sample_runtime) z (VStr "weak") = false
    /\ accepts (R := sample_runtime) z (VStr "Str0ng!ab") = true.
Proof. eexists. split; [reflexivity|]. repeat split. Qed.

(** C1, as stated, fails: a modifier that follows [enum] still applies, and
    with [required: false] after it the compiled rule accepts undefined. *)
Lemma C1_enum_counterexample :
  createZodSchema (R := sample_runtime) Zod4 VUndefined
    (VObj [("role", VObj [("type", VStr "String");
                          ("enum", VArr [VStr "user"; VStr "admin"]);
                          ("required", VBool false)])])
  = Ret (ZObject
           [("role", ZOptional (enumRule ["user"; "admin"]
                                  "role must be one of: user, admin"))]
           Strip)
  /\ accepts (R := sample_runtime)
       (ZOptional (enumRule ["user"; "admin"] "role must be one of: user, admin"))
       VUndefined = true.
Proof. split; reflexivity. Qed.

Lemma C1_enum_replaces_rule_witness :
  createZodSchema (R := sample_runtime) Zod4 VUndefined
    (VObj [("status", VObj [("type", VStr "Number");
                            ("enum", VArr [VStr "A"; VStr "B"])])])
  = Ret (ZObject [("status", enumRule ["a"; "b"] "status must be one of: A, B")] Strip)
  /\ accepts (R := sample_runtime)
       (enumRule ["a"; "b"] "status must be one of: A, B") (VStr "a") = true
  /\ accepts (R := sample_runtime)
       (enumRule ["a"; "b"] "status must be one of: A, B") (VStr "c") = false.
Proof.
  destruct (C1_enum_replaces_rule (R := sample_runtime) Zod4 VUndefined
              [("status", VObj [("type", VStr "Number");
                                ("enum", VArr [VStr "A"; VStr "B"])])]
              [("type", VStr "Number")] [] "status" ["A"; "B"]
              (ZObject [("status", enumRule ["a"; "b"] "status must be one of: A, B")]
                       Strip))
    as [Hacc _].
  - apply (bool_decide_unpack _). vm_compute. exact I.
  - simpl. intros [E | []]. discriminate E.
  - left. reflexivity.
  - reflexivity.
  - split; [reflexivity|]. split.
    + apply Hacc. exists "a". split; [reflexivity | simpl; tauto].
    + destruct (accepts (R := sample_runtime)
                  (enumRule ["a"; "b"] "status must be one of: A, B") (VStr "c"))
        eqn:E; [|reflexivity].
      apply Hacc in E. destruct E as (s & [= <-] & Hin). simpl in Hin.
      destruct Hin as [Hin | [Hin | []]]; discriminate.
Defined.

(** C8, as stated, fails: with [required: true] and a default the last step
    adds no [.optional()], and the rule accepts a missing value all the
    same, since it is the result of [.default()]. *)
Lemma C8_default_counterexample :
  createZodSchema (R := sample_runtime) Zod4 VUndefined
    (VObj [("role", VObj [("type", VStr "String"); ("required", VBool true);
                          ("default", VStr "user")])])
  = Ret (ZObject [("role", ZDefault (ZString []) (VStr "user"))] Strip)
  /\ isOptional (R := sample_runtime) (ZDefault (ZString []) (VStr "user")) = true
  /\ accepts (R := sample_runtime)
       (ZObject [("role", ZDefault (ZString []) (VStr "user"))] Strip) (VObj [])
     = true.
Proof. repeat split. Qed.

(** [score] has a default and no [required]: its rule is wrapped by
    [.optional()].  [role] has a default and [required: true]: its rule is
    not, and accepts a missing value as well. *)
Lemma C8_default_optional_witness :
  exists shape z z',
    createZodSchema (R := sample_runtime) Zod4 VUndefined
      (VObj [("score", VObj [("type", VStr "Number"); ("default", VNum 0)]);
             ("role", VObj [("type", VStr "String"); ("required", VBool true);
                            ("default", VStr "user")])])
    = Ret (ZObject shape Strip)
    /\ lookup_key "score" shape = Some z
    /\ is_optional z = true /\ isOptional (R := sample_runtime) z = true
    /\ lookup_key "role" shape = Some z'
    /\ is_optional z' = false /\ isOptional (R := sample_runtime) z' = true.
Proof.
  pose (fields := [("score", VObj [("type", VStr "Number"); ("default", VNum 0)]);
                   ("role", VObj [("type", VStr "String"); ("required", VBool true);
                                  ("default", VStr "user")])]).
  pose (zs := ZObject [("score", ZOptional (ZDefault (ZNumber []) (VNum 0)));
                       ("role", ZDefault (ZString []) (VStr "user"))] Strip).
  assert (NoDup (map fst fields)) as Hnd
    by (apply (bool_decide_unpack _); vm_compute; exact I).
  assert (~ In "__proto__" (map fst fields)) as Hproto
    by (simpl; intros [E | [E | []]]; discriminate E).
  destruct (C8_default_optional (R := sample_runtime) Zod4 VUndefined fields
              [("type", VStr "Number"); ("default", VNum 0)] "score" zs)
    as (shape & z & Hs & Hl & Hopt & _);
    [exact Hnd | exact Hproto | left; reflexivity
     | apply (bool_decide_unpack _); vm_compute; exact I | reflexivity |].
  destruct (C8_default_optional (R := sample_runtime) Zod4 VUndefined fields
              [("type", VStr "String"); ("required", VBool true);
               ("default", VStr "user")] "role" zs)
    as (shape' & z' & Hs' & Hl' & _ & Hreq & Hdef);
    [exact Hnd | exact Hproto | right; left; reflexivity
     | apply (bool_decide_unpack _); vm_compute; exact I | reflexivity |].
  assert (shape' = shape) as -> by congruence.
  exists shape, z, z'.
  split; [rewrite <- Hs; reflexivity|].
  split; [exact Hl|].
  destruct Hopt as [Ho1 Ho2]; [discriminate | discriminate |].
  split; [exact Ho1|]. split; [exact Ho2|].
  split; [exact Hl'|]. split; [apply Hreq; reflexivity|].
  apply (Hdef [("type", VStr "String"); ("required", VBool true)] [] (VStr "user"));
    [reflexivity | discriminate | simpl; tauto].
Defined.

Lemma C9_definition_unchanged_witness :
  exists h' : gmap nat hobject,
    createZodSchemaOn (R := sample_runtime) 4 Zod4 (Imm VUndefined) (Ref 0) sample_heap
    = HDone (createZodSchema (R := sample_runtime) Zod4 VUndefined sample_definition) h'
    /\ sample_heap ⊆ h'
    /\ read 4 (Ref 0) h' = HDone sample_definition h'
    /\ read 4 (Imm VUndefined) h' = HDone VUndefined h'.
Proof.
  apply (C9_definition_unchanged (R := sample_runtime) 4 Zod4
           (Imm VUndefined) (Ref 0) VUndefined sample_definition sample_heap).
  - reflexivity.
  - vm_compute. reflexivity.
Defined.

(** ** The further properties at concrete inputs *)

Lemma getCustomMessage_returns_witness :
  getCustomMessage (R := sample_runtime) "age" "min" (VNum 18)
    (VObj [("age.min", VStr "Too young")]) = Ret (VStr "Too young")
  /\ getCustomMessage (R := sample_runtime) "age" "email" (VNum 18) VUndefined
     = Ret (VStr "age must be a valid email address")
  /\ getCustomMessage (R := sample_runtime) "age" "constructor" (VNum 18) (VObj [])
     = Ret (VBuiltin BObject)
  /\ getCustomMessage (R := sample_runtime) "age" "unique" (VNum 18) (VObj [])
     = Ret (VStr "age validation failed").
Proof.
  destruct (getCustomMessage_returns (R := sample_runtime) "age" "min" (VNum 18)
              (VObj [("age.min", VStr "Too young")]))
    as (m1 & H1 & _ & E1 & _); [discriminate|].
  destruct (getCustomMessage_returns (R := sample_runtime) "age" "email" (VNum 18)
              VUndefined)
    as (m2 & H2 & _ & _ & E2); [discriminate|].
  destruct (getCustomMessage_returns (R := sample_runtime) "age" "constructor"
              (VNum 18) (VObj []))
    as (m3 & H3 & _ & _ & E3); [discriminate|].
  destruct (getCustomMessage_returns (R := sample_runtime) "age" "unique" (VNum 18)
              (VObj []))
    as (m4 & H4 & _ & _ & E4); [discriminate|].
  rewrite H1, H2, H3, H4, (E1 eq_refl), (E2 eq_refl), (E3 eq_refl), (E4 eq_refl).
  repeat split.
Defined.

Lemma regex_message_generic_witness :
  applyModifier (R := sample_runtime) Zod4 (VObj []) "email" "match"
    (VRegExp "^\S+@\S+$" "") (ZString [])
  = Ret (ZString [SRegex (RxUser "^\S+@\S+$" "") (VStr "email format is invalid")]).
Proof.
  apply (proj2 (regex_message_generic (R := sample_runtime) "email")
               "match" [] "^\S+@\S+$" "" []); [right; reflexivity | reflexivity].
Defined.

Lemma length_message_key_witness :
  applyModifier (R := sample_runtime) Zod4 (VObj []) "name" "minLength" (VStr "3")
    (ZString [])
  = Ret (ZString [SMin (VStr "3") (VStr "name must be at least 3 characters")]).
Proof.
  apply (proj1 (length_message_key (R := sample_runtime) "name" "minLength" []
                  (VStr "3") [])); [right; reflexivity | reflexivity].
Defined.

Lemma fieldConfig_keys_witness :
  NoDup (map fst [("type", VBuiltin BString); ("minlength", VNum 2)])
  /\ (forall k, In k (map fst [("type", VBuiltin BString); ("minlength", VNum 2)]) ->
                In k config_keys)
  /\ lookup_key "schema" [("type", VBuiltin BString); ("minlength", VNum 2)] = None
  /\ lookup_key "items" [("type", VBuiltin BString); ("minlength", VNum 2)] = None.
Proof.
  apply (fieldConfig_keys
           (VObj [("type", VStr "String"); ("minLength", VNum 2);
                  ("schema", VObj [])])).
  reflexivity.
Defined.

Lemma verbatim_modifiers_copied_witness :
  exists fieldConfig,
    fieldConfigOf (VObj [("type", VStr "String"); ("unique", VBool true)])
    = Ret fieldConfig
    /\ lookup_key "unique" fieldConfig = Some (VBool true).
Proof.
  apply (verbatim_modifiers_copied
           [("type", VStr "String"); ("unique", VBool true)] "unique" (VBool true)).
  - simpl. tauto.
  - apply (bool_decide_unpack _). vm_compute. exact I.
  - right. left. reflexivity.
Defined.

Lemma length_bounds_normalised_witness :
  exists fieldConfig,
    fieldConfigOf (VObj ([("type", VStr "String")] ++ ("minLength", VNum 2) :: []))
    = Ret fieldConfig
    /\ lookup_key "minlength" fieldConfig = Some (VNum 2)
    /\ lookup_key "minLength" fieldConfig = None
    /\ lookup_key "maxLength" fieldConfig = None.
Proof.
  apply (length_bounds_normalised [("type", VStr "String")] [] "minLength"
           "minlength" (VNum 2)).
  - left. split; [reflexivity | right; reflexivity].
  - simpl. tauto.
Defined.

Lemma last_validator_wins_witness :
  exists fieldConfig,
    fieldConfigOf (VObj ([("type", VStr "String"); ("email", VBool true)]
                         ++ ("match", VStr "^a") :: [("unique", VBool true)]))
    = Ret fieldConfig
    /\ lookup_key "validate" fieldConfig
       = Some (validate_with (PatternValidator "^a") "Invalid format").
Proof.
  apply (last_validator_wins [("type", VStr "String"); ("email", VBool true)]
           [("unique", VBool true)] "match" (VStr "^a")).
  - reflexivity.
  - intros p v [[= <- <-] | []]. reflexivity.
Defined.

Lemma no_validator_without_modifier_witness :
  exists fieldConfig,
    fieldConfigOf (VObj [("type", VStr "String"); ("email", VStr "yes")])
    = Ret fieldConfig
    /\ lookup_key "validate" fieldConfig = None.
Proof.
  apply (no_validator_without_modifier
           [("type", VStr "String"); ("email", VStr "yes")]).
  intros p v [[= <- <-] | [[= <- <-] | []]]; reflexivity.
Defined.

Lemma compiled_field_names_witness :
  exists shape m,
    createZodSchema (R := sample_runtime) Zod4 VUndefined
      (VObj [("name", VObj [("type", VStr "String")]);
             ("age", VObj [("type", VStr "Number")])])
    = Ret (ZObject shape Strip)
    /\ createMongooseSchema
         (VObj [("name", VObj [("type", VStr "String")]);
                ("age", VObj [("type", VStr "Number")])]) VUndefined = Ret m
    /\ map fst shape = ["name"; "age"]
    /\ map fst (schema_definition m) = ["name"; "age"].
Proof.
  pose (fields := [("name", VObj [("type", VStr "String")]);
                   ("age", VObj [("type", VStr "Number")])]).
  pose (m := {| schema_definition := [("name", [("type", VBuiltin BString)]);
                                      ("age", [("type", VBuiltin BNumber)])];
                schema_options := finalSchemaOptions (VObj []);
                schema_calls := [] |}).
  destruct (compiled_field_names (R := sample_runtime) Zod4 fields VUndefined
              VUndefined
              (ZObject [("name", ZString []); ("age", ZNumber [])] Strip) m)
    as (shape & Hs & Hk & Hm).
  - apply (bool_decide_unpack _). vm_compute. exact I.
  - simpl. intros [E | [E | []]]; discriminate E.
  - reflexivity.
  - reflexivity.
  - exists shape, m. split; [rewrite <- Hs; reflexivity|].
    split; [reflexivity|]. split; [exact Hk | exact Hm].
Defined.

Lemma unknown_type_asymmetry_witness :
  compileField (R := sample_runtime) Zod4 (Throw TypeError) (VObj []) "id"
    (VObj [("type", VStr "uuid")])
  = Throw (Error "Invalid type: uuid")
  /\ exists fieldConfig,
      fieldConfigOf (VObj [("type", VStr "uuid")]) = Ret fieldConfig
      /\ lookup_key "type" fieldConfig = Some (VStr "uuid").
Proof.
  apply (unknown_type_asymmetry (R := sample_runtime) Zod4 (Throw TypeError)
           (VObj []) "id" [("type", VStr "uuid")]).
  reflexivity.
Defined.

Lemma first_failure_aborts_witness :
  createZodSchema (R := sample_runtime) Zod4 VUndefined
    (VObj ([("name", VObj [("type", VStr "String")])]
           ++ ("age", VNull) :: [("id", VObj [("type", VStr "uuid")])]))
  = Throw TypeError.
Proof.
  apply (first_failure_aborts (R := sample_runtime) Zod4 VUndefined (VObj [])
           [("name", VObj [("type", VStr "String")])]
           [("id", VObj [("type", VStr "uuid")])] "age" VNull
           (ZObject [("name", ZString [])] Strip) TypeError); reflexivity.
Defined.

Lemma modifiers_after_wrapper_lost_witness :
  applyModifiers (R := sample_runtime) Zod4 (VObj []) "nick"
    ([("type", VStr "String")] ++ ("required", VBool false) :: [("minlength", VNum 3)])
    (ZString [])
  = Ret (ZOptional (ZString [])).
Proof.
  rewrite (modifiers_after_wrapper_lost (R := sample_runtime) Zod4 (VObj []) "nick"
             "required" (VBool false) [("type", VStr "String")]
             [("minlength", VNum 3)] (ZString []));
    [reflexivity | left; split; reflexivity | reflexivity].
Defined.

Lemma length_bounds_inclusive_witness :
  exists z,
    applyModifier (R := sample_runtime) Zod4 (VObj []) "name" "minLength" (VNum 3)
      (ZString []) = Ret z
    /\ accepts (R := sample_runtime) z (VStr "abc") = true
    /\ accepts (R := sample_runtime) z (VStr "ab") = false.
Proof.
  destruct (proj1 (length_bounds_inclusive (R := sample_runtime) (VObj []) "name" 3 []
                     ltac:(discriminate) ltac:(discriminate))
                  "minLength" (or_intror eq_refl)) as (z & Hz & Hacc).
  exists z. split; [exact Hz|]. rewrite !Hacc. split; reflexivity.
Defined.

Lemma value_bounds_inclusive_witness :
  applyModifier (R := sample_runtime) Zod4 (VObj []) "name" "min" (VNum 3) (ZString [])
  = Ret (ZString [])
  /\ applyModifier (R := sample_runtime) Zod4 (VObj []) "name" "max" (VNum 3)
       (ZString []) = Ret (ZString []).
Proof.
  apply (proj2 (proj2 (value_bounds_inclusive (R := sample_runtime) (VObj []) "name" 3))
               (ZString [])); discriminate.
Defined.

Lemma shorthand_names_case_sensitive_witness :
  shorthandRule (R := sample_runtime) "tags" [VObj [("type", VStr "string")]]
  = Ret (ZArray ZAny [])
  /\ baseRule (R := sample_runtime) (Throw TypeError) (VObj [("type", VStr "string")])
     = ruleOfType (Throw TypeError) (VObj [("type", VStr "string")]) BString
  /\ baseRule (R := sample_runtime) (Throw TypeError) (VObj [("type", VStr "string")])
     <> Ret ZAny.
Proof.
  apply (shorthand_names_case_sensitive (R := sample_runtime) "tags" "string" BString
           [("type", VStr "string")] [] (Throw TypeError));
    try discriminate; try reflexivity.
  left. reflexivity.
Defined.

Lemma shorthand_enum_witness :
  shorthandRule (R := sample_runtime) "levels"
    [VObj [("type", VStr "Number"); ("enum", VArr (map VStr ["low"; "high"]))]]
  = Throw TypeError.
Proof.
  apply (proj2 (shorthand_enum (R := sample_runtime) "levels"
                  [("type", VStr "Number"); ("enum", VArr (map VStr ["low"; "high"]))]
                  [] ["low"; "high"] eq_refl)).
  reflexivity.
Defined.

Lemma nested_schema_only_by_name_witness :
  compileField (R := sample_runtime) Zod4
    (createZodSchema (R := sample_runtime) Zod4 VUndefined
       (VObj [("bio", VObj [("type", VStr "String")])]))
    (VObj []) "profile"
    (VObj [("type", VStr "Object");
           ("schema", VObj [("bio", VObj [("type", VStr "String")])])])
  = Ret (ZObject [("bio", ZString [])] Strip)
  /\ compileField (R := sample_runtime) Zod4
       (createZodSchema (R := sample_runtime) Zod4 VUndefined
          (VObj [("bio", VObj [("type", VStr "String")])]))
       (VObj []) "profile"
       (VObj [("type", VBuiltin BObject);
              ("schema", VObj [("bio", VObj [("type", VStr "String")])])])
     = Ret (ZObject [] Passthrough)
  /\ fieldConfigOf
       (VObj [("type", VStr "Object");
              ("schema", VObj [("bio", VObj [("type", VStr "String")])])])
     = Ret [("type", VBuiltin BMixed)].
Proof.
  apply (nested_schema_only_by_name (R := sample_runtime) Zod4 VUndefined (VObj [])
           "profile" "Object" (VObj [("bio", VObj [("type", VStr "String")])])
           (ZObject [("bio", ZString [])] Strip)); reflexivity.
Defined.


Lemma cache_stays_sound_witness :
  cache_sound (R := sample_runtime) Zod4 (store_after [name_schema]).
Proof.
  apply (cache_stays_sound (R := sample_runtime) Zod4 name_schema VUndefined
           empty_store (store_after [name_schema]) 0%nat).
  - intros key r H. unfold empty_store in H. cbn [schemaCache] in H.
    rewrite lookup_empty in H. discriminate H.
  - vm_compute. reflexivity.
Defined.

Lemma normalize_returns_only_readable_witness :
  VObj [("issues", VArr [VObj [("message", VStr "Too short")]])] <> VUndefined
  /\ VObj [("issues", VArr [VObj [("message", VStr "Too short")]])] <> VNull
  /\ exists entries,
      js_or (js_or (get_prop (VObj [("issues", VArr [VObj [("message", VStr "Too short")]])])
                             "issues")
                   (get_prop (VObj [("issues", VArr [VObj [("message", VStr "Too short")]])])
                             "errors"))
            (VArr [])
      = VArr entries
      /\ forallb readable_entry entries = true
      /\ VArr [VObj [("field", VStr "unknown"); ("message", VStr "Too short");
                     ("code", VStr "unknown"); ("value", VUndefined);
                     ("type", VStr "unknown")]]
         = VArr (map (expected_row (R := sample_runtime)) entries).
Proof.
  apply (normalize_returns_only_readable (R := sample_runtime)
           (VObj [("issues", VArr [VObj [("message", VStr "Too short")]])])).
  reflexivity.
Defined.

Lemma normalized_rows_shape_witness :
  exists field message code v type,
    VObj [("field", VStr "unknown"); ("message", VStr "Too short");
          ("code", VStr "unknown"); ("value", VUndefined); ("type", VStr "unknown")]
    = VObj [("field", VStr field); ("message", message); ("code", code);
            ("value", v); ("type", type)]
    /\ truthy message = true /\ truthy code = true /\ truthy type = true.
Proof.
  apply (normalized_rows_shape (R := sample_runtime)
           (VObj [("issues", VArr [VObj [("message", VStr "Too short")]])])
           [VObj [("field", VStr "unknown"); ("message", VStr "Too short");
                  ("code", VStr "unknown"); ("value", VUndefined);
                  ("type", VStr "unknown")]]).
  - reflexivity.
  - left. reflexivity.
Defined.

Lemma null_options_witness :
  (exists e, createMongooseSchema (VObj []) (VObj [("middleware", VNull)]) = Throw e)
  /\ createMongooseSchema (VObj []) (VObj [("virtuals", VNull)])
     = createMongooseSchema (VObj [])
         (VObj (set_key "virtuals" (VObj []) [("virtuals", VNull)])).
Proof.
  split.
  - apply (proj1 (null_options (VObj []) [("middleware", VNull)] "virtuals")).
    reflexivity.
  - apply (proj2 (null_options (VObj []) [("virtuals", VNull)] "virtuals"));
      [left; reflexivity | reflexivity].
Defined.

Lemma items_element_type_witness :
  exists fieldConfig,
    fieldConfigOf (VObj [("type", VStr "array");
                         ("items", VObj [("type", VStr "ObjectId")])])
    = Ret fieldConfig
    /\ lookup_key "type" fieldConfig = Some (VArr [VBuiltin BObjectId]).
Proof.
  destruct (items_element_type
              [("type", VStr "array"); ("items", VObj [("type", VStr "ObjectId")])]
              (VObj [("type", VStr "ObjectId")]))
    as (fieldConfig & Hc & H).
  - apply (bool_decide_unpack _). vm_compute. exact I.
  - right. left. reflexivity.
  - exists fieldConfig. split; [exact Hc|].
    cbv zeta in H. simpl in H. destruct H as (b & Ht & _ & _ & Halias & _).
    rewrite Ht, (Halias "ObjectId" BObjectId eq_refl); [reflexivity|].
    simpl. tauto.
Defined.

Lemma required_by_default_witness :
  accepts (R := sample_runtime)
    (ZObject [("name", ZString []); ("note", ZAny)] Strip) (VObj [("note", VNum 1)])
  = false.
Proof.
  apply (required_by_default (R := sample_runtime) Zod4 VUndefined
           [("name", VObj [("type", VStr "String"); ("required", VBool true)]);
            ("note", VObj [("type", VStr "Mixed")])]
           [("type", VStr "String"); ("required", VBool true)]
           [("note", VNum 1)] "name").
  - reflexivity.
  - apply (bool_decide_unpack _). vm_compute. exact I.
  - simpl. intros [E | [E | []]]; discriminate E.
  - left. reflexivity.
  - intros v [[=] | [[= <-] | []]]. discriminate.
  - reflexivity.
  - discriminate.
  - reflexivity.
Defined.

Lemma items_carry_only_type_witness :
  compileField (R := sample_runtime) Zod4 (Throw TypeError) (VObj []) "tags"
    (VObj ([("type", VStr "Array")]
           ++ ("items", VObj [("type", VStr "String"); ("minlength", VNum 2)]) :: []))
  = compileField (R := sample_runtime) Zod4 (Throw TypeError) (VObj []) "tags"
      (VObj ([("type", VStr "Array")] ++ ("items", VObj [("type", VStr "String")]) :: [])).
Proof.
  apply (proj1 (items_carry_only_type (R := sample_runtime) Zod4 (Throw TypeError)
                  (VObj []) "tags" [("type", VStr "Array")] []
                  (VObj [("type", VStr "String"); ("minlength", VNum 2)])
                  (VObj [("type", VStr "String")]) eq_refl eq_refl)).
Defined.

